(** * Cogman gate: admission, trace lifecycle, working-memory router, runtime loop

    A shallow embedding of the control core of the repository:

    - [perception/trajectory_builder.py]  (Trace, TrajectoryBuilder, TraceManager)
    - [gate/gatecore.py], [gate/decision_gate.py], [gate/gate_policy.py],
      [bridge/kernel_bridge.py]           (GateCore and the decision gate)
    - [runtime/gatecore_adapter.py]       (GateCoreAdapter.admit_with_trace)
    - [runtime/wm_controller.py]          (WMController)
    - [runtime/error_handler.py], [runtime/main_loop.py]  (RuntimeLoop)
    - [memory/episodic_field.py], [memory/semantic_field.py],
      [memory/procedural_field.py], [memory/identity_field.py]
                                          (the fields behind the router)
    - [runtime/scheduler.py]              (Scheduler)

    Python floats are IEEE-754 binary64 numbers and are modelled by Rocq's
    primitive floats, so [x > y] is [PrimFloat.ltb y x], [x * 1.1] is
    [PrimFloat.mul x 1.1] with the same rounding, and a literal such as
    [0.85] denotes the same double as in the source.  Dictionaries are
    [gmap]s keyed by strings.  Effects ([time.time()], [uuid.uuid4()],
    logging, raised exceptions) are threaded through a state-and-exception
    monad over an explicit [World]. *)

From Stdlib Require Import Floats ZArith Lia.
From stdpp Require Import gmap strings list fin_maps.

Set Warnings "-inexact-float,-register-all".

(** ** Python values and float comparisons *)

(** The values stored under [Dict[str, Any]] keys in the code that is
    modelled: [None], booleans, strings, floats and nested dictionaries. *)
Inductive PyVal : Type :=
| VNone
| VBool (b : bool)
| VStr (s : string)
| VFloat (x : float)
| VDict (d : gmap string PyVal).

Abbreviation PyDict := (gmap string PyVal).

(** Python's comparison operators on floats.  Every comparison with a NaN
    is [False], exactly as [PrimFloat.ltb], [leb] and [eqb] compute. *)
Definition fgt (x y : float) : bool := PrimFloat.ltb y x.
Definition flt (x y : float) : bool := PrimFloat.ltb x y.
Definition fge (x y : float) : bool := PrimFloat.leb y x.
Definition fle (x y : float) : bool := PrimFloat.leb x y.
Definition feq (x y : float) : bool := PrimFloat.eqb x y.

(** [min(a, b)] of Python on two arguments: [b] when [b < a], else [a]. *)
Definition py_min (a b : float) : float := if flt b a then b else a.

(** Truth value of a Python object, as [if x:], [all(...)] use it. *)
Definition truthy (v : PyVal) : bool :=
  match v with
  | VNone => false
  | VBool b => b
  | VStr s => negb (String.eqb s "")
  | VFloat x => negb (feq x 0%float)
  | VDict d => negb (bool_decide (size d = 0))
  end.

(** [d.get(k, default)] on a dictionary of floats. *)
Definition get_float (d : gmap string float) (k : string) (dflt : float) : float :=
  default dflt (d !! k).

(** [d.get(k, default)] on a dictionary of arbitrary values. *)
Definition get_val (d : PyDict) (k : string) (dflt : PyVal) : PyVal :=
  default dflt (d !! k).

(** ** Effects: a state-and-exception monad *)

(** Instances of Python's [Exception] that the modelled code raises or
    receives from its collaborators: the class name and the message. *)
Inductive PyExc : Type :=
| ValueError (msg : string)
| RuntimeError (msg : string)
| OtherError (cls msg : string).

Definition exc_type_name (e : PyExc) : string :=
  match e with
  | ValueError _ => "ValueError"
  | RuntimeError _ => "RuntimeError"
  | OtherError cls _ => cls
  end.

Definition exc_message (e : PyExc) : string :=
  match e with
  | ValueError m | RuntimeError m | OtherError _ m => m
  end.

Inductive LogLevel := DEBUG | INFO | WARNING | ERROR | CRITICAL.

(** One record of [GateTrace.traces]. *)
Record GateTraceEntry := {
  gt_timestamp : float;
  gt_decision : string;
  gt_state : gmap string float;
  gt_reason : string
}.

(** [runtime.main_loop.Phase], in canonical order. *)
Inductive Phase : Type :=
| IDLE | INPUT_INTAKE | SENSORY_ADAPTATION | PERCEPTION_BOUNDARY
| TRAJECTORY_ADMISSION | WORKING_MEMORY_CONTROL | REASONING | DECISION
| ACTION_OUTPUT | POST_PROCESSING.

(** [runtime.error_handler.ErrorSeverity] *)
Module ErrorSeverity.
Inductive t := LOW | MEDIUM | HIGH | CRITICAL.
(** The enumeration member's [.value]. *)
Definition value (s : t) : string :=
  match s with
  | LOW => "low" | MEDIUM => "medium" | HIGH => "high" | CRITICAL => "critical"
  end.
End ErrorSeverity.

(** One [error_info] dictionary of [RuntimeErrorHandler.error_history]. *)
Record ErrorInfo := {
  ei_phase : string;
  ei_error_type : string;
  ei_error_message : string;
  ei_severity : string;
  ei_traceback : string;
  ei_context : PyDict;
  ei_timestamp : float
}.

(** The attributes of a [RuntimeErrorHandler]. *)
Record ErrorHandler := {
  error_count : Z;
  error_history : list ErrorInfo
}.

(** The mutable attributes of the [RuntimeLoop] instance. *)
Record LoopAttrs := {
  running : bool;
  current_phase : Phase;
  system_state : string
}.

(** What a call does: it returns a value or raises an exception. *)
Inductive Res (A : Type) : Type :=
| Ret (a : A)
| Raise (e : PyExc).
Arguments Ret {A} a.
Arguments Raise {A} e.

(** What [from memory import MemoryQuery, EPS8State as MemoryEPS8State]
    does when it is executed: it binds the two names, or it raises. *)
Inductive ImportOutcome : Type :=
| Imported
| ImportRaised (e : PyExc).

(** What the host provides and the program cannot change.  [clock] and
    [uuid_src] are the values that successive calls of [time.time()] and
    [str(uuid.uuid4())] return.  [fmt3] renders a float as the format spec
    [:.3f] does and [fmt] as [str()] does; [format_exc] is the text of
    [traceback.format_exc()] for the exception being handled.
    [error_handler_importable] tells whether
    [from .error_handler import ...] succeeds, and [memory_import] what
    [from memory import ...] does.  [builtin_sum] is the builtin [sum] on
    a sequence of floats, which adds from the left up to Python 3.11 and
    with compensation from 3.12 on.  [float_pow] is [x ** y] on two
    floats: the interpreter hands it to the [pow] of the C library, whose
    last digit differs between platforms, and raises an [OverflowError]
    when the result is out of range. *)
Record Host := {
  clock : nat -> float;
  uuid_src : nat -> string;
  fmt3 : float -> string;
  fmt : float -> string;
  format_exc : PyExc -> string;
  error_handler_importable : bool;
  memory_import : ImportOutcome;
  builtin_sum : list float -> float;
  float_pow : float -> float -> Res float
}.

(** The state of the run.  [ticks] and [uuids] count the calls of
    [time.time()] and [uuid.uuid4()] made so far, [log] is what the
    [logging] module received, [gate_traces] is [GateTrace.traces],
    [loop] holds the attributes of the [RuntimeLoop] instance and
    [error_handler] is the local variable of [RuntimeLoop.run]. *)
Record World := {
  host : Host;
  ticks : nat;
  uuids : nat;
  log : list (LogLevel * string);
  gate_traces : list GateTraceEntry;
  loop : LoopAttrs;
  error_handler : option ErrorHandler
}.

Definition set_ticks (n : nat) (w : World) : World :=
  {| host := host w; ticks := n; uuids := uuids w; log := log w;
     gate_traces := gate_traces w; loop := loop w;
     error_handler := error_handler w |}.
Definition set_uuids (n : nat) (w : World) : World :=
  {| host := host w; ticks := ticks w; uuids := n; log := log w;
     gate_traces := gate_traces w; loop := loop w;
     error_handler := error_handler w |}.
Definition set_log (l : list (LogLevel * string)) (w : World) : World :=
  {| host := host w; ticks := ticks w; uuids := uuids w; log := l;
     gate_traces := gate_traces w; loop := loop w;
     error_handler := error_handler w |}.
Definition set_gate_traces (l : list GateTraceEntry) (w : World) : World :=
  {| host := host w; ticks := ticks w; uuids := uuids w; log := log w;
     gate_traces := l; loop := loop w;
     error_handler := error_handler w |}.
Definition set_loop (a : LoopAttrs) (w : World) : World :=
  {| host := host w; ticks := ticks w; uuids := uuids w; log := log w;
     gate_traces := gate_traces w; loop := a;
     error_handler := error_handler w |}.
Definition set_error_handler (h : option ErrorHandler) (w : World) : World :=
  {| host := host w; ticks := ticks w; uuids := uuids w; log := log w;
     gate_traces := gate_traces w; loop := loop w;
     error_handler := h |}.

Definition M (A : Type) : Type := World -> Res A * World.

Definition ret {A} (a : A) : M A := fun w => (Ret a, w).
Definition raise {A} (e : PyExc) : M A := fun w => (Raise e, w).
Definition bind {A B} (c : M A) (k : A -> M B) : M B :=
  fun w => match c w with
           | (Ret a, w') => k a w'
           | (Raise e, w') => (Raise e, w')
           end.

Notation "x <- c ;; k" := (bind c (fun x => k))
  (at level 100, c at next level, right associativity).
Notation "c ;;; k" := (bind c (fun _ => k))
  (at level 100, right associativity).

(** A computation that returns or raises without touching the state. *)
Definition lift_res {A} (r : Res A) : M A := fun w => (r, w).

(** A loop that collects the results of [f] on the items of a list and
    stops at the first that raises. *)
Fixpoint map_m {A B} (f : A -> M B) (l : list A) : M (list B) :=
  match l with
  | [] => ret []
  | x :: rest =>
      y <- f x ;;
      ys <- map_m f rest ;;
      ret (y :: ys)
  end.

(** Reading and updating the state. *)
Definition gets {A} (f : World -> A) : M A := fun w => (Ret (f w), w).
Definition modify (f : World -> World) : M unit := fun w => (Ret tt, f w).

(** [time.time()] *)
Definition time_time : M float :=
  fun w => (Ret (clock (host w) (ticks w)), set_ticks (S (ticks w)) w).

(** [str(uuid.uuid4())] *)
Definition uuid4 : M string :=
  fun w => (Ret (uuid_src (host w) (uuids w)), set_uuids (S (uuids w)) w).

(** [logger.log(level, msg)] *)
Definition logger_log (lvl : LogLevel) (msg : string) : M unit :=
  modify (fun w => set_log (log w ++ [(lvl, msg)]) w).

Definition logger_info := logger_log INFO.
Definition logger_warning := logger_log WARNING.
Definition logger_error := logger_log ERROR.

(** [f"{x:.3f}"] and [f"{x}"] *)
Definition format3 (x : float) : M string := gets (fun w => fmt3 (host w) x).
Definition format_float (x : float) : M string := gets (fun w => fmt (host w) x).

(** [GateTrace.trace(decision, state, reason)] *)
Definition gate_trace_trace (decision : string) (st : gmap string float)
    (reason : string) : M unit :=
  now <- time_time ;;
  modify (fun w => set_gate_traces
                     (gate_traces w ++
                        [{| gt_timestamp := now; gt_decision := decision;
                            gt_state := st; gt_reason := reason |}]) w).

(** ** perception/trajectory_builder.py *)

Inductive TraceState : Type :=
| CREATED | ACTIVE | BLOCKED | COMPLETED | INVALID | ARCHIVED.

#[global] Instance TraceState_eq_dec : EqDecision TraceState.
Proof. solve_decision. Defined.

Definition state_name (s : TraceState) : string :=
  match s with
  | CREATED => "CREATED"
  | ACTIVE => "ACTIVE"
  | BLOCKED => "BLOCKED"
  | COMPLETED => "COMPLETED"
  | INVALID => "INVALID"
  | ARCHIVED => "ARCHIVED"
  end.

(** The frozen dataclass [Trace]. *)
Record Trace := {
  trace_id : string;
  state : TraceState;
  created_at : float;
  closed_at : option float;
  origin : PyDict;
  context : PyDict;
  lifecycle_log : list PyDict
}.

(** [TrajectoryBuilder.create_trace] *)
Definition create_trace (origin context : PyDict) : M Trace :=
  trace_id <- uuid4 ;;
  created_at <- time_time ;;
  let lifecycle_log : list PyDict :=
    [ <["event" := VStr "TRACE_CREATED"]>
      (<["trace_id" := VStr trace_id]>
      (<["source" := get_val origin "source_id" (VStr "unknown")]>
      (<["modality" := get_val origin "modality" (VStr "text")]>
      (<["timestamp" := VFloat created_at]> ∅)))) ] in
  let trace := {| trace_id := trace_id; state := CREATED;
                  created_at := created_at; closed_at := None;
                  origin := origin; context := context;
                  lifecycle_log := lifecycle_log |} in
  logger_info ("Trace created: " +:+ trace_id) ;;;
  ret trace.

(** The dictionary [allowed_transitions] of [TraceManager.transition_trace]:
    [None] for a state that is not one of its keys. *)
Definition allowed_transitions (s : TraceState) : option (list TraceState) :=
  match s with
  | CREATED => Some [ACTIVE; BLOCKED]
  | ACTIVE => Some [BLOCKED; COMPLETED]
  | BLOCKED => Some [INVALID]
  | COMPLETED => Some [ARCHIVED]
  | INVALID | ARCHIVED => None
  end.

(** [new_log_entry.update(event_data)], guarded by [if event_data:]. *)
Definition update_entry (entry : PyDict) (event_data : option PyDict) : PyDict :=
  match event_data with
  | Some d => if truthy (VDict d) then d ∪ entry else entry
  | None => entry
  end.

(** [TraceManager.transition_trace] *)
Definition transition_trace (trace : Trace) (new_state : TraceState)
    (reason : string) (event_data : option PyDict) : M Trace :=
  match allowed_transitions (state trace) with
  | None =>
      raise (ValueError ("Cannot transition from state: " +:+ state_name (state trace)))
  | Some allowed =>
      if negb (bool_decide (new_state ∈ allowed)) then
        raise (ValueError ("Invalid transition: " +:+ state_name (state trace)
                             +:+ " → " +:+ state_name new_state))
      else
        now <- time_time ;;
        let new_log_entry : PyDict :=
          <["event" := VStr ("TRACE_" +:+ state_name new_state)]>
          (<["trace_id" := VStr (trace_id trace)]>
          (<["timestamp" := VFloat now]>
          (<["reason" := VStr reason]> ∅))) in
        let new_log_entry := update_entry new_log_entry event_data in
        let new_lifecycle_log := lifecycle_log trace ++ [new_log_entry] in
        closed <- (if bool_decide (new_state ∈ [BLOCKED; COMPLETED; INVALID])
                   then (t <- time_time ;; ret (Some t))
                   else ret (closed_at trace)) ;;
        let new_trace := {| trace_id := trace_id trace; state := new_state;
                            created_at := created_at trace; closed_at := closed;
                            origin := origin trace; context := context trace;
                            lifecycle_log := new_lifecycle_log |} in
        logger_info ("Trace " +:+ trace_id trace +:+ " transitioned: "
                       +:+ state_name (state trace) +:+ " → "
                       +:+ state_name new_state) ;;;
        ret new_trace
  end.

(** [TraceManager.close_trace]: [reason] is the closure reason code. *)
Definition close_trace (trace : Trace) (reason : string) : M Trace :=
  if negb (bool_decide (state trace ∈ [ACTIVE; CREATED])) then
    raise (ValueError ("Cannot close trace in state: " +:+ state_name (state trace)))
  else
    let new_state :=
      if String.eqb reason "COMPLETED" then COMPLETED
      else if String.eqb reason "BLOCKED" then BLOCKED
      else if String.eqb reason "INVALID" then INVALID
      else COMPLETED in
    transition_trace trace new_state reason None.

(** ** gate/gatecore.py, gate/gate_policy.py *)

(** [gate.EnergeticState] (EPS-8), the dataclass the gate receives. *)
Module GateEnergeticState.
Record t := mk {
  I : float; P : float; S : float; H : float;
  A : float; S_a : float; E_mu : float; theta : float
}.
End GateEnergeticState.

(** [GateCoreResult] *)
Module GateCoreResult.
Record t := mk {
  verdict : string;
  reason : string;
  metrics : gmap string float;
  trace_id : option string;
  timestamp : float
}.
End GateCoreResult.



(** A [GateCore] instance: its decision gate, an object with a method
    [decide(metrics)] and a [policy] whose [get_params()] is
    [policy_config], and the application context.  Configuration values
    are numbers; a Python [bool] is one of them ([True == 1.0]). *)
Record GateCore := {
  decide : gmap string float -> M string;
  policy_config : gmap string float;
  gate_context : string
}.

(** The number of elements of a list as a float, for [x / len(history)]. *)
Definition float_of_nat (n : nat) : float :=
  PrimFloat.of_uint63 (Uint63.of_Z (Z.of_nat n)).

(** [sum(xs)] on floats as a sum from the left, starting from 0. *)
Definition py_sum (xs : list float) : float :=
  fold_left PrimFloat.add xs 0%float.

(** [GateCore._calculate_trend]: [(history[-1] - history[0]) / len(history)]. *)
Definition _calculate_trend (history : list float) : float :=
  if (length history <? 2)%nat then 0%float
  else
    PrimFloat.div
      (PrimFloat.sub (List.last history 0%float) (List.hd 0%float history))
      (float_of_nat (length history)).

(** [d ** 2] on a float, where the integer 2 is converted to a float. *)
Definition float_pow2 (d : float) : M float :=
  fun w => (float_pow (host w) d 2%float, w).

(** [GateCore._calculate_variance]; the generator under the second [sum]
    stops at the first square that raises. *)
Definition _calculate_variance (history : list float) : M float :=
  if (length history <? 2)%nat then ret 0%float
  else
    let n := float_of_nat (length history) in
    total <- gets (fun w => builtin_sum (host w) history) ;;
    let mean := PrimFloat.div total n in
    squares <- map_m (fun x => float_pow2 (PrimFloat.sub x mean)) history ;;
    total <- gets (fun w => builtin_sum (host w) squares) ;;
    ret (PrimFloat.div total n).

(** The first exception in a sequence of outcomes, if there is one. *)
Fixpoint first_raised {A : Type} (l : list (Res A)) : option PyExc :=
  match l with
  | [] => None
  | Raise e :: _ => Some e
  | Ret _ :: rest => first_raised rest
  end.

(** The exception that a history makes [_prepare_metrics] raise, if any:
    the history has two points or more, and it is the exception of the
    first point whose squared deviation from the mean raises. *)
Definition history_raises (h : Host) (E_mu_history : option (list float))
    : option PyExc :=
  match E_mu_history with
  | Some history =>
      if (2 <=? length history)%nat then
        let mean := PrimFloat.div (builtin_sum h history)
                      (float_of_nat (length history)) in
        first_raised
          (List.map (fun x => float_pow h (PrimFloat.sub x mean) 2%float)
             history)
      else None
  | None => None
  end.

(** The dictionary of [_prepare_metrics] with trend [T] and variance
    [V]. *)
Definition metrics_with (eps : GateEnergeticState.t) (T V : float)
    : gmap string float :=
  <["V" := V]>
  (<["T" := T]>
  (<["I" := GateEnergeticState.I eps]>
  (<["P" := GateEnergeticState.P eps]>
  (<["S" := GateEnergeticState.S eps]>
  (<["H" := GateEnergeticState.H eps]>
  (<["A" := GateEnergeticState.A eps]>
  (<["S_a" := GateEnergeticState.S_a eps]>
  (<["E_mu" := GateEnergeticState.E_mu eps]>
  (<["theta" := GateEnergeticState.theta eps]>
  (<["D_traj" := 0.0%float]> ∅)))))))))).

(** [GateCore._prepare_metrics] *)
Definition _prepare_metrics (eps : GateEnergeticState.t)
    (E_mu_history : option (list float)) : M (gmap string float) :=
  match E_mu_history with
  | Some history =>
      if (2 <=? length history)%nat then
        let T := _calculate_trend history in
        V <- _calculate_variance history ;;
        ret (metrics_with eps T V)
      else ret (metrics_with eps 0.0 0.0)
  | None => ret (metrics_with eps 0.0 0.0)
  end.

(** [GateCore._is_E_mu_caution] *)
Definition _is_E_mu_caution (E_mu : float) (config : gmap string float) : bool :=
  let E_mu_caution_min := get_float config "E_mu_caution_min" 15.0%float in
  let E_mu_caution_max := get_float config "E_mu_caution_max" 30.0%float in
  fle E_mu_caution_min E_mu && flt E_mu E_mu_caution_max.

(** [GateCore._determine_reason] *)
Definition _determine_reason (g : GateCore) (verdict : string)
    (eps : GateEnergeticState.t) (metrics : gmap string float) : M string :=
  let config := policy_config g in
  let H_threshold := get_float config "H_threshold" 0.85%float in
  let D_threshold := get_float config "D_traj_threshold" 0.7%float in
  let E_mu_restrict_max := get_float config "E_mu_restrict_max" 15.0%float in
  if String.eqb verdict "BLOCK" then
    if feq (GateEnergeticState.S eps) 0.0%float then
      ret "Safety rule failed (S == 0)"
    else if flt (GateEnergeticState.E_mu eps) E_mu_restrict_max then
      a <- format3 (GateEnergeticState.E_mu eps) ;;
      b <- format_float E_mu_restrict_max ;;
      ret ("Eμ in restrict range (Eμ=" +:+ a +:+ " < " +:+ b +:+ ")")
    else ret "GateCore blocked (unknown reason)"
  else if String.eqb verdict "REVIEW" then
    if fgt (GateEnergeticState.H eps) H_threshold then
      a <- format3 (GateEnergeticState.H eps) ;;
      b <- format_float H_threshold ;;
      ret ("Entropy above threshold (H=" +:+ a +:+ " > " +:+ b +:+ ")")
    else if fgt (get_float metrics "D_traj" 0.0%float) D_threshold then
      a <- format3 (get_float metrics "D_traj" 0.0%float) ;;
      b <- format_float D_threshold ;;
      ret ("Semantic drift above threshold (D=" +:+ a +:+ " > " +:+ b +:+ ")")
    else if fgt (get_float metrics "V" 0.0%float)
                (get_float config "V_max" 8.0%float) then
      a <- format3 (get_float metrics "V" 0.0%float) ;;
      ret ("Variance above threshold (V=" +:+ a +:+ ")")
    else if flt (get_float metrics "T" 0.0%float) 0.0%float
            && _is_E_mu_caution (GateEnergeticState.E_mu eps) config then
      ret "Negative trend AND Eμ in caution range"
    else ret "GateCore review required"
  else ret "All metrics within safety bounds".

(** The text [f"{trace_id}"] of an optional trace id. *)
Definition show_trace_id (tid : option string) : string :=
  match tid with Some s => s | None => "None" end.

(** [GateCore.admit] *)
Definition GateCore_admit (g : GateCore) (eps : GateEnergeticState.t)
    (trace_id : option string) (E_mu_history : option (list float))
    : M GateCoreResult.t :=
  metrics <- _prepare_metrics eps E_mu_history ;;
  verdict <- decide g metrics ;;
  reason <- _determine_reason g verdict eps metrics ;;
  now <- time_time ;;
  let result := GateCoreResult.mk verdict reason metrics trace_id now in
  gate_trace_trace verdict
    (<["I" := GateEnergeticState.I eps]>
    (<["P" := GateEnergeticState.P eps]>
    (<["S" := GateEnergeticState.S eps]>
    (<["H" := GateEnergeticState.H eps]>
    (<["A" := GateEnergeticState.A eps]>
    (<["S_a" := GateEnergeticState.S_a eps]>
    (<["E_mu" := GateEnergeticState.E_mu eps]>
    (<["theta" := GateEnergeticState.theta eps]> ∅))))))))
    reason ;;;
  h <- format3 (GateEnergeticState.H eps) ;;
  s <- format3 (GateEnergeticState.S eps) ;;
  e <- format3 (GateEnergeticState.E_mu eps) ;;
  logger_info ("GateCore admission: " +:+ verdict +:+ " (trace_id="
                 +:+ show_trace_id trace_id +:+ ", H=" +:+ h +:+ ", S=" +:+ s
                 +:+ ", E_mu=" +:+ e +:+ ")") ;;;
  ret result.

(** [GateCore.evaluate_safety(eps)]; of [eps] only the attribute [S] is
    read, so the caller hands over that value. *)
Definition evaluate_safety (g : GateCore) (eps_S : float) : M PyDict :=
  let config := policy_config g in
  let S_min := get_float config "S_min" 0.5%float in
  let safety_pass := fge eps_S S_min in
  reason <- (if safety_pass then ret "Safety gate passed"
             else a <- format3 eps_S ;;
                  b <- format_float S_min ;;
                  ret ("S=" +:+ a +:+ " < S_min=" +:+ b)) ;;
  ret (<["pass" := VBool safety_pass]>
      (<["S" := VFloat eps_S]>
      (<["S_min" := VFloat S_min]>
      (<["reason" := VStr reason]> (∅ : PyDict))))).

(** ** bridge/kernel_bridge.py, gate/decision_gate.py *)

(** The ctypes structure [DecisionParams]. *)
Record DecisionParams := {
  rule_fail : Z;
  E_mu_restrict_min : float;
  E_mu_restrict_max : float;
  H_threshold : float;
  D_traj_threshold : float
}.

(** A [KernelBridge]: [library] is the loaded kernel library, seen through
    its entry point [cogman_decision_gate], or [None] when none was found. *)
Record KernelBridge := {
  library : option (DecisionParams -> float -> float -> Z)
}.

(** [verdict_map.get(verdict, "UNKNOWN")] *)
Definition verdict_map (code : Z) : string :=
  if (code =? 0)%Z then "ALLOW"
  else if (code =? 1)%Z then "REVIEW"
  else if (code =? 2)%Z then "BLOCK"
  else "UNKNOWN".

(** [KernelBridge.decision_gate] *)
Definition KernelBridge_decision_gate (kb : KernelBridge)
    (decision_params : gmap string float)
    (H_current D_traj_current : float) : M string :=
  match library kb with
  | None => raise (RuntimeError "Library not loaded")
  | Some cogman_decision_gate =>
      let c_params :=
        {| rule_fail :=
             if truthy (VFloat (get_float decision_params "rule_fail" 0%float))
             then 1%Z else 0%Z;
           E_mu_restrict_min :=
             get_float decision_params "E_mu_restrict_min" (-1e10)%float;
           E_mu_restrict_max :=
             get_float decision_params "E_mu_restrict_max" 1e10%float;
           H_threshold := get_float decision_params "H_threshold" 0.85%float;
           D_traj_threshold :=
             get_float decision_params "D_traj_threshold" 0.7%float |} in
      let verdict := cogman_decision_gate c_params H_current D_traj_current in
      ret (verdict_map verdict)
  end.

(** [DecisionGate.decide] *)
Definition DecisionGate_decide (kb : KernelBridge)
    (policy : gmap string float) (st : gmap string float) : M string :=
  let params := policy in
  let H_current := get_float st "H" 0.0%float in
  let D_traj_current := get_float st "D_traj" 0.0%float in
  KernelBridge_decision_gate kb params H_current D_traj_current.

(** Modelled from the spec: the entry point [cogman_decision_gate] of the
    native kernel library, which is not among the sources (only its ctypes
    declaration in [bridge/kernel_bridge.py] is).  It is given the decision
    parameters, the current entropy and the current drift, and applies to
    them the verdict precedence of the specification, first match wins:
    the rule-failure flag is set: BLOCK (2); the entropy strictly exceeds
    its threshold: REVIEW (1); the drift strictly exceeds its threshold:
    REVIEW (1); otherwise ALLOW (0).  The specification's rules on [S],
    [E_mu], variance and trend read quantities that this entry point is
    not given. *)
Definition cogman_decision_gate (params : DecisionParams)
    (H_current D_traj_current : float) : Z :=
  if negb (rule_fail params =? 0)%Z then 2%Z
  else if fgt H_current (H_threshold params) then 1%Z
  else if fgt D_traj_current (D_traj_threshold params) then 1%Z
  else 0%Z.


(** ** runtime/main_loop.py: data *)

(** [runtime.main_loop.EnergeticState] (PHASE 3 output). *)
Module EnergeticState.
Record t := mk {
  I : float; P : float; S : float; H : float;
  A : float; S_a : float; E_mu : float; theta : float
}.
End EnergeticState.

(** ** runtime/gatecore_adapter.py *)

(** [GateCoreAdapter.convert_eps], also written out inline in
    [admit_with_trace] and in [_phase_trajectory_admission]. *)
Definition convert_eps (eps : EnergeticState.t) : GateEnergeticState.t :=
  GateEnergeticState.mk
    (EnergeticState.I eps) (EnergeticState.P eps) (EnergeticState.S eps)
    (EnergeticState.H eps) (EnergeticState.A eps) (EnergeticState.S_a eps)
    (EnergeticState.E_mu eps) (EnergeticState.theta eps).

(** The dictionary [{"gate_metrics": ..., "verdict": ...}] passed as
    [event_data] by the adapter and by the admission phase. *)
Definition gate_event_data (gate_result : GateCoreResult.t) : PyDict :=
  <["gate_metrics" := VDict (VFloat <$> GateCoreResult.metrics gate_result)]>
  (<["verdict" := VStr (GateCoreResult.verdict gate_result)]> ∅).

(** [GateCoreAdapter.admit_with_trace] *)
Definition admit_with_trace (gatecore : GateCore) (eps : EnergeticState.t)
    (origin context : PyDict) (E_mu_history : option (list float))
    : M (Trace * GateCoreResult.t) :=
  trace <- create_trace origin context ;;
  let gate_eps := convert_eps eps in
  gate_result <- GateCore_admit gatecore gate_eps (Some (trace_id trace))
                   E_mu_history ;;
  trace <- (if String.eqb (GateCoreResult.verdict gate_result) "BLOCK" then
              transition_trace trace BLOCKED
                (GateCoreResult.reason gate_result)
                (Some (gate_event_data gate_result))
            else
              transition_trace trace ACTIVE
                ("GateCore " +:+ GateCoreResult.verdict gate_result)
                (Some (gate_event_data gate_result))) ;;
  ret (trace, gate_result).

(** ** runtime/wm_controller.py *)

(** [EPS8State] of the working-memory controller. *)
Module EPS8State.
Record t := mk {
  I : float; P : float; S : float; H : float;
  F : float; A : float; S_a : float; theta : float
}.
End EPS8State.

(** [wm_controller.Trajectory] *)
Module WMTrajectory.
Record t := mk {
  states : list EPS8State.t;
  trace_id : string;
  source_modality : string;
  timestamp : float;
  debug_lineage : PyDict
}.
End WMTrajectory.

(** [WMControllerOutput] *)
Module WMControllerOutput.
Record t := mk {
  trajectory : WMTrajectory.t;
  navigation_decision : string;
  modulated_eps8 : EPS8State.t;
  resonance_scores : gmap string float;
  gate_status : gmap string PyVal;
  trace_id : string;
  timestamp : float
}.
End WMControllerOutput.

(** A memory-field collaborator.  [FieldWithoutQuery] is an object that has
    no method [query_resonance]; otherwise [query_resonance(state,
    trace_id="")] returns a score or raises. *)
Inductive MemoryField : Type :=
| FieldWithoutQuery
| FieldQuery (query_resonance : EPS8State.t -> string -> M float).

(** A [WMController] instance.  [memory_fields] keeps the insertion order
    of the dictionary, whose keys are distinct; a value [None] stands for
    an entry that is [None]. *)
Record WMController := {
  wm_gatecore : option GateCore;
  memory_fields : list (string * option MemoryField);
  H_max : float;
  S_min : float;
  budget_max : float
}.

(** [WMController.__init__]: thresholds read from [config]. *)
Definition WMController_init (gatecore : option GateCore)
    (memory_fields : list (string * option MemoryField))
    (config : gmap string float) : WMController :=
  {| wm_gatecore := gatecore;
     memory_fields := memory_fields;
     H_max := get_float config "H_max" 0.62%float;
     S_min := get_float config "S_min" 0.5%float;
     budget_max := get_float config "budget_max" 100.0%float |}.

(** [WMController._create_default_state] *)
Definition _create_default_state : EPS8State.t :=
  EPS8State.mk 0.0 0.0 0.0 0.0 0.0 0.0 0.0 0.0.

(** The trajectory dictionary handed to [WMController.process]: the keys
    that [_dict_to_trajectory] reads, each possibly absent.  [td_eps] is
    the mapping stored under ["eps"]. *)
Record TrajDict := {
  td_eps : option (gmap string float);
  td_trace_id : option string;
  td_source_modality : option string;
  td_timestamp : option float;
  td_debug_lineage : option PyDict
}.

(** [WMController._dict_to_trajectory] *)
Definition _dict_to_trajectory (traj_dict : TrajDict) : M WMTrajectory.t :=
  let states :=
    match td_eps traj_dict with
    | Some eps =>
        [EPS8State.mk
           (get_float eps "I" 0.0) (get_float eps "P" 0.0)
           (get_float eps "S" 0.0) (get_float eps "H" 0.0)
           (get_float eps "F" 0.0) (get_float eps "A" 0.0)
           (get_float eps "S_a" 0.0) (get_float eps "theta" 0.0)]
    | None => []
    end in
  (* the default argument [time.time()] of [.get] is evaluated always *)
  now <- time_time ;;
  ret (WMTrajectory.mk states
         (default "" (td_trace_id traj_dict))
         (default "text" (td_source_modality traj_dict))
         (default now (td_timestamp traj_dict))
         (default ∅ (td_debug_lineage traj_dict))).

(** [WMController._gate_control] *)
Definition _gate_control (self : WMController) (st : EPS8State.t)
    : M (gmap string PyVal) :=
  let gate_status : gmap string PyVal :=
    <["entropy" := VBool true]>
    (<["safety" := VBool true]>
    (<["budget" := VBool true]> ∅)) in
  gate_status <-
    (if fgt (EPS8State.H st) (H_max self) then
       a <- format_float (EPS8State.H st) ;;
       b <- format_float (H_max self) ;;
       logger_warning ("Entropy gate failed: H=" +:+ a +:+ " > H_max=" +:+ b) ;;;
       ret (<["entropy" := VBool false]> gate_status)
     else ret gate_status) ;;
  gate_status <-
    (match wm_gatecore self with
     | Some gatecore =>
         safety_result <- evaluate_safety gatecore (EPS8State.S st) ;;
         ret (<["safety" := get_val safety_result "pass" (VBool false)]> gate_status)
     | None =>
         if flt (EPS8State.S st) (S_min self) then
           a <- format_float (EPS8State.S st) ;;
           b <- format_float (S_min self) ;;
           logger_warning ("Safety gate failed: S=" +:+ a +:+ " < S_min=" +:+ b) ;;;
           ret (<["safety" := VBool false]> gate_status)
         else ret gate_status
     end) ;;
  ret (<["budget" := VBool true]> gate_status).

(** The host's exception handler around one memory query:
    [try: ... except Exception as e: logger.warning(...); score = 0.0]. *)
Definition query_or_zero (field_name : string) (q : M float) : M float :=
  fun w => match q w with
           | (Ret score, w') => (Ret score, w')
           | (Raise e, w') =>
               (logger_warning ("Memory resonance query failed for " +:+ field_name
                                  +:+ ": " +:+ exc_message e) ;;;
                ret 0.0%float) w'
           end.

(** The loop body of [WMController._invoke_memory_resonance] over the
    remaining items of [memory_fields]. *)
Fixpoint resonance_loop (fields : list (string * option MemoryField))
    (st : EPS8State.t) (resonance_scores : gmap string float)
    : M (gmap string float) :=
  match fields with
  | [] => ret resonance_scores
  | (field_name, None) :: rest => resonance_loop rest st resonance_scores
  | (field_name, Some memory_field) :: rest =>
      score <- query_or_zero field_name
                 (match memory_field with
                  | FieldQuery query_resonance => query_resonance st ""
                  | FieldWithoutQuery =>
                      logger_warning ("Memory field " +:+ field_name
                                        +:+ " does not have query_resonance method") ;;;
                      ret 0.0%float
                  end) ;;
      resonance_loop rest st (<[field_name := score]> resonance_scores)
  end.

(** The loop of [WMController._invoke_memory_resonance] over all the
    fields, which the method runs once its import statement has bound the
    names or has raised an [ImportError]. *)
Definition _invoke_memory_resonance (self : WMController) (st : EPS8State.t)
    : M (gmap string float) :=
  resonance_loop (memory_fields self) st ∅.

(** Whether [except ImportError] catches [e]: [ImportError] and its
    builtin subclass. *)
Definition is_ImportError (e : PyExc) : bool :=
  String.eqb (exc_type_name e) "ImportError"
  || String.eqb (exc_type_name e) "ModuleNotFoundError".

(** [WMController._invoke_memory_resonance] with the outcome of its
    import statement made explicit.  Both fallbacks of the source lead to
    the same loop: the state handed to a field has the same attributes
    whether it is converted or not. *)
Definition _invoke_memory_resonance_importing (imp : ImportOutcome)
    (self : WMController) (st : EPS8State.t) : M (gmap string float) :=
  match memory_fields self with
  | [] => ret ∅
  | _ =>
      match imp with
      | Imported => resonance_loop (memory_fields self) st ∅
      | ImportRaised e =>
          if is_ImportError e then resonance_loop (memory_fields self) st ∅
          else raise e
      end
  end.

(** [WMController._context_modulation] *)
Definition _context_modulation (st : EPS8State.t)
    (resonance_scores : gmap string float) : EPS8State.t :=
  let modulation_factor := 1.0%float in
  let episodic_resonance := get_float resonance_scores "episodic" 0.0 in
  let modulation_factor :=
    if fgt episodic_resonance 0.7 then 1.1%float else modulation_factor in
  let semantic_resonance := get_float resonance_scores "semantic" 0.0 in
  let modulation_factor :=
    if fgt semantic_resonance 0.8 then 1.05%float else modulation_factor in
  EPS8State.mk
    (PrimFloat.mul (EPS8State.I st) modulation_factor)
    (EPS8State.P st)
    (py_min (if fgt semantic_resonance 0.8
             then PrimFloat.mul (EPS8State.S st) 1.05
             else EPS8State.S st) 1.0)
    (EPS8State.H st)
    (EPS8State.F st)
    (EPS8State.A st)
    (EPS8State.S_a st)
    (EPS8State.theta st).

(** [WMController._navigation_decision] *)
Definition _navigation_decision (st : EPS8State.t)
    (resonance_scores : gmap string float) (modulated_eps8 : EPS8State.t)
    : string :=
  let episodic_resonance := get_float resonance_scores "episodic" 0.0 in
  if fgt episodic_resonance 0.7 then "EXTEND_PATH"
  else
    let semantic_resonance := get_float resonance_scores "semantic" 0.0 in
    if fgt semantic_resonance 0.8 then "RECALL_SN"
    else if fgt (EPS8State.I modulated_eps8) 0.8
            && fgt (EPS8State.S modulated_eps8) 0.7 then "TRIGGER_ACTION"
    else if flt (EPS8State.H modulated_eps8) 0.2 then "ACTIVATE_REFLEX"
    else "CREATE_NEW_SN".

(** [all(gate_status.values())] *)
Definition all_values (gate_status : gmap string PyVal) : bool :=
  forallb truthy (snd <$> map_to_list gate_status).

(** The state [process] works on: the last (and only) state that
    [_dict_to_trajectory] builds from the key ["eps"], or the default
    state when the key is absent. *)
Definition input_state (trajectory : TrajDict) : EPS8State.t :=
  match td_eps trajectory with
  | Some eps =>
      EPS8State.mk
        (get_float eps "I" 0.0) (get_float eps "P" 0.0)
        (get_float eps "S" 0.0) (get_float eps "H" 0.0)
        (get_float eps "F" 0.0) (get_float eps "A" 0.0)
        (get_float eps "S_a" 0.0) (get_float eps "theta" 0.0)
  | None => _create_default_state
  end.

(** The conditions under which [_gate_control] records a failed gate:
    the entropy gate when [state.H > self.H_max]; the safety gate when
    [evaluate_safety] does not report [eps.S >= S_min] (gate configured) or
    when [state.S < self.S_min] (local check).  The budget gate is always
    recorded as passed. *)
Definition entropy_gate_fails (self : WMController) (st : EPS8State.t) : bool :=
  fgt (EPS8State.H st) (H_max self).

Definition safety_gate_fails (self : WMController) (st : EPS8State.t) : bool :=
  match wm_gatecore self with
  | Some gatecore =>
      negb (fge (EPS8State.S st)
                (get_float (policy_config gatecore) "S_min" 0.5))
  | None => flt (EPS8State.S st) (S_min self)
  end.

(** [WMController.process] *)
Definition process (self : WMController) (trajectory : TrajDict)
    : M WMControllerOutput.t :=
  traj <- _dict_to_trajectory trajectory ;;
  let current_state :=
    match WMTrajectory.states traj with
    | [] => _create_default_state
    | _ => List.last (WMTrajectory.states traj) _create_default_state
    end in
  gate_status <- _gate_control self current_state ;;
  if negb (all_values gate_status) then
    now <- time_time ;;
    ret (WMControllerOutput.mk traj "BLOCKED" current_state ∅ gate_status
           (WMTrajectory.trace_id traj) now)
  else
    imp <- gets (fun w => memory_import (host w)) ;;
    resonance_scores <- _invoke_memory_resonance_importing imp self
                          current_state ;;
    let modulated_eps8 := _context_modulation current_state resonance_scores in
    let navigation_decision :=
      _navigation_decision current_state resonance_scores modulated_eps8 in
    (* traj.states.append(modulated_eps8) *)
    let traj := WMTrajectory.mk
                  (WMTrajectory.states traj ++ [modulated_eps8])
                  (WMTrajectory.trace_id traj)
                  (WMTrajectory.source_modality traj)
                  (WMTrajectory.timestamp traj)
                  (WMTrajectory.debug_lineage traj) in
    now <- time_time ;;
    ret (WMControllerOutput.mk traj navigation_decision modulated_eps8
           resonance_scores gate_status (WMTrajectory.trace_id traj) now).

(** ** runtime/error_handler.py *)

(** The logging level chosen by [RuntimeErrorHandler.handle_error]. *)
Definition severity_log_level (s : ErrorSeverity.t) : LogLevel :=
  match s with
  | ErrorSeverity.LOW => DEBUG
  | ErrorSeverity.MEDIUM => WARNING
  | ErrorSeverity.HIGH => ERROR
  | ErrorSeverity.CRITICAL => CRITICAL
  end.

(** The dictionary returned by [handle_error]. *)
Record ErrorResult := {
  er_handled : bool;
  er_phase : string;
  er_error_type : string;
  er_action : string;
  er_continue : bool
}.

(** [RuntimeErrorHandler.handle_error], on the handler object [eh]; the
    updated object is returned next to the result. *)
Definition handle_error (eh : ErrorHandler) (phase : string) (error : PyExc)
    (context : option PyDict) (severity : ErrorSeverity.t)
    : M (ErrorResult * ErrorHandler) :=
  let count := (error_count eh + 1)%Z in
  tb <- gets (fun w => format_exc (host w) error) ;;
  now <- time_time ;;
  let error_info :=
    {| ei_phase := phase;
       ei_error_type := exc_type_name error;
       ei_error_message := exc_message error;
       ei_severity := ErrorSeverity.value severity;
       ei_traceback := tb;
       ei_context := default ∅ context;
       ei_timestamp := now |} in
  logger_log (severity_log_level severity)
    ("Error in " +:+ phase +:+ ": " +:+ exc_message error) ;;;
  ret ({| er_handled := true; er_phase := phase;
          er_error_type := exc_type_name error;
          er_action := "abort_cycle"; er_continue := true |},
       {| error_count := count;
          error_history := error_history eh ++ [error_info] |}).

(** ** runtime/main_loop.py *)

Definition phase_name (p : Phase) : string :=
  match p with
  | IDLE => "IDLE"
  | INPUT_INTAKE => "INPUT_INTAKE"
  | SENSORY_ADAPTATION => "SENSORY_ADAPTATION"
  | PERCEPTION_BOUNDARY => "PERCEPTION_BOUNDARY"
  | TRAJECTORY_ADMISSION => "TRAJECTORY_ADMISSION"
  | WORKING_MEMORY_CONTROL => "WORKING_MEMORY_CONTROL"
  | REASONING => "REASONING"
  | DECISION => "DECISION"
  | ACTION_OUTPUT => "ACTION_OUTPUT"
  | POST_PROCESSING => "POST_PROCESSING"
  end.

Definition phase_value (p : Phase) : Z :=
  match p with
  | IDLE => 0 | INPUT_INTAKE => 1 | SENSORY_ADAPTATION => 2
  | PERCEPTION_BOUNDARY => 3 | TRAJECTORY_ADMISSION => 4
  | WORKING_MEMORY_CONTROL => 5 | REASONING => 6 | DECISION => 7
  | ACTION_OUTPUT => 8 | POST_PROCESSING => 9
  end.

Module RawInputEnvelope.
Record t := mk {
  raw_input : PyVal;
  request_id : string;
  timestamp : float;
  source_id : string;
  metadata : PyDict
}.
End RawInputEnvelope.

Module OriginPack.
Record t := mk {
  raw_signal : PyVal;
  modality : string;
  timestamp : float;
  source_id : string
}.
End OriginPack.

Module ActionOutput.
Record t := mk {
  action_type : string;
  output_data : PyVal;
  trace_id : string;
  timestamp : float
}.
End ActionOutput.

(** The trajectory dictionary that [_phase_trajectory_admission] returns.
    The key ["metrics"] is absent ([None] here) in the dictionary built
    when no gate is configured. *)
Module AdmittedTrajectory.
Record t := mk {
  trace_id : string;
  eps : EnergeticState.t;
  verdict : string;
  gate_result : option GateCoreResult.t;
  metrics : option (gmap string float);
  trace : option Trace
}.
End AdmittedTrajectory.

(** The dictionary [phase_results] of [_execute_cycle]. *)
Record PhaseResults := {
  phase_times : PyDict;
  gate_verdict : string;
  transformations : list (string * float)
}.

(** [self.current_phase = p] and [self.running = b]. *)
Definition set_current_phase (p : Phase) : M unit :=
  modify (fun w => set_loop {| running := running (loop w);
                               current_phase := p;
                               system_state := system_state (loop w) |} w).
Definition set_running (b : bool) : M unit :=
  modify (fun w => set_loop {| running := b;
                               current_phase := current_phase (loop w);
                               system_state := system_state (loop w) |} w).

(** [RuntimeLoop._phase_trajectory_admission].  [gatecore] is
    [self.gatecore]; [trajectory_builder] tells whether
    [self.trajectory_builder] is set (of the builder only [create_trace]
    is used, which reads none of its attributes). *)
Definition _phase_trajectory_admission (gatecore : option GateCore)
    (trajectory_builder : bool) (eps : EnergeticState.t)
    (origin context : option PyDict) : M (option AdmittedTrajectory.t) :=
  let origin : PyDict :=
    match origin with
    | Some o => o
    | None => <["source_id" := VStr "runtime_loop"]>
              (<["modality" := VStr "text"]>
              (<["adapter" := VStr "default"]> ∅))
    end in
  let context : PyDict :=
    match context with
    | Some c => c
    | None => <["gate_profile" := VStr "default"]>
              (<["runtime_mode" := VStr "normal"]> ∅)
    end in
  match gatecore with
  | None =>
      (* Fallback: allow all *)
      r <- (if trajectory_builder then
              trace <- create_trace origin context ;;
              trace <- transition_trace trace ACTIVE "No GateCore" None ;;
              ret (trace_id trace, Some trace)
            else
              tid <- uuid4 ;;
              ret (tid, None)) ;;
      ret (Some (AdmittedTrajectory.mk (fst r) eps "ALLOW" None None (snd r)))
  | Some gatecore =>
      let gate_eps := convert_eps eps in
      trace <- (if trajectory_builder then
                  t <- create_trace origin context ;; ret (Some t)
                else ret None) ;;
      gate_result <- GateCore_admit gatecore gate_eps
                       (trace_id <$> trace) None ;;
      trace <- (match trace with
                | Some t =>
                    if String.eqb (GateCoreResult.verdict gate_result) "BLOCK" then
                      t' <- transition_trace t BLOCKED
                              (GateCoreResult.reason gate_result)
                              (Some (gate_event_data gate_result)) ;;
                      ret (Some t')
                    else
                      t' <- transition_trace t ACTIVE
                              ("GateCore " +:+ GateCoreResult.verdict gate_result)
                              (Some (gate_event_data gate_result)) ;;
                      ret (Some t')
                | None => ret None
                end) ;;
      if String.eqb (GateCoreResult.verdict gate_result) "BLOCK" then
        logger_info ("Trajectory admission BLOCKED: "
                       +:+ GateCoreResult.reason gate_result +:+ " (trace_id="
                       +:+ match GateCoreResult.trace_id gate_result with
                           | Some s => if truthy (VStr s) then s
                                       else match trace with
                                            | Some t => trace_id t
                                            | None => "unknown"
                                            end
                           | None => match trace with
                                     | Some t => trace_id t
                                     | None => "unknown"
                                     end
                           end +:+ ")") ;;;
        ret None
      else
        tid <- (match GateCoreResult.trace_id gate_result with
                | Some s => if truthy (VStr s) then ret s
                            else match trace with
                                 | Some t => ret (trace_id t)
                                 | None => uuid4
                                 end
                | None => match trace with
                          | Some t => ret (trace_id t)
                          | None => uuid4
                          end
                end) ;;
        ret (Some (AdmittedTrajectory.mk tid eps
                     (GateCoreResult.verdict gate_result)
                     (Some gate_result)
                     (Some (GateCoreResult.metrics gate_result))
                     trace))
  end.

(** [RuntimeLoop._phase_idle] as the source has it: with no input queue
    yet, both branches return [None] after sleeping. *)
Definition _phase_idle_source : M (option PyVal) :=
  st <- gets (fun w => system_state (loop w)) ;;
  if negb (String.eqb st "running") then ret None else ret None.

(** [RuntimeLoop._phase_input_intake] *)
Definition _phase_input_intake_source (input_data : PyVal)
    : M RawInputEnvelope.t :=
  request_id <- uuid4 ;;
  timestamp <- time_time ;;
  ret (RawInputEnvelope.mk input_data request_id timestamp "external" ∅).

(** [RuntimeLoop._phase_sensory_adaptation] when no sensory adapter is
    configured. *)
Definition _phase_sensory_adaptation_fallback (raw_input : RawInputEnvelope.t)
    : M OriginPack.t :=
  ret (OriginPack.mk (RawInputEnvelope.raw_input raw_input) "text"
         (RawInputEnvelope.timestamp raw_input)
         (RawInputEnvelope.source_id raw_input)).

(** [RuntimeLoop._phase_perception_boundary] when no perception module is
    configured. *)
Definition _phase_perception_boundary_fallback (origin : OriginPack.t)
    : M EnergeticState.t :=
  ret (EnergeticState.mk 0.0 0.0 0.0 0.0 0.0 0.0 0.0 0.0).

(** What [_phase_working_memory_control] returns: the pass-through
    dictionary [{"trajectory": trajectory}] when no controller is
    configured, else the controller's output. *)
Inductive WMOutput : Type :=
| WMPassThrough (trajectory : AdmittedTrajectory.t)
| WMProcessed (out : WMControllerOutput.t).

(** [RuntimeLoop._phase_working_memory_control] without a controller. *)
Definition _phase_working_memory_control_fallback
    (trajectory : AdmittedTrajectory.t) : M WMOutput :=
  ret (WMPassThrough trajectory).

(** [RuntimeLoop._phase_reasoning] without a reasoning module. *)
Definition _phase_reasoning_fallback (wm_output : WMOutput) : M PyDict :=
  ret (<["structure" := VNone]> (<["structure_type" := VStr "none"]> ∅)).

(** [RuntimeLoop._phase_decision] without a decision module. *)
Definition _phase_decision_fallback (reasoning_output : PyDict) : M PyDict :=
  ret (<["decision" := VStr "ALLOW"]> ∅).

(** [RuntimeLoop._phase_action_output] without an action module.  The
    default argument [str(uuid.uuid4())] of [trajectory.get] is evaluated
    although the key is present. *)
Definition _phase_action_output_fallback (decision : PyDict)
    (trajectory : AdmittedTrajectory.t) (reasoning_output : PyDict)
    : M ActionOutput.t :=
  _unused <- uuid4 ;;
  let trace_id := AdmittedTrajectory.trace_id trajectory in
  now <- time_time ;;
  ret (ActionOutput.mk "none" VNone trace_id now).

(** [RuntimeLoop._phase_post_processing] without a post-processor. *)
Definition _phase_post_processing_fallback
    (trajectory : AdmittedTrajectory.t) (action_output : ActionOutput.t)
    (phase_results : PhaseResults) : M unit :=
  let trace_id := ActionOutput.trace_id action_output in
  logger_info ("Trace " +:+ trace_id +:+ " completed").

(** The phase methods of a [RuntimeLoop] instance.  [_execute_cycle] looks
    each of them up on the instance when it calls it, and the tests replace
    them with [setattr]; a handler is any computation, and may raise. *)
Record PhaseHandlers := {
  _phase_idle : M (option PyVal);
  _phase_input_intake : PyVal -> M RawInputEnvelope.t;
  _phase_sensory_adaptation : RawInputEnvelope.t -> M OriginPack.t;
  _phase_perception_boundary : OriginPack.t -> M EnergeticState.t;
  _phase_admission :
    EnergeticState.t -> option PyDict -> option PyDict
    -> M (option AdmittedTrajectory.t);
  _phase_working_memory_control : AdmittedTrajectory.t -> M WMOutput;
  _phase_reasoning : WMOutput -> M PyDict;
  _phase_decision : PyDict -> M PyDict;
  _phase_action_output :
    PyDict -> AdmittedTrajectory.t -> PyDict -> M ActionOutput.t;
  _phase_post_processing :
    AdmittedTrajectory.t -> ActionOutput.t -> PhaseResults -> M unit
}.

(** The methods of [RuntimeLoop()], an instance built without any module
    (as the tests build it), [gatecore] and [trajectory_builder] being
    the two arguments. *)
Definition default_handlers (gatecore : option GateCore)
    (trajectory_builder : bool) : PhaseHandlers :=
  {| _phase_idle := _phase_idle_source;
     _phase_input_intake := _phase_input_intake_source;
     _phase_sensory_adaptation := _phase_sensory_adaptation_fallback;
     _phase_perception_boundary := _phase_perception_boundary_fallback;
     _phase_admission := _phase_trajectory_admission gatecore trajectory_builder;
     _phase_working_memory_control := _phase_working_memory_control_fallback;
     _phase_reasoning := _phase_reasoning_fallback;
     _phase_decision := _phase_decision_fallback;
     _phase_action_output := _phase_action_output_fallback;
     _phase_post_processing := _phase_post_processing_fallback |}.

(** [RuntimeLoop._execute_cycle] *)
Definition _execute_cycle (self : PhaseHandlers) : M unit :=
  set_current_phase IDLE ;;;
  input_data <- _phase_idle self ;;
  match input_data with
  | None => ret tt
  | Some input_data =>
      set_current_phase INPUT_INTAKE ;;;
      raw_input <- _phase_input_intake self input_data ;;
      set_current_phase SENSORY_ADAPTATION ;;;
      origin <- _phase_sensory_adaptation self raw_input ;;
      set_current_phase PERCEPTION_BOUNDARY ;;;
      eps <- _phase_perception_boundary self origin ;;
      set_current_phase TRAJECTORY_ADMISSION ;;;
      let origin_info : PyDict :=
        <["source_id" := VStr (RawInputEnvelope.source_id raw_input)]>
        (<["modality" := VStr (OriginPack.modality origin)]>
        (<["adapter" := VStr "sensory"]> ∅)) in
      let context_info : PyDict :=
        <["gate_profile" := VStr "default"]>
        (<["runtime_mode" := VStr "normal"]> ∅) in
      trajectory <- _phase_admission self eps (Some origin_info)
                      (Some context_info) ;;
      match trajectory with
      | None =>
          logger_info ("Trajectory blocked: "
                         +:+ RawInputEnvelope.request_id raw_input)
      | Some trajectory =>
          set_current_phase WORKING_MEMORY_CONTROL ;;;
          wm_output <- _phase_working_memory_control self trajectory ;;
          set_current_phase REASONING ;;;
          reasoning_output <- _phase_reasoning self wm_output ;;
          set_current_phase DECISION ;;;
          decision <- _phase_decision self reasoning_output ;;
          set_current_phase ACTION_OUTPUT ;;;
          action_output <- _phase_action_output self decision trajectory
                             reasoning_output ;;
          set_current_phase POST_PROCESSING ;;;
          t1 <- time_time ;;
          t2 <- time_time ;;
          t3 <- time_time ;;
          t4 <- time_time ;;
          let phase_results :=
            {| phase_times := ∅;
               gate_verdict := AdmittedTrajectory.verdict trajectory;
               transformations :=
                 [("perception", t1); ("wm_controller", t2);
                  ("reasoning", t3); ("action", t4)] |} in
          _phase_post_processing self trajectory action_output phase_results
      end
  end.

(** Some phase handler of [self] raised [e], leaving the run in state
    [w']. *)
Definition handler_raised (self : PhaseHandlers) (e : PyExc) (w' : World)
    : Prop :=
  (exists w0, _phase_idle self w0 = (Raise e, w')) \/
  (exists x w0, _phase_input_intake self x w0 = (Raise e, w')) \/
  (exists x w0, _phase_sensory_adaptation self x w0 = (Raise e, w')) \/
  (exists x w0, _phase_perception_boundary self x w0 = (Raise e, w')) \/
  (exists x o c w0, _phase_admission self x o c w0 = (Raise e, w')) \/
  (exists x w0, _phase_working_memory_control self x w0 = (Raise e, w')) \/
  (exists x w0, _phase_reasoning self x w0 = (Raise e, w')) \/
  (exists x w0, _phase_decision self x w0 = (Raise e, w')) \/
  (exists x y z w0, _phase_action_output self x y z w0 = (Raise e, w')) \/
  (exists x y z w0, _phase_post_processing self x y z w0 = (Raise e, w')).

(** How a bounded run of the loop ends. *)
Inductive RunOutcome : Type :=
| LoopExited
| StillRunning
| Propagated (e : PyExc).

(** The [except Exception as e:] branch of [RuntimeLoop.run]. *)
Definition run_except (e : PyExc) : M unit :=
  eh <- gets error_handler ;;
  match eh with
  | Some eh =>
      phase <- gets (fun w => phase_name (current_phase (loop w))) ;;
      st <- gets (fun w => system_state (loop w)) ;;
      r <- handle_error eh phase e
             (Some (<["system_state" := VStr st]> ∅)) ErrorSeverity.HIGH ;;
      modify (set_error_handler (Some (snd r))) ;;;
      logger_error ("Runtime Loop error in " +:+ er_phase (fst r) +:+ ": "
                      +:+ exc_message e)
  | None =>
      logger_error ("Runtime Loop error: " +:+ exc_message e)
  end.

(** The [while self.running:] loop of [RuntimeLoop.run], for at most
    [fuel] iterations.  An exception that leaves the [try] statement, from
    the [except] branch, would propagate out of [run]. *)
Fixpoint run_loop (self : PhaseHandlers) (fuel : nat) (w : World)
    : RunOutcome * World :=
  if running (loop w) then
    match fuel with
    | O => (StillRunning, w)
    | S fuel' =>
        match _execute_cycle self w with
        | (Ret _, w') => run_loop self fuel' w'
        | (Raise e, w') =>
            match run_except e w' with
            | (Ret _, w'') => run_loop self fuel' w''
            | (Raise e', w'') => (Propagated e', w'')
            end
        end
    end
  else (LoopExited, w).

(** [RuntimeLoop.run], bounded by [fuel] iterations of its loop. *)
Definition run (self : PhaseHandlers) (fuel : nat) (w : World)
    : RunOutcome * World :=
  match (set_running true ;;;
         logger_info "Runtime Loop started" ;;;
         importable <- gets (fun w => error_handler_importable (host w)) ;;
         modify (set_error_handler
                   (if importable
                    then Some {| error_count := 0; error_history := [] |}
                    else None))) w with
  | (Ret _, w') => run_loop self fuel w'
  | (Raise e, w') => (Propagated e, w')
  end.

(** [RuntimeLoop.stop] *)
Definition stop : M unit :=
  set_running false ;;;
  logger_info "Runtime Loop stopped".

(** ** runtime/example_gate_integration.py *)

(** [DummyDecisionGate.decide], the decision gate that [create_gatecore]
    falls back to when no kernel bridge is available. *)
Definition DummyDecisionGate_decide (st : gmap string float) : M string :=
  let H := get_float st "H" 0.0 in
  let S := get_float st "S" 1.0 in
  if feq S 0.0 then ret "BLOCK"
  else if fgt H 0.85 then ret "REVIEW"
  else ret "ALLOW".

(** The policy configuration that [create_gatecore] passes. *)
Definition example_policy_config : gmap string float :=
  <["H_threshold" := 0.85%float]>
  (<["D_traj_threshold" := 0.7%float]>
  (<["E_mu_restrict_min" := (-100.0)%float]>
  (<["E_mu_restrict_max" := 100.0%float]>
  (<["S_min" := 0.5%float]> ∅)))).

(** The [GateCore] that [create_gatecore] builds without a kernel. *)
Definition dummy_gatecore : GateCore :=
  {| decide := DummyDecisionGate_decide;
     policy_config := example_policy_config;
     gate_context := "default" |}.

(** ** The specification's transition graph *)

(** The allowed edges as the specification lists them:
    CREATED→{ACTIVE, BLOCKED}; ACTIVE→{BLOCKED, COMPLETED};
    BLOCKED→{INVALID}; COMPLETED→{ARCHIVED}; no edge leaves INVALID or
    ARCHIVED. *)
Definition spec_allowed_edges (s : TraceState) : list TraceState :=
  match s with
  | CREATED => [ACTIVE; BLOCKED]
  | ACTIVE => [BLOCKED; COMPLETED]
  | BLOCKED => [INVALID]
  | COMPLETED => [ARCHIVED]
  | INVALID => []
  | ARCHIVED => []
  end.

(** ** Concrete hosts and inputs used by the examples *)

(** The [OverflowError] of a float power. *)
Definition overflow_error : PyExc :=
  OtherError "OverflowError" "(34, 'Numerical result out of range')".

(** A power that is used with the exponent 2 only and gives the rounded
    square, and the [OverflowError] when the square of a finite number is
    infinite. *)
Definition example_float_pow (x y : float) : Res float :=
  if PrimFloat.is_finite x && PrimFloat.is_infinity (PrimFloat.mul x x)
  then Raise overflow_error
  else Ret (PrimFloat.mul x x).

(** A host whose clock reads 100.0, 101.0, 102.0, ... and whose trace
    identifiers are ["trace-0"] for every request. *)
Definition example_host : Host :=
  {| clock := fun n => PrimFloat.add 100.0 (float_of_nat n);
     uuid_src := fun _ => "trace-0";
     fmt3 := fun _ => "<float>";
     fmt := fun _ => "<float>";
     format_exc := fun e => exc_message e;
     error_handler_importable := true;
     memory_import := Imported;
     builtin_sum := py_sum;
     float_pow := example_float_pow |}.

Definition example_world : World :=
  {| host := example_host; ticks := 0; uuids := 0; log := [];
     gate_traces := [];
     loop := {| running := false; current_phase := IDLE;
                system_state := "running" |};
     error_handler := None |}.

Definition example_origin : PyDict :=
  <["source_id" := VStr "sensor-1"]> (<["modality" := VStr "text"]> ∅).

Definition example_context : PyDict :=
  <["gate_profile" := VStr "default"]> ∅.

(** A trace in state CREATED, as [create_trace] builds it at time 100.0. *)
Definition example_created_trace : Trace :=
  {| trace_id := "trace-0"; state := CREATED; created_at := 100.0;
     closed_at := None; origin := example_origin; context := example_context;
     lifecycle_log :=
       [ <["event" := VStr "TRACE_CREATED"]>
         (<["trace_id" := VStr "trace-0"]>
         (<["source" := VStr "sensor-1"]>
         (<["modality" := VStr "text"]>
         (<["timestamp" := VFloat 100.0]> ∅)))) ] |}.

(** The state [I=0.7, P=0.6, S=0.8, H=0.3] of the specification's first
    scenario, with the remaining fields as the tests set them. *)
Definition example_eps : EnergeticState.t :=
  EnergeticState.mk 0.7 0.6 0.8 0.3 0.5 0.4 50.0 1.2.

(** The state of the run after [create_trace] was called in
    [example_world]. *)
Definition example_world_created : World :=
  {| host := example_host; ticks := 1; uuids := 1;
     log := [(INFO, "Trace created: trace-0")];
     gate_traces := [];
     loop := {| running := false; current_phase := IDLE;
                system_state := "running" |};
     error_handler := None |}.

(** The gate's view of the first scenario's state, with its entropy
    exactly at, and just above, the default threshold 0.85. *)
Definition example_gate_eps_at_threshold : GateEnergeticState.t :=
  GateEnergeticState.mk 0.7 0.6 0.8 0.85 0.5 0.4 50.0 1.2.


(** A loop whose idle phase finds the input ["ping"] and whose perception
    module raises: the instance [RuntimeLoop()] with these two methods
    replaced. *)
Definition faulting_handlers : PhaseHandlers :=
  {| _phase_idle := ret (Some (VStr "ping"));
     _phase_input_intake := _phase_input_intake_source;
     _phase_sensory_adaptation := _phase_sensory_adaptation_fallback;
     _phase_perception_boundary :=
       fun _ => raise (RuntimeError "perception failed");
     _phase_admission := _phase_trajectory_admission None false;
     _phase_working_memory_control := _phase_working_memory_control_fallback;
     _phase_reasoning := _phase_reasoning_fallback;
     _phase_decision := _phase_decision_fallback;
     _phase_action_output := _phase_action_output_fallback;
     _phase_post_processing := _phase_post_processing_fallback |}.

(** The state of a run whose loop is running with a fresh error handler,
    as [run] sets it up. *)
Definition example_running_world : World :=
  {| host := example_host; ticks := 0; uuids := 0; log := [];
     gate_traces := [];
     loop := {| running := true; current_phase := IDLE;
                system_state := "running" |};
     error_handler := Some {| error_count := 0; error_history := [] |} |}.

(** A router state with intensity 1.0, and resonance scores in which
    both the episodic and the semantic field resonate strongly. *)
Definition example_state : EPS8State.t :=
  EPS8State.mk 1.0 0.6 0.8 0.3 0.0 0.5 0.4 1.2.

Definition example_scores_both : gmap string float :=
  <["episodic" := 0.9%float]> (<["semantic" := 0.9%float]> ∅).

Definition example_scores_episodic : gmap string float :=
  <["episodic" := 0.9%float]> (<["semantic" := 0.5%float]> ∅).

(** A router without gate and memory fields, with the default thresholds,
    and an input whose entropy 0.9 is above the default ceiling 0.62. *)
Definition example_controller : WMController := WMController_init None [] ∅.

Definition example_high_entropy_input : TrajDict :=
  {| td_eps := Some (<["I" := 0.7%float]> (<["S" := 0.8%float]>
                     (<["H" := 0.9%float]> ∅)));
     td_trace_id := Some "trace-0";
     td_source_modality := None;
     td_timestamp := None;
     td_debug_lineage := None |}.

(** ** Further definitions: the rest of the modelled files *)

(** *** Lifecycles of a trace *)

(** [lifecycle t0 t n]: the trace [t] results from [t0] by [n] successful
    calls of [TraceManager.transition_trace], each made with some target
    state, reason and payload at some state of the run. *)
Inductive lifecycle (t0 : Trace) : Trace -> nat -> Prop :=
| lifecycle_start : lifecycle t0 t0 0
| lifecycle_step (t t' : Trace) (n : nat) (new_state : TraceState)
    (reason : string) (event_data : option PyDict) (w w' : World) :
    lifecycle t0 t n ->
    transition_trace t new_state reason event_data w = (Ret t', w') ->
    lifecycle t0 t' (S n).

(** The length of the longest path that leaves a state in the dictionary
    [allowed_transitions]. *)
Definition remaining_transitions (s : TraceState) : nat :=
  match s with
  | CREATED => 3
  | ACTIVE => 2
  | BLOCKED => 1
  | COMPLETED => 1
  | INVALID => 0
  | ARCHIVED => 0
  end.

(** *** gate: a [GateCore] over the kernel bridge *)

(** [GateCore(DecisionGate(kernel_bridge, policy))], as [create_gatecore]
    builds it when a kernel bridge is available; [config] is what the
    policy's [get_params()] returns. *)
Definition kernel_gatecore (kb : KernelBridge) (config : gmap string float)
    : GateCore :=
  {| decide := DecisionGate_decide kb config;
     policy_config := config;
     gate_context := "default" |}.

(** The ctypes structure that [KernelBridge.decision_gate] fills from the
    decision parameters. *)
Definition decision_params_of (decision_params : gmap string float)
    : DecisionParams :=
  {| rule_fail :=
       if truthy (VFloat (get_float decision_params "rule_fail" 0%float))
       then 1%Z else 0%Z;
     E_mu_restrict_min :=
       get_float decision_params "E_mu_restrict_min" (-1e10)%float;
     E_mu_restrict_max :=
       get_float decision_params "E_mu_restrict_max" 1e10%float;
     H_threshold := get_float decision_params "H_threshold" 0.85%float;
     D_traj_threshold :=
       get_float decision_params "D_traj_threshold" 0.7%float |}.

(** *** runtime/error_handler.py: the rest of [RuntimeErrorHandler] *)

(** [RuntimeErrorHandler.__init__] *)
Definition RuntimeErrorHandler_init : ErrorHandler :=
  {| error_count := 0; error_history := [] |}.

(** [RuntimeErrorHandler.clear_history] *)
Definition clear_history (self : ErrorHandler) : ErrorHandler :=
  {| error_count := 0; error_history := [] |}.

(** The counting loop shared by [_count_errors_by_phase] and
    [_count_errors_by_severity]:
    [counts[k] = counts.get(k, 0) + 1] for the key [k] of each record. *)
Definition count_errors_by (key : ErrorInfo -> string)
    (history : list ErrorInfo) : gmap string Z :=
  fold_left (fun counts error =>
               <[key error := (default 0%Z (counts !! key error) + 1)%Z]> counts)
            history ∅.

(** [RuntimeErrorHandler._count_errors_by_phase] *)
Definition _count_errors_by_phase (self : ErrorHandler) : gmap string Z :=
  count_errors_by ei_phase (error_history self).

(** [RuntimeErrorHandler._count_errors_by_severity] *)
Definition _count_errors_by_severity (self : ErrorHandler) : gmap string Z :=
  count_errors_by ei_severity (error_history self).

(** The dictionary returned by [get_error_summary]. *)
Record ErrorSummary := {
  total_errors : Z;
  recent_errors : list ErrorInfo;
  error_by_phase : gmap string Z;
  error_by_severity : gmap string Z
}.

(** [RuntimeErrorHandler.get_error_summary]; [history[-10:]] keeps the
    last ten records, or all of them when there are fewer. *)
Definition get_error_summary (self : ErrorHandler) : ErrorSummary :=
  {| total_errors := error_count self;
     recent_errors :=
       match error_history self with
       | [] => []
       | _ => drop (length (error_history self) - 10) (error_history self)
       end;
     error_by_phase := _count_errors_by_phase self;
     error_by_severity := _count_errors_by_severity self |}.

(** *** runtime/main_loop.py: handlers that leave the loop alone *)

(** A computation that does not assign the attributes of the
    [RuntimeLoop] instance ([running], [current_phase], [system_state]). *)
Definition keeps_loop {A : Type} (c : M A) : Prop :=
  forall w r w', c w = (r, w') -> loop w' = loop w.

(** All phase handlers leave the attributes of the loop alone, as the
    methods of [RuntimeLoop] do: only [_execute_cycle], [run] and [stop]
    assign them. *)
Definition handlers_keep_loop (self : PhaseHandlers) : Prop :=
  keeps_loop (_phase_idle self) /\
  (forall x, keeps_loop (_phase_input_intake self x)) /\
  (forall x, keeps_loop (_phase_sensory_adaptation self x)) /\
  (forall x, keeps_loop (_phase_perception_boundary self x)) /\
  (forall x o c, keeps_loop (_phase_admission self x o c)) /\
  (forall x, keeps_loop (_phase_working_memory_control self x)) /\
  (forall x, keeps_loop (_phase_reasoning self x)) /\
  (forall x, keeps_loop (_phase_decision self x)) /\
  (forall x y z, keeps_loop (_phase_action_output self x y z)) /\
  (forall x y z, keeps_loop (_phase_post_processing self x y z)).

(** The handler of phase [p] raised [e], leaving the run in state [w']. *)
Definition handler_raised_at (self : PhaseHandlers) (p : Phase) (e : PyExc)
    (w' : World) : Prop :=
  match p with
  | IDLE => exists w0, _phase_idle self w0 = (Raise e, w')
  | INPUT_INTAKE =>
      exists x w0, _phase_input_intake self x w0 = (Raise e, w')
  | SENSORY_ADAPTATION =>
      exists x w0, _phase_sensory_adaptation self x w0 = (Raise e, w')
  | PERCEPTION_BOUNDARY =>
      exists x w0, _phase_perception_boundary self x w0 = (Raise e, w')
  | TRAJECTORY_ADMISSION =>
      exists x o c w0, _phase_admission self x o c w0 = (Raise e, w')
  | WORKING_MEMORY_CONTROL =>
      exists x w0, _phase_working_memory_control self x w0 = (Raise e, w')
  | REASONING => exists x w0, _phase_reasoning self x w0 = (Raise e, w')
  | DECISION => exists x w0, _phase_decision self x w0 = (Raise e, w')
  | ACTION_OUTPUT =>
      exists x y z w0, _phase_action_output self x y z w0 = (Raise e, w')
  | POST_PROCESSING =>
      exists x y z w0, _phase_post_processing self x y z w0 = (Raise e, w')
  end.

(** *** runtime/wm_controller.py: memory fields that cannot answer *)

(** A memory field that never yields a score: it has no method
    [query_resonance], or that method raises whenever it is called. *)
Definition field_unusable (f : MemoryField) : Prop :=
  match f with
  | FieldWithoutQuery => True
  | FieldQuery q => forall st tid w, exists e w', q st tid w = (Raise e, w')
  end.

(** The states of the trajectory that [_dict_to_trajectory] builds. *)
Definition input_states (trajectory : TrajDict) : list EPS8State.t :=
  match td_eps trajectory with
  | Some _ => [input_state trajectory]
  | None => []
  end.

(** A router with an episodic field that raises, a semantic entry that is
    [None] and a procedural field without [query_resonance]. *)
Definition example_broken_fields : list (string * option MemoryField) :=
  [("episodic", Some (FieldQuery (fun _ _ => raise (RuntimeError "down"))));
   ("semantic", None);
   ("procedural", Some FieldWithoutQuery)].

(** *** runtime/error_handler.py: the histories of a handler *)

(** The handlers that can arise: a fresh one, and what [handle_error] and
    [clear_history] make of one that can arise. *)
Inductive handler_reachable : ErrorHandler -> Prop :=
| reachable_init : handler_reachable RuntimeErrorHandler_init
| reachable_handle (eh eh' : ErrorHandler) (phase : string) (e : PyExc)
    (ctx : option PyDict) (sev : ErrorSeverity.t) (w w' : World)
    (r : ErrorResult) :
    handler_reachable eh ->
    handle_error eh phase e ctx sev w = (Ret (r, eh'), w') ->
    handler_reachable eh'
| reachable_clear (eh : ErrorHandler) :
    handler_reachable eh -> handler_reachable (clear_history eh).

(** The state of the run after [self.current_phase = p]. *)
Definition in_phase (p : Phase) (w : World) : World :=
  set_loop {| running := running (loop w); current_phase := p;
              system_state := system_state (loop w) |} w.

(** The origin and context dictionaries that [_execute_cycle] passes to
    the admission phase. *)
Definition cycle_origin_info (raw_input : RawInputEnvelope.t)
    (origin : OriginPack.t) : PyDict :=
  <["source_id" := VStr (RawInputEnvelope.source_id raw_input)]>
  (<["modality" := VStr (OriginPack.modality origin)]>
  (<["adapter" := VStr "sensory"]> ∅)).

Definition cycle_context_info : PyDict :=
  <["gate_profile" := VStr "default"]>
  (<["runtime_mode" := VStr "normal"]> ∅).

(** *** runtime/main_loop.py: a loop with a gate and a trajectory builder *)

(** The methods of [RuntimeLoop(gatecore=g, trajectory_builder=...)] with
    no module behind the phases 5 to 9; [idle], [sensory] and [perception]
    stand for the input source, the sensory adapter and the perception
    module behind the phases 0, 2 and 3. *)
Definition gated_handlers (idle : M (option PyVal))
    (sensory : RawInputEnvelope.t -> M OriginPack.t)
    (perception : OriginPack.t -> M EnergeticState.t) (g : GateCore)
    : PhaseHandlers :=
  {| _phase_idle := idle;
     _phase_input_intake := _phase_input_intake_source;
     _phase_sensory_adaptation := sensory;
     _phase_perception_boundary := perception;
     _phase_admission := _phase_trajectory_admission (Some g) true;
     _phase_working_memory_control := _phase_working_memory_control_fallback;
     _phase_reasoning := _phase_reasoning_fallback;
     _phase_decision := _phase_decision_fallback;
     _phase_action_output := _phase_action_output_fallback;
     _phase_post_processing := _phase_post_processing_fallback |}.

(** The input envelope that the intake phase builds for ["ping"] in
    [example_running_world]. *)
Definition example_raw_input : RawInputEnvelope.t :=
  RawInputEnvelope.mk (VStr "ping") "trace-0" (clock example_host 0)
    "external" ∅.

Definition example_origin_pack : OriginPack.t :=
  OriginPack.mk (VStr "ping") "text" (clock example_host 0) "external".

(** ** memory: the memory fields behind the router *)

(** What the fields take from the interpreter: [math.exp], which rounds
    as the platform's C library does and raises [OverflowError] on a large
    argument, and the builtin [sum] on the floats of a generator, whose
    rounding depends on the interpreter's version. *)
Record MathLib := {
  math_exp : float -> Res float;
  float_sum : list float -> float
}.

(** [max(a, b)] of Python on two arguments: [b] when [b > a], else [a]. *)
Definition py_max (a b : float) : float := if fgt b a then b else a.

(** [math.sqrt(x)]: a [ValueError] below zero. *)
Definition math_sqrt (x : float) : M float :=
  if flt x 0.0 then raise (ValueError "math domain error")
  else ret (PrimFloat.sqrt x).

(** [a / b] on floats: a [ZeroDivisionError] when [b == 0.0]. *)
Definition float_truediv (a b : float) : M float :=
  if feq b 0.0
  then raise (OtherError "ZeroDivisionError" "float division by zero")
  else ret (PrimFloat.div a b).

(** [_eps8_to_vector], which the four field classes define alike. *)
Definition _eps8_to_vector (st : EPS8State.t) : list float :=
  [EPS8State.I st; EPS8State.P st; EPS8State.S st; EPS8State.H st;
   EPS8State.A st; EPS8State.S_a st].

(** The list [[d.get("I", dflt), ..., d.get("S_a", dflt)]] that each class
    builds from a stored dictionary. *)
Definition dict_to_vector (d : gmap string float) (dflt : float) : list float :=
  [get_float d "I" dflt; get_float d "P" dflt; get_float d "S" dflt;
   get_float d "H" dflt; get_float d "A" dflt; get_float d "S_a" dflt].

(** [_cosine_similarity], which the four field classes define alike. *)
Definition _cosine_similarity (lib : MathLib) (vec1 vec2 : list float)
    : M float :=
  if negb (length vec1 =? length vec2)%nat then ret 0.0%float
  else
    let dot_product := float_sum lib (zip_with PrimFloat.mul vec1 vec2) in
    norm1 <- math_sqrt (float_sum lib (List.map (fun a => PrimFloat.mul a a) vec1)) ;;
    norm2 <- math_sqrt (float_sum lib (List.map (fun a => PrimFloat.mul a a) vec2)) ;;
    if feq norm1 0.0 || feq norm2 0.0 then ret 0.0%float
    else float_truediv dot_product (PrimFloat.mul norm1 norm2).

(** The loop of [query_resonance], which the episodic, the semantic and
    the procedural field share but for how a stored item yields its vector
    ([to_vector], [None] for an item that is skipped) and its phase
    ([phase_of]). *)
Fixpoint resonance_scan {Item : Type} (lib : MathLib)
    (to_vector : Item -> option (list float)) (phase_of : Item -> float)
    (st : EPS8State.t) (state_vector : list float) (items : list Item)
    (max_resonance : float) : M float :=
  match items with
  | [] => ret max_resonance
  | memory :: rest =>
      match to_vector memory with
      | None =>
          resonance_scan lib to_vector phase_of st state_vector rest
            max_resonance
      | Some memory_vector =>
          cosine_sim <- _cosine_similarity lib state_vector memory_vector ;;
          let state_phase := EPS8State.theta st in
          let memory_phase := phase_of memory in
          let phase_diff :=
            PrimFloat.abs (PrimFloat.sub state_phase memory_phase) in
          phase_alignment <- lift_res (math_exp lib (PrimFloat.opp phase_diff)) ;;
          let resonance := PrimFloat.mul cosine_sim phase_alignment in
          resonance_scan lib to_vector phase_of st state_vector rest
            (py_max max_resonance resonance)
      end
  end.

(** [memory.episodic_field.EpisodicField], on its list [memories]. *)
Module EpisodicField.
Record Memory := {
  timestamp : float;
  event : gmap string float
}.

Definition store (memories : list Memory) (ev : gmap string float)
    : M (list Memory) :=
  now <- time_time ;;
  ret (memories ++ [{| timestamp := now; event := ev |}]).

Definition _memory_to_vector (memory : Memory) : option (list float) :=
  if bool_decide (event memory = ∅) then None
  else Some (dict_to_vector (event memory) 0.0).

Definition query_resonance (lib : MathLib) (memories : list Memory)
    (st : EPS8State.t) (tid : string) : M float :=
  match memories with
  | [] => ret 0.0%float
  | _ =>
      resonance_scan lib _memory_to_vector
        (fun memory => get_float (event memory) "theta" 0.0)
        st (_eps8_to_vector st) memories 0.0
  end.
End EpisodicField.

(** [memory.semantic_field.SemanticField]; a stored principle may lack
    the keys ["pattern"] and ["theta"]. *)
Module SemanticField.
Record Memory := {
  pattern : option (gmap string float);
  theta : option float
}.

Definition store (memories : list Memory) (principle : Memory)
    : list Memory :=
  memories ++ [principle].

Definition _memory_to_vector (memory : Memory) : option (list float) :=
  let pattern := default ∅ (pattern memory) in
  if bool_decide (pattern = ∅) then None
  else Some (dict_to_vector pattern 0.0).

Definition query_resonance (lib : MathLib) (memories : list Memory)
    (st : EPS8State.t) (tid : string) : M float :=
  match memories with
  | [] => ret 0.0%float
  | _ =>
      resonance_scan lib _memory_to_vector
        (fun memory => default 0.0%float (theta memory))
        st (_eps8_to_vector st) memories 0.0
  end.
End SemanticField.

(** [memory.procedural_field.ProceduralField], on the items of its
    dictionary [action_states] in insertion order. *)
Module ProceduralField.
Definition _state_to_vector (action_state : string * gmap string float)
    : option (list float) :=
  Some (dict_to_vector (snd action_state) 0.0).

Definition query_resonance (lib : MathLib)
    (action_states : list (string * gmap string float))
    (st : EPS8State.t) (tid : string) : M float :=
  match action_states with
  | [] => ret 0.0%float
  | _ =>
      resonance_scan lib _state_to_vector
        (fun action_state => get_float (snd action_state) "theta" 0.0)
        st (_eps8_to_vector st) action_states 0.0
  end.
End ProceduralField.

(** [memory.identity_field.IdentityField], on its dictionary
    [baselines]. *)
Module IdentityField.
Definition _baselines_to_vector (baselines : gmap string float) : list float :=
  dict_to_vector baselines 0.5.

Definition query_resonance (lib : MathLib) (baselines : gmap string float)
    (st : EPS8State.t) (tid : string) : M float :=
  if bool_decide (baselines = ∅) then ret 0.5%float
  else
    cosine_sim <- _cosine_similarity lib (_eps8_to_vector st)
                    (_baselines_to_vector baselines) ;;
    ret (py_max 0.0 (py_min 1.0 cosine_sim)).
End IdentityField.

(** The [query_resonance] methods of the four classes, on any stored
    content. *)
Inductive repo_query (lib : MathLib)
    : (EPS8State.t -> string -> M float) -> Prop :=
| episodic_query (memories : list EpisodicField.Memory) :
    repo_query lib (EpisodicField.query_resonance lib memories)
| semantic_query (memories : list SemanticField.Memory) :
    repo_query lib (SemanticField.query_resonance lib memories)
| procedural_query (action_states : list (string * gmap string float)) :
    repo_query lib (ProceduralField.query_resonance lib action_states)
| identity_query (baselines : gmap string float) :
    repo_query lib (IdentityField.query_resonance lib baselines).

(** A library whose [exp] answers 1.0 and whose [sum] adds from the left,
    and an episodic store with one event. *)
Definition example_mathlib : MathLib :=
  {| math_exp := fun _ => Ret 1.0%float; float_sum := py_sum |}.

Definition example_memories : list EpisodicField.Memory :=
  [{| EpisodicField.timestamp := 100.0;
      EpisodicField.event := <["I" := 1.0%float]> (<["S" := 0.5%float]> ∅) |}].

(** *** perception/trajectory_builder.py: the builder's own attributes *)

(** The list objects that the attribute [states] of a builder and the
    dictionaries returned by [build] refer to, each found by its
    identity. *)
Abbreviation ListHeap := (gmap nat (list PyDict)).

(** The dictionary that [TrajectoryBuilder.build] returns; [br_states] is
    the identity of the list under ["states"]. *)
Record BuildResult := {
  br_trace_id : string;
  br_states : nat;
  br_state_count : nat
}.

(** [perception.trajectory_builder.Trajectory]; [bt_states] is the
    identity of its list of states. *)
Record BuiltTrajectory := {
  bt_states : nat;
  bt_trace_id : string;
  bt_source_modality : string;
  bt_timestamp : float;
  bt_debug_lineage : PyDict
}.

(** The dictionary [debug_lineage] that [build_trajectory] builds. *)
Definition trace_lineage (trace : Trace) : PyDict :=
  <["origin" := VDict (origin trace)]>
  (<["context" := VDict (context trace)]> ∅).

Module TrajectoryBuilder.
(** The attributes of a builder; [states] is the identity of the list. *)
Record t := {
  trajectory_id : option string;
  states : nat;
  origin : PyDict;
  context : PyDict
}.

(** [__init__]: the list [[]] is a new object. *)
Definition init (heap : ListHeap) : t * ListHeap :=
  let r := fresh (dom heap) in
  ({| trajectory_id := None; states := r; origin := ∅; context := ∅ |},
   <[r := []]> heap).

(** [append_state]: [self.states.append(state)] changes the list object
    in place. *)
Definition append_state (self : t) (st : PyDict) (heap : ListHeap)
    : ListHeap :=
  <[states self := (heap !!! states self) ++ [st]]> heap.

(** [build_trajectory]: [self.states.copy()] is a new list. *)
Definition build_trajectory (self : t) (trace : Trace)
    (source_modality : string) (heap : ListHeap)
    : BuiltTrajectory * ListHeap :=
  let r := fresh (dom heap) in
  ({| bt_states := r;
      bt_trace_id := trace_id trace;
      bt_source_modality := source_modality;
      bt_timestamp := created_at trace;
      bt_debug_lineage := trace_lineage trace |},
   <[r := heap !!! states self]> heap).

(** [build], the legacy method: the identifier is drawn on the first
    call; the list under ["states"] is the builder's own. *)
Definition build (self : t) (heap : ListHeap) : M (BuildResult * t) :=
  self <- (match trajectory_id self with
           | None =>
               tid <- uuid4 ;;
               ret {| trajectory_id := Some tid; states := states self;
                      origin := origin self; context := context self |}
           | Some _ => ret self
           end) ;;
  ret ({| br_trace_id := default "" (trajectory_id self);
          br_states := states self;
          br_state_count := length (heap !!! states self) |}, self).

(** [reset]: the attributes are bound to new objects. *)
Definition reset (self : t) (heap : ListHeap) : t * ListHeap :=
  let r := fresh (dom heap) in
  ({| trajectory_id := None; states := r; origin := ∅; context := ∅ |},
   <[r := []]> heap).
End TrajectoryBuilder.

(** *** runtime/main_loop.py: the loop with a working-memory controller *)

(** The object under ["eps"] in a trajectory dictionary: a mapping, as
    the controller's tests pass it, or an [EnergeticState] instance, as
    the admission phase stores it. *)
Inductive EpsValue : Type :=
| EpsMapping (d : gmap string float)
| EpsInstance (eps : EnergeticState.t).

(** [WMController.process] on a dictionary whose ["eps"], when present,
    is either of the two.  [_dict_to_trajectory] begins with
    [eps.get("I", 0.0)]; an instance of the dataclass has no attribute
    [get], so the call raises before anything else has happened. *)
Definition process_dict (self : WMController) (eps : option EpsValue)
    (trace_id : option string) (source_modality : option string)
    (timestamp : option float) (debug_lineage : option PyDict)
    : M WMControllerOutput.t :=
  match eps with
  | Some (EpsInstance _) =>
      raise (OtherError "AttributeError"
               "'EnergeticState' object has no attribute 'get'")
  | Some (EpsMapping d) =>
      process self {| td_eps := Some d; td_trace_id := trace_id;
                      td_source_modality := source_modality;
                      td_timestamp := timestamp;
                      td_debug_lineage := debug_lineage |}
  | None =>
      process self {| td_eps := None; td_trace_id := trace_id;
                      td_source_modality := source_modality;
                      td_timestamp := timestamp;
                      td_debug_lineage := debug_lineage |}
  end.

(** [RuntimeLoop._phase_working_memory_control].  The dictionary that the
    admission phase returns has the keys ["trace_id"] and ["eps"] and
    none of ["source_modality"], ["timestamp"] and ["debug_lineage"]. *)
Definition _phase_working_memory_control_source
    (wm_controller : option WMController) (trajectory : AdmittedTrajectory.t)
    : M WMOutput :=
  match wm_controller with
  | None => ret (WMPassThrough trajectory)
  | Some controller =>
      out <- process_dict controller
               (Some (EpsInstance (AdmittedTrajectory.eps trajectory)))
               (Some (AdmittedTrajectory.trace_id trajectory))
               None None None ;;
      ret (WMProcessed out)
  end.

(** A loop without gate whose idle phase finds the input ["ping"], with
    the router [example_controller] as its working-memory controller. *)
Definition example_controlled_handlers : PhaseHandlers :=
  {| _phase_idle := ret (Some (VStr "ping"));
     _phase_input_intake := _phase_input_intake_source;
     _phase_sensory_adaptation := _phase_sensory_adaptation_fallback;
     _phase_perception_boundary := _phase_perception_boundary_fallback;
     _phase_admission := _phase_trajectory_admission None false;
     _phase_working_memory_control :=
       _phase_working_memory_control_source (Some example_controller);
     _phase_reasoning := _phase_reasoning_fallback;
     _phase_decision := _phase_decision_fallback;
     _phase_action_output := _phase_action_output_fallback;
     _phase_post_processing := _phase_post_processing_fallback |}.

(** ** runtime/scheduler.py *)

Module Scheduler.
(** One entry of [Scheduler.tasks]. *)
Record Entry := {
  task : PyDict;
  execute_at : float
}.

(** [schedule], on the list [self.tasks]. *)
Definition schedule (tasks : list Entry) (t : PyDict) (delay : float)
    : M (list Entry) :=
  now <- time_time ;;
  ret (tasks ++ [{| task := t; execute_at := PrimFloat.add now delay |}]).

(** [execute_pending]: the pending entries that it returns, and the list
    that it leaves in [self.tasks]. *)
Definition execute_pending (tasks : list Entry)
    : M (list Entry * list Entry) :=
  current_time <- time_time ;;
  let pending :=
    List.filter (fun t => fle (execute_at t) current_time) tasks in
  ret (pending,
       List.filter (fun t => fgt (execute_at t) current_time) tasks).
End Scheduler.

(** *** runtime/wm_controller.py: an import that escapes *)

(** The exception that leaves the resonance step because of its import
    statement: some field is configured, and the import raises something
    that is not an [ImportError]. *)
Definition import_escapes (imp : ImportOutcome) (self : WMController)
    : option PyExc :=
  match memory_fields self, imp with
  | _ :: _, ImportRaised e => if is_ImportError e then None else Some e
  | _, _ => None
  end.

(** A host on which [from memory import ...] raises a [NameError], and a
    router with one episodic field. *)
Definition example_host_import_fails : Host :=
  {| clock := clock example_host;
     uuid_src := uuid_src example_host;
     fmt3 := fmt3 example_host;
     fmt := fmt example_host;
     format_exc := format_exc example_host;
     error_handler_importable := true;
     memory_import :=
       ImportRaised (OtherError "NameError" "name 'List' is not defined");
     builtin_sum := py_sum;
     float_pow := example_float_pow |}.

Definition example_world_import_fails : World :=
  {| host := example_host_import_fails; ticks := 0; uuids := 0; log := [];
     gate_traces := [];
     loop := {| running := false; current_phase := IDLE;
                system_state := "running" |};
     error_handler := None |}.

Definition example_controller_with_field : WMController :=
  WMController_init None
    [("episodic", Some (FieldQuery (fun _ _ => ret 0.9%float)))] ∅.

(** * Theorems *)

(** Runs the monad's plumbing on the goal. *)
Ltac mrun :=
  cbv [bind ret raise gets modify time_time uuid4 logger_info logger_warning
       logger_error logger_log format3 format_float gate_trace_trace];
  cbn [fst snd].

Ltac mrun_in H :=
  cbv [bind ret raise gets modify time_time uuid4 logger_info logger_warning
       logger_error logger_log format3 format_float gate_trace_trace] in H;
  cbn [fst snd] in H.


(** ** Order of floats *)

(** The comparison of the floats' specification is antisymmetric. *)
Lemma SFcompare_antisym (x y : spec_float) :
  SFcompare y x = option_map CompOpp (SFcompare x y).
Proof.
  destruct x as [sx | sx | | sx mx ex], y as [sy | sy | | sy my ey];
    simpl; try reflexivity;
    try (destruct sx; reflexivity); try (destruct sy; reflexivity);
    try (destruct sx, sy; reflexivity).
  destruct sx, sy; try reflexivity; f_equal;
    rewrite (Z.compare_antisym ex ey);
    destruct (ex ?= ey)%Z; simpl; try reflexivity;
    change (Pos.compare_cont Eq my mx) with (my ?= mx)%positive;
    change (Pos.compare_cont Eq mx my) with (mx ?= my)%positive;
    rewrite (Pos.compare_antisym mx my);
    destruct (mx ?= my)%positive; reflexivity.
Qed.

Lemma SFcompare_None_nan (x y : spec_float) :
  SFcompare x y = None -> SFcompare x x = None \/ SFcompare y y = None.
Proof.
  destruct x as [sx | sx | | sx mx ex], y as [sy | sy | | sy my ey];
    simpl; intros H; try discriminate H; auto.
Qed.



(** [x <= y] excludes [x > y]. *)
Lemma fle_not_fgt (x y : float) : fle x y = true -> fgt x y = false.
Proof.
  unfold fle, fgt. rewrite leb_spec, ltb_spec. unfold SFleb, SFltb.
  rewrite (SFcompare_antisym (Prim2SF x) (Prim2SF y)).
  destruct (SFcompare (Prim2SF x) (Prim2SF y)) as [[]|]; simpl;
    intros H; try discriminate H; reflexivity.
Qed.

(** On numbers, that is when neither side is a NaN ([x == x] holds),
    [x > y] is the negation of [x <= y]. *)
Lemma fgt_negb_fle (x y : float) :
  feq x x = true -> feq y y = true -> fgt x y = negb (fle x y).
Proof.
  unfold feq, fgt, fle.
  rewrite !FloatAxioms.eqb_spec, leb_spec, ltb_spec.
  unfold SFeqb, SFleb, SFltb. intros Hx Hy.
  rewrite (SFcompare_antisym (Prim2SF x) (Prim2SF y)).
  destruct (SFcompare (Prim2SF x) (Prim2SF y)) as [[]|] eqn:Hc; simpl;
    try reflexivity.
  apply SFcompare_None_nan in Hc. destruct Hc as [Hc | Hc]; rewrite Hc in *;
    discriminate.
Qed.

(** ** The monad *)

Lemma bind_run {A B} (c : M A) (k : A -> M B) (w w' : World) (a : A) :
  c w = (Ret a, w') -> bind c k w = k a w'.
Proof. intros H. unfold bind. rewrite H. reflexivity. Qed.

Lemma bind_raise {A B} (c : M A) (k : A -> M B) (w w' : World) (e : PyExc) :
  c w = (Raise e, w') -> bind c k w = (Raise e, w').
Proof. intros H. unfold bind. rewrite H. reflexivity. Qed.

(** ** Trace lifecycle *)

Section TraceLifecycle.

Lemma allowed_transitions_spec s ns :
  ns ∈ spec_allowed_edges s <->
  exists allowed, allowed_transitions s = Some allowed /\ ns ∈ allowed.
Proof.
  split.
  - intros Hin. destruct s; simpl in *;
      try (eexists; split; [reflexivity | exact Hin]); inversion Hin.
  - intros (allowed & Hal & Hin).
    destruct s; simpl in *; inversion Hal; subst; exact Hin.
Qed.

(** A transition that succeeds went along an allowed edge, read the
    clock once for the log entry, and the result has the shape the
    source builds. *)
Lemma transition_trace_ok trace new_state reason ed w t' w' :
  transition_trace trace new_state reason ed w = (Ret t', w') ->
  new_state ∈ spec_allowed_edges (state trace) /\
  trace_id t' = trace_id trace /\
  state t' = new_state /\
  created_at t' = created_at trace /\
  origin t' = origin trace /\
  context t' = context trace /\
  lifecycle_log t' =
    lifecycle_log trace ++
      [update_entry
         (<["event" := VStr ("TRACE_" +:+ state_name new_state)]>
          (<["trace_id" := VStr (trace_id trace)]>
          (<["timestamp" := VFloat (clock (host w) (ticks w))]>
          (<["reason" := VStr reason]> ∅)))) ed] /\
  closed_at t' =
    (if bool_decide (new_state ∈ [BLOCKED; COMPLETED; INVALID])
     then Some (clock (host w) (S (ticks w)))
     else closed_at trace).
Proof.
  unfold transition_trace. intros Hrun.
  destruct (allowed_transitions (state trace)) as [allowed|] eqn:Hal;
    [|discriminate].
  destruct (bool_decide (new_state ∈ allowed)) eqn:Hin; simpl in Hrun;
    [|discriminate].
  apply bool_decide_eq_true in Hin.
  split.
  { apply allowed_transitions_spec. eauto. }
  destruct (bool_decide (new_state ∈ [BLOCKED; COMPLETED; INVALID])) eqn:Hc;
    cbv [bind time_time ret logger_info logger_log modify] in Hrun;
    simpl in Hrun; inversion Hrun; subst; simpl; repeat split; reflexivity.
Qed.

(** C4.  A requested target that is not an allowed edge from the trace's
    current state makes [transition_trace] fail with a [ValueError] (the
    invalid-transition error).  The call raises before it reads the clock,
    writes a log line or builds anything: the state of the run is the one
    before the call, and no trace is produced, so the caller is left with
    the trace it passed in, which (a frozen dataclass whose log the
    function only reads) has every field, the lifecycle log included, as
    before. *)
Theorem transition_rejects_illegal_edge
    (trace : Trace) (new_state : TraceState) (reason : string)
    (event_data : option PyDict) (w : World) :
  new_state ∉ spec_allowed_edges (state trace) ->
  exists msg,
    transition_trace trace new_state reason event_data w
    = (Raise (ValueError msg), w).
Proof.
  intros Hnot. unfold transition_trace.
  destruct (allowed_transitions (state trace)) as [allowed|] eqn:Hal.
  - destruct (bool_decide (new_state ∈ allowed)) eqn:Hin; simpl.
    + exfalso. apply Hnot, allowed_transitions_spec.
      apply bool_decide_eq_true in Hin. eauto.
    + eexists. reflexivity.
  - eexists. reflexivity.
Qed.

Lemma transition_rejects_illegal_edge_witness :
  (COMPLETED ∉ spec_allowed_edges (state example_created_trace)) /\
  (exists msg,
    transition_trace example_created_trace COMPLETED "done" None example_world
    = (Raise (ValueError msg), example_world)).
Proof.
  assert (H : COMPLETED ∉ spec_allowed_edges (state example_created_trace)).
  { simpl. intros Hin. repeat (inversion Hin as [|? ? ? Hin']; subst; clear Hin;
                                rename Hin' into Hin). }
  split; [exact H |].
  exact (transition_rejects_illegal_edge example_created_trace COMPLETED
           "done" None example_world H).
Defined.

(** C3, as amended.  On every successful transition the closure
    timestamp of the new trace is the clock reading taken for it when the
    target state is BLOCKED, COMPLETED or INVALID, whether or not the
    input trace already had one, and is the input trace's closure
    timestamp for every other target (ACTIVE, ARCHIVED). *)
Theorem transition_closed_at
    (trace : Trace) (new_state : TraceState) (reason : string)
    (event_data : option PyDict) (w w' : World) (t' : Trace) :
  transition_trace trace new_state reason event_data w = (Ret t', w') ->
  closed_at t' =
    if bool_decide (new_state ∈ [BLOCKED; COMPLETED; INVALID])
    then Some (clock (host w) (S (ticks w)))
    else closed_at trace.
Proof.
  intros Hrun. apply transition_trace_ok in Hrun. tauto.
Qed.

Lemma transition_closed_at_witness :
  exists t' w',
    transition_trace example_created_trace BLOCKED "gate" None example_world
    = (Ret t', w') /\
    closed_at t' = Some 101.0%float.
Proof.
  destruct (transition_trace example_created_trace BLOCKED "gate" None
              example_world) as [[t'|e] w'] eqn:Hrun.
  - exists t', w'. split; [reflexivity |].
    rewrite (transition_closed_at _ _ _ _ _ _ _ Hrun).
    vm_compute. reflexivity.
  - vm_compute in Hrun. discriminate Hrun.
Defined.

(** C3 as stated fails: a trace is created (clock 100.0), blocked by the
    gate, which sets its closure timestamp (102.0), and then invalidated
    along the BLOCKED → INVALID edge; the second transition succeeds and
    replaces the closure timestamp (104.0). *)
Lemma closed_at_overwritten_by_invalid :
  exists t0 w1 t1 w2 t2 w3,
    create_trace example_origin example_context example_world = (Ret t0, w1) /\
    transition_trace t0 BLOCKED "gate" None w1 = (Ret t1, w2) /\
    transition_trace t1 INVALID "audit" None w2 = (Ret t2, w3) /\
    closed_at t0 = None /\
    closed_at t1 = Some 102.0%float /\
    closed_at t2 = Some 104.0%float /\
    closed_at t2 <> closed_at t1.
Proof.
  do 6 eexists.
  split; [vm_compute; reflexivity |].
  split; [vm_compute; reflexivity |].
  split; [vm_compute; reflexivity |].
  split; [reflexivity |].
  split; [reflexivity |].
  split; [reflexivity |].
  intros H.
  apply (f_equal (fun o => match o with
                           | Some x => PrimFloat.ltb x 103.0
                           | None => false
                           end)) in H.
  vm_compute in H. discriminate H.
Qed.

(** C10.  When the payload [event_data] of a successful transition has a
    key [k], the entry appended to the lifecycle log holds the payload's
    value under [k].  For [k] one of ["event"], ["timestamp"], ["reason"]
    and ["trace_id"] this is the payload's value in place of the
    transition's own event name, timestamp, reason or trace id. *)
Theorem event_data_overrides_entry
    (trace : Trace) (new_state : TraceState) (reason : string)
    (event_data : PyDict) (k : string) (v : PyVal)
    (w w' : World) (t' : Trace) :
  transition_trace trace new_state reason (Some event_data) w = (Ret t', w') ->
  event_data !! k = Some v ->
  exists entry,
    lifecycle_log t' = lifecycle_log trace ++ [entry] /\
    entry !! k = Some v.
Proof.
  intros Hrun Hk. apply transition_trace_ok in Hrun.
  destruct Hrun as (_ & _ & _ & _ & _ & _ & Hlog & _).
  eexists. split; [exact Hlog |].
  unfold update_entry, truthy.
  destruct (bool_decide (size event_data = 0)) eqn:Hsz; simpl.
  - apply bool_decide_eq_true in Hsz. apply map_size_empty_iff in Hsz.
    subst. rewrite lookup_empty in Hk. discriminate.
  - apply lookup_union_Some_l. exact Hk.
Qed.

Lemma event_data_overrides_entry_witness :
  exists t' w' entry,
    transition_trace example_created_trace ACTIVE "admitted"
      (Some (<["event" := VStr "TRACE_COMPLETED"]>
             (<["trace_id" := VStr "someone-else"]> ∅))) example_world
    = (Ret t', w') /\
    lifecycle_log t' = lifecycle_log example_created_trace ++ [entry] /\
    entry !! "event" = Some (VStr "TRACE_COMPLETED").
Proof.
  destruct (transition_trace example_created_trace ACTIVE "admitted"
              (Some (<["event" := VStr "TRACE_COMPLETED"]>
                     (<["trace_id" := VStr "someone-else"]> ∅)))
              example_world) as [[t'|e] w'] eqn:Hrun.
  - destruct (event_data_overrides_entry _ _ _ _ "event"
                (VStr "TRACE_COMPLETED") _ _ _ Hrun eq_refl) as [entry H].
    exists t', w', entry. split; [reflexivity | exact H].
  - vm_compute in Hrun. discriminate Hrun.
Defined.

(** The lifecycle log is append-only: a successful transition keeps every
    earlier entry in place and adds exactly one, whose event is the
    transition's unless the payload names another; identity, creation
    time, origin and context are carried over. *)
Theorem transition_appends_one_entry
    (trace : Trace) (new_state : TraceState) (reason : string)
    (event_data : option PyDict) (w w' : World) (t' : Trace) :
  transition_trace trace new_state reason event_data w = (Ret t', w') ->
  (exists entry, lifecycle_log t' = lifecycle_log trace ++ [entry]) /\
  length (lifecycle_log t') = S (length (lifecycle_log trace)) /\
  (forall i e, lifecycle_log trace !! i = Some e ->
               lifecycle_log t' !! i = Some e) /\
  state t' = new_state /\
  trace_id t' = trace_id trace /\
  created_at t' = created_at trace /\
  origin t' = origin trace /\
  context t' = context trace.
Proof.
  intros Hrun. apply transition_trace_ok in Hrun.
  destruct Hrun as (_ & Hid & Hs & Hcr & Ho & Hc & Hlog & _).
  split; [eexists; exact Hlog |].
  split; [rewrite Hlog, length_app; simpl; lia |].
  split.
  { intros i e Hi. rewrite Hlog. apply lookup_app_l_Some. exact Hi. }
  auto.
Qed.

Lemma transition_appends_one_entry_witness :
  exists t' w',
    transition_trace example_created_trace ACTIVE "admitted" None example_world
    = (Ret t', w') /\
    length (lifecycle_log t') = 2 /\ state t' = ACTIVE.
Proof.
  destruct (transition_trace example_created_trace ACTIVE "admitted" None
              example_world) as [[t'|e] w'] eqn:Hrun.
  - destruct (transition_appends_one_entry _ _ _ _ _ _ _ Hrun)
      as (_ & Hlen & _ & Hs & _).
    exists t', w'. split; [reflexivity |]. split; [exact Hlen | exact Hs].
  - vm_compute in Hrun. discriminate Hrun.
Defined.

End TraceLifecycle.


(** ** The admission gate *)

Section Gate.

(** The metrics [_prepare_metrics] builds hold the state's fields, and a
    drift of 0.0. *)
Lemma metrics_with_lookup (eps : GateEnergeticState.t) (T V d : float) :
  let m := metrics_with eps T V in
  get_float m "S" d = GateEnergeticState.S eps /\
  get_float m "E_mu" d = GateEnergeticState.E_mu eps /\
  get_float m "H" d = GateEnergeticState.H eps /\
  get_float m "D_traj" d = 0.0%float.
Proof.
  cbv zeta. unfold metrics_with, get_float.
  repeat split;
    repeat (rewrite lookup_insert_ne by discriminate);
    rewrite lookup_insert_eq; reflexivity.
Qed.

(** The squares under the second [sum]: all of them, or the exception of
    the first that raises. *)
Lemma squares_run (mean : float) (history : list float) (w : World) :
  match first_raised
          (List.map (fun x => float_pow (host w) (PrimFloat.sub x mean) 2%float)
             history) with
  | Some e =>
      map_m (fun x => float_pow2 (PrimFloat.sub x mean)) history w
      = (Raise e, w)
  | None =>
      exists squares,
        map_m (fun x => float_pow2 (PrimFloat.sub x mean)) history w
        = (Ret squares, w)
  end.
Proof.
  induction history as [| x rest IH].
  - exists []. reflexivity.
  - cbn [List.map first_raised map_m].
    destruct (float_pow (host w) (PrimFloat.sub x mean) 2) as [y | e] eqn:Hp.
    + destruct (first_raised _) as [e |].
      * unfold bind at 1. unfold float_pow2 at 1. rewrite Hp.
        unfold bind at 1. rewrite IH. reflexivity.
      * destruct IH as (squares & IH). exists (y :: squares).
        unfold bind at 1. unfold float_pow2 at 1. rewrite Hp.
        unfold bind at 1. rewrite IH. reflexivity.
    + unfold bind at 1. unfold float_pow2 at 1. rewrite Hp. reflexivity.
Qed.

(** [_prepare_metrics] changes nothing.  It raises exactly when the
    history raises, and otherwise returns the dictionary with some trend
    and variance, both 0.0 for a history that is absent or has fewer than
    two points. *)
Lemma prepare_metrics_run (eps : GateEnergeticState.t)
    (hist : option (list float)) (w : World) :
  match history_raises (host w) hist with
  | Some e => _prepare_metrics eps hist w = (Raise e, w)
  | None =>
      exists T V,
        _prepare_metrics eps hist w = (Ret (metrics_with eps T V), w) /\
        (match hist with
         | Some h => length h < 2
         | None => True
         end -> T = 0.0%float /\ V = 0.0%float) /\
        (forall h, hist = Some h -> 2 <= length h ->
                   T = _calculate_trend h)
  end.
Proof.
  unfold history_raises, _prepare_metrics.
  destruct hist as [h |].
  - destruct (2 <=? length h)%nat eqn:Hlen.
    + apply Nat.leb_le in Hlen.
      assert (Hlt : (length h <? 2)%nat = false) by (apply Nat.ltb_ge; lia).
      unfold _calculate_variance. rewrite Hlt. cbv zeta.
      pose proof (squares_run
                    (PrimFloat.div (builtin_sum (host w) h)
                       (float_of_nat (length h))) h w) as Hsq.
      destruct (first_raised _) as [e |].
      * unfold bind at 1. unfold bind at 1. unfold gets at 1.
        unfold bind at 1. rewrite Hsq. reflexivity.
      * destruct Hsq as (squares & Hsq).
        exists (_calculate_trend h),
               (PrimFloat.div (builtin_sum (host w) squares)
                  (float_of_nat (length h))).
        split.
        { unfold bind at 1. unfold bind at 1. unfold gets at 1.
          unfold bind at 1. rewrite Hsq. reflexivity. }
        split; [intros Hshort; lia |]. intros h' [= <-] _. reflexivity.
    + apply Nat.leb_gt in Hlen. exists 0.0%float, 0.0%float.
      split; [reflexivity |]. split; [auto |]. intros h' [= <-] H2. lia.
  - exists 0.0%float, 0.0%float. split; [reflexivity |].
    split; [auto |]. intros h' Hh. discriminate Hh.
Qed.

(** [_determine_reason] always returns a reason, and changes nothing. *)
Lemma determine_reason_returns (g : GateCore) (v : string)
    (eps : GateEnergeticState.t) (m : gmap string float) (w : World) :
  exists s, _determine_reason g v eps m w = (Ret s, w) /\
            (v = "ALLOW" -> s = "All metrics within safety bounds").
Proof.
  unfold _determine_reason.
  destruct (String.eqb v "BLOCK") eqn:Hb.
  { apply String.eqb_eq in Hb.
    repeat match goal with
           | |- context [if ?c then _ else _] => destruct c
           end; mrun; eexists; (split; [reflexivity |]);
      intros ->; discriminate Hb. }
  destruct (String.eqb v "REVIEW") eqn:Hr.
  { apply String.eqb_eq in Hr.
    repeat match goal with
           | |- context [if ?c then _ else _] => destruct c
           end; mrun; eexists; (split; [reflexivity |]);
      intros ->; discriminate Hr. }
  mrun. eexists. split; reflexivity.
Qed.

(** When the metrics are prepared and the decision gate answers [v],
    [GateCore.admit] returns a result with that verdict, the reason that
    [_determine_reason] gives, the prepared metrics and the trace id it was
    given; it reads the clock twice, appends one record to the gate trace
    and writes one log line. *)
Lemma GateCore_admit_run (g : GateCore) (eps : GateEnergeticState.t)
    (tid : option string) (hist : option (list float)) (w w1 : World)
    (m : gmap string float) (v : string) :
  _prepare_metrics eps hist w = (Ret m, w) ->
  decide g m w = (Ret v, w1) ->
  exists r w' line,
    GateCore_admit g eps tid hist w = (Ret r, w') /\
    GateCoreResult.verdict r = v /\
    GateCoreResult.metrics r = m /\
    GateCoreResult.trace_id r = tid /\
    GateCoreResult.timestamp r = clock (host w1) (ticks w1) /\
    _determine_reason g v eps m w1 = (Ret (GateCoreResult.reason r), w1) /\
    gate_traces w'
    = gate_traces w1 ++
        [{| gt_timestamp := clock (host w1) (S (ticks w1));
            gt_decision := v;
            gt_state :=
              <["I" := GateEnergeticState.I eps]>
              (<["P" := GateEnergeticState.P eps]>
              (<["S" := GateEnergeticState.S eps]>
              (<["H" := GateEnergeticState.H eps]>
              (<["A" := GateEnergeticState.A eps]>
              (<["S_a" := GateEnergeticState.S_a eps]>
              (<["E_mu" := GateEnergeticState.E_mu eps]>
              (<["theta" := GateEnergeticState.theta eps]> ∅)))))));
            gt_reason := GateCoreResult.reason r |}] /\
    ticks w' = S (S (ticks w1)) /\
    log w' = log w1 ++ [(INFO, line)] /\
    host w' = host w1 /\ uuids w' = uuids w1 /\ loop w' = loop w1 /\
    error_handler w' = error_handler w1.
Proof.
  intros Hm Hd. unfold GateCore_admit.
  rewrite (bind_run _ _ _ _ _ Hm), (bind_run _ _ _ _ _ Hd).
  destruct (determine_reason_returns g v eps m w1) as (s & Hs & _).
  rewrite (bind_run _ _ _ _ _ Hs).
  mrun. eexists; eexists; eexists. split; [reflexivity |].
  simpl. repeat split; try reflexivity. exact Hs.
Qed.

(** The same when the decision gate does not touch the state of the
    run. *)
Lemma GateCore_admit_verdict (g : GateCore) (eps : GateEnergeticState.t)
    (tid : option string) (hist : option (list float)) (w : World)
    (m : gmap string float) (v : string) :
  _prepare_metrics eps hist w = (Ret m, w) ->
  decide g m w = (Ret v, w) ->
  exists r w',
    GateCore_admit g eps tid hist w = (Ret r, w') /\
    GateCoreResult.verdict r = v /\
    GateCoreResult.metrics r = m /\
    GateCoreResult.trace_id r = tid /\
    _determine_reason g v eps m w = (Ret (GateCoreResult.reason r), w) /\
    (v = "ALLOW" ->
     GateCoreResult.reason r = "All metrics within safety bounds").
Proof.
  intros Hm Hd.
  destruct (GateCore_admit_run g eps tid hist w w m v Hm Hd)
    as (r & w' & line & Hrun & Hv & Hmet & Htid & _ & Hreason & _).
  exists r, w'. split; [exact Hrun |]. split; [exact Hv |].
  split; [exact Hmet |]. split; [exact Htid |]. split; [exact Hreason |].
  intros Hallow.
  destruct (determine_reason_returns g v eps m w) as (s & Hs & Hs').
  rewrite Hs in Hreason. assert (s = GateCoreResult.reason r) by congruence.
  subst s. apply Hs'. exact Hallow.
Qed.

(** A result that [GateCore.admit] returns carries the trace id it was
    called with and the metrics that were prepared. *)
Lemma GateCore_admit_result (g : GateCore) (eps : GateEnergeticState.t)
    (tid : option string) (hist : option (list float)) (w w' : World)
    (r : GateCoreResult.t) :
  GateCore_admit g eps tid hist w = (Ret r, w') ->
  GateCoreResult.trace_id r = tid /\
  _prepare_metrics eps hist w = (Ret (GateCoreResult.metrics r), w).
Proof.
  unfold GateCore_admit. intros Hrun.
  pose proof (prepare_metrics_run eps hist w) as Hp.
  destruct (history_raises (host w) hist) as [e0 |].
  - rewrite (bind_raise _ _ _ _ _ Hp) in Hrun. discriminate Hrun.
  - destruct Hp as (T & V & Hp & _).
    rewrite (bind_run _ _ _ _ _ Hp) in Hrun.
    destruct (decide g (metrics_with eps T V) w) as [[v|e] w1] eqn:Hd.
    + rewrite (bind_run _ _ _ _ _ Hd) in Hrun.
      destruct (determine_reason_returns g v eps (metrics_with eps T V) w1)
        as (s & Hs & _).
      rewrite (bind_run _ _ _ _ _ Hs) in Hrun.
      mrun_in Hrun. inversion Hrun; subst. split; [reflexivity | exact Hp].
    + rewrite (bind_raise _ _ _ _ _ Hd) in Hrun. discriminate Hrun.
Qed.

(** When the metrics cannot be prepared, [GateCore.admit] raises the
    exception of the history before the decision gate is asked, and
    nothing is recorded. *)
Lemma GateCore_admit_overflow (g : GateCore) (eps : GateEnergeticState.t)
    (tid : option string) (hist : option (list float)) (w : World)
    (e : PyExc) :
  history_raises (host w) hist = Some e ->
  GateCore_admit g eps tid hist w = (Raise e, w).
Proof.
  intros Ho. pose proof (prepare_metrics_run eps hist w) as Hp.
  rewrite Ho in Hp. unfold GateCore_admit. apply bind_raise. exact Hp.
Qed.

(** What [DecisionGate.decide] returns on the prepared metrics: the name
    of the code that the kernel's entry point returns for the policy's
    parameters, the state's entropy and the drift 0.0; without a loaded
    library it raises. *)
Lemma kernel_decide_run (kb : KernelBridge) (config : gmap string float)
    (eps : GateEnergeticState.t) (T V : float) (w : World) :
  decide (kernel_gatecore kb config) (metrics_with eps T V) w
  = match library kb with
    | None => (Raise (RuntimeError "Library not loaded"), w)
    | Some lib =>
        (Ret (verdict_map (lib (decision_params_of config)
                               (GateEnergeticState.H eps) 0.0%float)), w)
    end.
Proof.
  simpl. unfold DecisionGate_decide, KernelBridge_decision_gate.
  destruct (metrics_with_lookup eps T V 0.0%float) as (_ & _ & HmH & HmD).
  cbv zeta. rewrite HmH, HmD.
  destruct (library kb); reflexivity.
Qed.



End Gate.


(** ** Admission: the adapter and the admission phase *)

Section Admission.

(** [create_trace] always succeeds, with a trace in state CREATED whose
    log is the single TRACE_CREATED entry. *)
Lemma create_trace_ok (o c : PyDict) (w : World) :
  exists t0 w1,
    create_trace o c w = (Ret t0, w1) /\
    state t0 = CREATED /\
    closed_at t0 = None /\
    trace_id t0 = uuid_src (host w) (uuids w) /\
    created_at t0 = clock (host w) (ticks w) /\
    origin t0 = o /\ context t0 = c /\
    (exists e0, lifecycle_log t0 = [e0] /\
                e0 !! "event" = Some (VStr "TRACE_CREATED")).
Proof.
  unfold create_trace. mrun.
  eexists; eexists. split; [reflexivity |]. simpl.
  repeat split; try reflexivity.
  eexists. split; [reflexivity |]. apply lookup_insert_eq.
Qed.

(** A transition along an allowed edge always succeeds. *)
Lemma transition_trace_succeeds trace new_state reason ed w :
  new_state ∈ spec_allowed_edges (state trace) ->
  exists t' w', transition_trace trace new_state reason ed w = (Ret t', w').
Proof.
  intros Hin. apply allowed_transitions_spec in Hin.
  destruct Hin as (allowed & Hal & Hin).
  unfold transition_trace. rewrite Hal.
  rewrite (bool_decide_eq_true_2 _ Hin). simpl.
  destruct (bool_decide (new_state ∈ [BLOCKED; COMPLETED; INVALID]));
    mrun; eexists; eexists; reflexivity.
Qed.

(** The payload the adapter and the admission phase pass is never empty,
    so it is merged into the log entry; its two keys are found there and
    the entry's own reason is kept. *)
Lemma gate_payload_in_entry (base : PyDict) (r : GateCoreResult.t) :
  let entry := update_entry base (Some (gate_event_data r)) in
  entry !! "gate_metrics" = Some (VDict (VFloat <$> GateCoreResult.metrics r)) /\
  entry !! "verdict" = Some (VStr (GateCoreResult.verdict r)) /\
  entry !! "reason" = base !! "reason" /\
  entry !! "event" = base !! "event".
Proof.
  simpl. unfold update_entry, truthy.
  assert (Hne : gate_event_data r ≠ ∅) by apply insert_non_empty.
  destruct (bool_decide (size (gate_event_data r) = 0)) eqn:Hsz; simpl.
  - apply bool_decide_eq_true in Hsz. apply map_size_empty_iff in Hsz.
    contradiction.
  - unfold gate_event_data. repeat split.
    + apply lookup_union_Some_l. apply lookup_insert_eq.
    + apply lookup_union_Some_l.
      rewrite lookup_insert_ne by discriminate. apply lookup_insert_eq.
    + rewrite lookup_union_r; [reflexivity |].
      rewrite !lookup_insert_ne by discriminate. apply lookup_empty.
    + rewrite lookup_union_r; [reflexivity |].
      rewrite !lookup_insert_ne by discriminate. apply lookup_empty.
Qed.

Lemma create_trace_state (o c : PyDict) (w w1 : World) (t0 : Trace) :
  create_trace o c w = (Ret t0, w1) ->
  state t0 = CREATED /\ trace_id t0 = uuid_src (host w) (uuids w) /\
  closed_at t0 = None.
Proof.
  intros H. destruct (create_trace_ok o c w) as (t & w' & Hc & Hs & Hcl & Hid & _).
  rewrite H in Hc. inversion Hc; subst. auto.
Qed.

(** C5.  [admit_with_trace] creates a trace in state CREATED, calls the
    gate with that trace's id attached (the result carries it) and, when
    the gate answers with a result [r], returns [r] together with the
    created trace transitioned
    to BLOCKED if the verdict is BLOCK and to ACTIVE otherwise (so for
    ALLOW and REVIEW).  In both branches the entry appended to the
    lifecycle log holds the gate's metrics under ["gate_metrics"] and the
    verdict under ["verdict"]. *)
Theorem admit_with_trace_spec
    (gatecore : GateCore) (eps : EnergeticState.t) (origin context : PyDict)
    (E_mu_history : option (list float)) (w w1 w2 : World)
    (t0 : Trace) (r : GateCoreResult.t) :
  create_trace origin context w = (Ret t0, w1) ->
  GateCore_admit gatecore (convert_eps eps) (Some (trace_id t0))
    E_mu_history w1 = (Ret r, w2) ->
  state t0 = CREATED /\
  exists t' w3 entry,
    admit_with_trace gatecore eps origin context E_mu_history w
    = (Ret (t', r), w3) /\
    GateCoreResult.trace_id r = Some (trace_id t0) /\
    trace_id t' = trace_id t0 /\
    (GateCoreResult.verdict r = "BLOCK" -> state t' = BLOCKED) /\
    (GateCoreResult.verdict r = "ALLOW" \/ GateCoreResult.verdict r = "REVIEW"
     -> state t' = ACTIVE) /\
    state t' = (if String.eqb (GateCoreResult.verdict r) "BLOCK"
                then BLOCKED else ACTIVE) /\
    lifecycle_log t' = lifecycle_log t0 ++ [entry] /\
    entry !! "gate_metrics"
    = Some (VDict (VFloat <$> GateCoreResult.metrics r)) /\
    entry !! "verdict" = Some (VStr (GateCoreResult.verdict r)).
Proof.
  intros Hc Hg.
  destruct (create_trace_state _ _ _ _ _ Hc) as (Hst & _ & _).
  destruct (GateCore_admit_result _ _ _ _ _ _ _ Hg) as (Htid & _).
  split; [exact Hst |].
  unfold admit_with_trace.
  rewrite (bind_run _ _ _ _ _ Hc). cbv zeta.
  rewrite (bind_run _ _ _ _ _ Hg).
  set (target := if String.eqb (GateCoreResult.verdict r) "BLOCK"
                 then BLOCKED else ACTIVE).
  assert (Hedge : target ∈ spec_allowed_edges (state t0)).
  { rewrite Hst. unfold target. simpl.
    destruct (String.eqb _ _); [right; left | left]. }
  destruct (String.eqb (GateCoreResult.verdict r) "BLOCK") eqn:Hv.
  - destruct (transition_trace_succeeds t0 BLOCKED
                (GateCoreResult.reason r) (Some (gate_event_data r)) w2 Hedge)
      as (t' & w3 & Ht).
    rewrite (bind_run _ _ _ _ _ Ht).
    apply transition_trace_ok in Ht.
    destruct Ht as (_ & Hid & Hs & _ & _ & _ & Hlog & _).
    eexists t', w3, _. split; [reflexivity |].
    split; [exact Htid |].
    split; [exact Hid |].
    split; [intros _; exact Hs |].
    split.
    { intros [Hx | Hx]; rewrite Hx in Hv; discriminate Hv. }
    split; [exact Hs |].
    split; [exact Hlog |].
    destruct (gate_payload_in_entry
                (<["event" := VStr ("TRACE_" +:+ state_name BLOCKED)]>
                 (<["trace_id" := VStr (trace_id t0)]>
                 (<["timestamp" := VFloat (clock (host w2) (ticks w2))]>
                 (<["reason" := VStr (GateCoreResult.reason r)]> ∅)))) r)
      as (Hm & Hvd & _). split; assumption.
  - destruct (transition_trace_succeeds t0 ACTIVE
                ("GateCore " +:+ GateCoreResult.verdict r)
                (Some (gate_event_data r)) w2 Hedge)
      as (t' & w3 & Ht).
    rewrite (bind_run _ _ _ _ _ Ht).
    apply transition_trace_ok in Ht.
    destruct Ht as (_ & Hid & Hs & _ & _ & _ & Hlog & _).
    eexists t', w3, _. split; [reflexivity |].
    split; [exact Htid |].
    split; [exact Hid |].
    split.
    { intros Hx. rewrite Hx in Hv. discriminate Hv. }
    split; [intros _; exact Hs |].
    split; [exact Hs |].
    split; [exact Hlog |].
    destruct (gate_payload_in_entry
                (<["event" := VStr ("TRACE_" +:+ state_name ACTIVE)]>
                 (<["trace_id" := VStr (trace_id t0)]>
                 (<["timestamp" := VFloat (clock (host w2) (ticks w2))]>
                 (<["reason" := VStr ("GateCore " +:+ GateCoreResult.verdict r)]> ∅)))) r)
      as (Hm & Hvd & _). split; assumption.
Qed.

Lemma admit_with_trace_spec_witness :
  exists r t' w3 entry,
    admit_with_trace dummy_gatecore example_eps example_origin example_context
      None example_world = (Ret (t', r), w3) /\
    GateCoreResult.verdict r = "ALLOW" /\
    state t' = ACTIVE /\
    lifecycle_log t' = lifecycle_log example_created_trace ++ [entry] /\
    entry !! "verdict" = Some (VStr "ALLOW").
Proof.
  assert (Hc : create_trace example_origin example_context example_world
               = (Ret example_created_trace, example_world_created))
    by (vm_compute; reflexivity).
  destruct (GateCore_admit dummy_gatecore (convert_eps example_eps)
              (Some (trace_id example_created_trace)) None
              example_world_created) as [[r|e] w2] eqn:Hg.
  - assert (Hv : GateCoreResult.verdict r = "ALLOW").
    { apply (f_equal (fun x => match fst x with
                               | Ret r => GateCoreResult.verdict r
                               | Raise _ => ""
                               end)) in Hg.
      vm_compute in Hg. symmetry. exact Hg. }
    destruct (admit_with_trace_spec dummy_gatecore example_eps example_origin
                example_context None example_world example_world_created w2
                example_created_trace r Hc Hg)
      as (_ & t' & w3 & entry & Hrun & _ & _ & _ & Hact & _ & Hlog & _ & Hvd).
    exists r, t', w3, entry.
    split; [exact Hrun |]. split; [exact Hv |].
    split; [apply Hact; left; exact Hv |].
    split; [exact Hlog |]. rewrite Hvd, Hv. reflexivity.
  - vm_compute in Hg. discriminate Hg.
Defined.

(** C1.  When no admission gate is configured ([gatecore] is [None]), the
    admission phase never blocks: for every state, origin and context it
    returns a trajectory whose verdict is ALLOW, carrying the state and no
    gate result.  When a trajectory builder is present, the trajectory
    carries the freshly created trace, transitioned to ACTIVE with the
    reason ["No GateCore"], still open, its log being the creation entry
    followed by the TRACE_ACTIVE entry; without a builder it carries no
    trace. *)
Theorem admission_without_gate_allows
    (trajectory_builder : bool) (eps : EnergeticState.t)
    (origin context : option PyDict) (w : World) :
  exists traj w',
    _phase_trajectory_admission None trajectory_builder eps origin context w
    = (Ret (Some traj), w') /\
    AdmittedTrajectory.verdict traj = "ALLOW" /\
    AdmittedTrajectory.eps traj = eps /\
    AdmittedTrajectory.gate_result traj = None /\
    if trajectory_builder then
      exists t e0 e1,
        AdmittedTrajectory.trace traj = Some t /\
        AdmittedTrajectory.trace_id traj = trace_id t /\
        trace_id t = uuid_src (host w) (uuids w) /\
        state t = ACTIVE /\
        closed_at t = None /\
        lifecycle_log t = [e0; e1] /\
        e0 !! "event" = Some (VStr "TRACE_CREATED") /\
        e1 !! "event" = Some (VStr "TRACE_ACTIVE") /\
        e1 !! "reason" = Some (VStr "No GateCore")
    else
      AdmittedTrajectory.trace traj = None /\
      AdmittedTrajectory.trace_id traj = uuid_src (host w) (uuids w).
Proof.
  unfold _phase_trajectory_admission.
  set (o := match origin with Some o => o | None => _ end).
  set (c := match context with Some c => c | None => _ end).
  destruct trajectory_builder.
  - destruct (create_trace_ok o c w)
      as (t0 & w1 & Hc & Hst & Hcl & Hid & _ & _ & _ & e0 & Hl0 & He0).
    assert (Hedge : ACTIVE ∈ spec_allowed_edges (state t0))
      by (rewrite Hst; left).
    destruct (transition_trace_succeeds t0 ACTIVE "No GateCore" None w1 Hedge)
      as (t1 & w2 & Ht).
    rewrite (bind_run _ (fun r => ret _) w w2 (trace_id t1, Some t1)).
    2:{ rewrite (bind_run _ _ _ _ _ Hc). rewrite (bind_run _ _ _ _ _ Ht).
        reflexivity. }
    apply transition_trace_ok in Ht.
    destruct Ht as (_ & Hid1 & Hs1 & _ & _ & _ & Hlog & Hcl1).
    eexists; eexists. split; [reflexivity |]. simpl.
    repeat (split; [reflexivity |]).
    eexists t1, e0, _.
    split; [reflexivity |]. split; [reflexivity |].
    split; [congruence |]. split; [exact Hs1 |].
    split; [rewrite Hcl1; exact Hcl |].
    split; [rewrite Hlog, Hl0; reflexivity |].
    split; [exact He0 |].
    split; [apply lookup_insert_eq |].
    unfold update_entry. rewrite !lookup_insert_ne by discriminate.
    apply lookup_insert_eq.
  - mrun. eexists; eexists. split; [reflexivity |]. simpl.
    repeat split; reflexivity.
Qed.

End Admission.


(** ** The working-memory router *)

Section Router.

(** C8.  The navigation decision follows the fixed precedence: episodic
    resonance > 0.7 gives EXTEND_PATH; else semantic resonance > 0.8 gives
    RECALL_SN; else modulated I > 0.8 and modulated S > 0.7 give
    TRIGGER_ACTION; else modulated H < 0.2 gives ACTIVATE_REFLEX; else
    CREATE_NEW_SN.  The result is always one of these five labels, so it
    is never BLOCKED. *)
Theorem navigation_decision_precedence
    (st m : EPS8State.t) (scores : gmap string float) :
  let episodic := get_float scores "episodic" 0.0 in
  let semantic := get_float scores "semantic" 0.0 in
  let d := _navigation_decision st scores m in
  (fgt episodic 0.7 = true -> d = "EXTEND_PATH") /\
  (fgt episodic 0.7 = false -> fgt semantic 0.8 = true -> d = "RECALL_SN") /\
  (fgt episodic 0.7 = false -> fgt semantic 0.8 = false ->
   fgt (EPS8State.I m) 0.8 = true -> fgt (EPS8State.S m) 0.7 = true ->
   d = "TRIGGER_ACTION") /\
  (fgt episodic 0.7 = false -> fgt semantic 0.8 = false ->
   (fgt (EPS8State.I m) 0.8 = false \/ fgt (EPS8State.S m) 0.7 = false) ->
   flt (EPS8State.H m) 0.2 = true -> d = "ACTIVATE_REFLEX") /\
  (fgt episodic 0.7 = false -> fgt semantic 0.8 = false ->
   (fgt (EPS8State.I m) 0.8 = false \/ fgt (EPS8State.S m) 0.7 = false) ->
   flt (EPS8State.H m) 0.2 = false -> d = "CREATE_NEW_SN") /\
  d ∈ ["EXTEND_PATH"; "RECALL_SN"; "TRIGGER_ACTION"; "ACTIVATE_REFLEX";
       "CREATE_NEW_SN"] /\
  d <> "BLOCKED".
Proof.
  cbv zeta. unfold _navigation_decision.
  destruct (fgt (get_float scores "episodic" 0.0) 0.7) eqn:He;
  destruct (fgt (get_float scores "semantic" 0.0) 0.8) eqn:Hs;
  destruct (fgt (EPS8State.I m) 0.8) eqn:Hi;
  destruct (fgt (EPS8State.S m) 0.7) eqn:Hst;
  destruct (flt (EPS8State.H m) 0.2) eqn:Hh; simpl;
  repeat split; try congruence; try (intros; intuition congruence);
  try (repeat (first [left; reflexivity | right])).
Qed.

Lemma navigation_decision_precedence_witness :
  _navigation_decision example_state example_scores_episodic example_state
  = "EXTEND_PATH".
Proof.
  apply (proj1 (navigation_decision_precedence example_state example_state
                  example_scores_episodic)).
  vm_compute. reflexivity.
Defined.

(** C2, as amended.  The intensity I is multiplied by 1.05 whenever the
    semantic resonance is > 0.8, whatever the episodic resonance is; by
    1.10 when the episodic resonance is > 0.7 and the semantic resonance
    is not > 0.8; and by the neutral factor 1.0 otherwise: one factor, so
    at most one bonus applies.  The stability S is multiplied by 1.05 when
    the semantic resonance is > 0.8 and is in every case clamped at 1.0, so
    without that resonance a stability not above 1.0 is unchanged.  All
    other fields pass through unchanged. *)
Theorem context_modulation_spec
    (st : EPS8State.t) (scores : gmap string float) :
  let episodic := get_float scores "episodic" 0.0 in
  let semantic := get_float scores "semantic" 0.0 in
  let m := _context_modulation st scores in
  (fgt semantic 0.8 = true ->
   EPS8State.I m = PrimFloat.mul (EPS8State.I st) 1.05 /\
   EPS8State.S m = py_min (PrimFloat.mul (EPS8State.S st) 1.05) 1.0) /\
  (fgt semantic 0.8 = false -> fgt episodic 0.7 = true ->
   EPS8State.I m = PrimFloat.mul (EPS8State.I st) 1.1) /\
  (fgt semantic 0.8 = false -> fgt episodic 0.7 = false ->
   EPS8State.I m = PrimFloat.mul (EPS8State.I st) 1.0) /\
  (fgt semantic 0.8 = false ->
   EPS8State.S m = py_min (EPS8State.S st) 1.0 /\
   (flt 1.0 (EPS8State.S st) = false -> EPS8State.S m = EPS8State.S st)) /\
  EPS8State.P m = EPS8State.P st /\
  EPS8State.H m = EPS8State.H st /\
  EPS8State.F m = EPS8State.F st /\
  EPS8State.A m = EPS8State.A st /\
  EPS8State.S_a m = EPS8State.S_a st /\
  EPS8State.theta m = EPS8State.theta st.
Proof.
  cbv zeta. unfold _context_modulation. cbn [EPS8State.I EPS8State.S
    EPS8State.P EPS8State.H EPS8State.F EPS8State.A EPS8State.S_a
    EPS8State.theta].
  destruct (fgt (get_float scores "semantic" 0.0) 0.8) eqn:Hs;
  destruct (fgt (get_float scores "episodic" 0.0) 0.7) eqn:He;
  repeat split; try reflexivity; try discriminate;
  intros; unfold py_min;
  match goal with
  | H : flt _ _ = false |- _ => rewrite H; reflexivity
  end.
Qed.

Lemma context_modulation_spec_witness :
  EPS8State.I (_context_modulation example_state example_scores_episodic)
  = PrimFloat.mul (EPS8State.I example_state) 1.1.
Proof.
  apply (proj1 (proj2 (context_modulation_spec example_state
                         example_scores_episodic)));
    vm_compute; reflexivity.
Defined.

(** C2 as stated fails.  With intensity 1.0, episodic resonance 0.9 (> 0.7)
    and semantic resonance 0.9 (> 0.8), the modulated intensity is
    1.0 * 1.05 and not 1.0 * 1.10: the assignment for the semantic
    resonance comes second and replaces the episodic factor. *)
Lemma modulation_semantic_replaces_episodic :
  fgt (get_float example_scores_both "episodic" 0.0) 0.7 = true /\
  EPS8State.I (_context_modulation example_state example_scores_both)
  = 1.05%float /\
  EPS8State.I (_context_modulation example_state example_scores_both)
  <> PrimFloat.mul (EPS8State.I example_state) 1.1.
Proof.
  split; [vm_compute; reflexivity |].
  split; [vm_compute; reflexivity |].
  intros H.
  apply (f_equal (fun x => PrimFloat.ltb x 1.07)) in H.
  vm_compute in H. discriminate H.
Qed.

(** [_dict_to_trajectory] always succeeds; the state [process] then
    picks is [input_state]. *)
Lemma dict_to_trajectory_ok (trajectory : TrajDict) (w : World) :
  exists traj,
    _dict_to_trajectory trajectory w = (Ret traj, set_ticks (S (ticks w)) w) /\
    match WMTrajectory.states traj with
    | [] => _create_default_state
    | _ => List.last (WMTrajectory.states traj) _create_default_state
    end = input_state trajectory.
Proof.
  unfold _dict_to_trajectory, input_state. mrun.
  eexists. split; [reflexivity |].
  destruct (td_eps trajectory); reflexivity.
Qed.

(** [_gate_control] always returns a gate status; every gate in it passed
    exactly when neither the entropy nor the safety gate failed. *)
Lemma gate_control_ok (self : WMController) (st : EPS8State.t) (w : World) :
  exists gs w',
    _gate_control self st w = (Ret gs, w') /\
    gs !! "budget" = Some (VBool true) /\
    all_values gs
    = negb (entropy_gate_fails self st) && negb (safety_gate_fails self st).
Proof.
  unfold _gate_control, entropy_gate_fails, safety_gate_fails, evaluate_safety.
  destruct (fgt (EPS8State.H st) (H_max self)) eqn:He;
    destruct (wm_gatecore self) as [g|].
  - destruct (fge (EPS8State.S st) (get_float (policy_config g) "S_min" 0.5));
      mrun; eexists; eexists; (split; [reflexivity |]);
      split; vm_compute; reflexivity.
  - destruct (flt (EPS8State.S st) (S_min self));
      mrun; eexists; eexists; (split; [reflexivity |]);
      split; vm_compute; reflexivity.
  - destruct (fge (EPS8State.S st) (get_float (policy_config g) "S_min" 0.5));
      mrun; eexists; eexists; (split; [reflexivity |]);
      split; vm_compute; reflexivity.
  - destruct (flt (EPS8State.S st) (S_min self));
      mrun; eexists; eexists; (split; [reflexivity |]);
      split; vm_compute; reflexivity.
Qed.

(** The entropy gate in the specification's terms: it passes whenever
    [H <= H_max], and on numbers (no NaN involved) it passes exactly
    then. *)
Lemma entropy_gate_spec (self : WMController) (st : EPS8State.t) :
  (fle (EPS8State.H st) (H_max self) = true ->
   entropy_gate_fails self st = false) /\
  (feq (EPS8State.H st) (EPS8State.H st) = true ->
   feq (H_max self) (H_max self) = true ->
   entropy_gate_fails self st = negb (fle (EPS8State.H st) (H_max self))).
Proof.
  unfold entropy_gate_fails. split.
  - apply fle_not_fgt.
  - apply fgt_negb_fle.
Qed.

(** The default entropy ceiling of the router is 0.62 and the default
    stability minimum of the local safety check is 0.5. *)
Lemma router_default_thresholds
    (g : option GateCore) (mf : list (string * option MemoryField)) :
  H_max (WMController_init g mf ∅) = 0.62%float /\
  S_min (WMController_init g mf ∅) = 0.5%float.
Proof. split; reflexivity. Qed.

(** C7.  When the entropy gate fails ([H] above the configured ceiling) or
    the safety gate fails ([evaluate_safety] of the configured gate, or the
    local S-minimum check without one) for the input state, [process]
    returns the decision BLOCKED with the input state itself as modulated
    state and an empty set of resonance scores.  It returns at once: the
    result is the same whatever memory fields are configured, so none of
    them is queried.  The budget gate is recorded as passed. *)
Theorem process_blocks_on_gate_failure
    (self : WMController) (trajectory : TrajDict) (w : World) :
  entropy_gate_fails self (input_state trajectory) = true \/
  safety_gate_fails self (input_state trajectory) = true ->
  exists out w',
    process self trajectory w = (Ret out, w') /\
    WMControllerOutput.navigation_decision out = "BLOCKED" /\
    WMControllerOutput.modulated_eps8 out = input_state trajectory /\
    WMControllerOutput.resonance_scores out = ∅ /\
    WMControllerOutput.gate_status out !! "budget" = Some (VBool true) /\
    forall mf,
      process {| wm_gatecore := wm_gatecore self; memory_fields := mf;
                 H_max := H_max self; S_min := S_min self;
                 budget_max := budget_max self |} trajectory w
      = (Ret out, w').
Proof.
  intros Hfail.
  destruct (dict_to_trajectory_ok trajectory w) as (traj & Htraj & Hcur).
  destruct (gate_control_ok self (input_state trajectory)
              (set_ticks (S (ticks w)) w)) as (gs & w1 & Hgate & Hbudget & Hall).
  assert (Hblocked : all_values gs = false).
  { rewrite Hall. destruct Hfail as [H | H]; rewrite H; simpl;
      [reflexivity | apply andb_false_r]. }
  assert (Hrun : forall mf,
    process {| wm_gatecore := wm_gatecore self; memory_fields := mf;
               H_max := H_max self; S_min := S_min self;
               budget_max := budget_max self |} trajectory w
    = (Ret (WMControllerOutput.mk traj "BLOCKED" (input_state trajectory) ∅ gs
              (WMTrajectory.trace_id traj) (clock (host w1) (ticks w1))),
       set_ticks (S (ticks w1)) w1)).
  { intros mf. unfold process.
    rewrite (bind_run _ _ _ _ _ Htraj). cbv zeta. rewrite Hcur.
    rewrite (bind_run _ _ _ _ gs Hgate).
    rewrite Hblocked. reflexivity. }
  eexists; eexists. split.
  { destruct self as [g mf hm sm bm]. exact (Hrun mf). }
  repeat split; try reflexivity; [exact Hbudget | exact Hrun].
Qed.

Lemma process_blocks_on_gate_failure_witness :
  exists out w',
    process example_controller example_high_entropy_input example_world
    = (Ret out, w') /\
    WMControllerOutput.navigation_decision out = "BLOCKED" /\
    WMControllerOutput.resonance_scores out = ∅.
Proof.
  destruct (process_blocks_on_gate_failure example_controller
              example_high_entropy_input example_world)
    as (out & w' & Hrun & Hd & _ & Hs & _).
  - left. vm_compute. reflexivity.
  - exists out, w'. auto.
Defined.

End Router.


(** ** The runtime loop *)

Section RuntimeLoop.

(** The [except] branch of [run] never raises.  It leaves the attributes
    of the loop, the running flag among them, as they are, and records the
    exception with the error handler when there is one. *)
Lemma run_except_ok (e : PyExc) (w : World) :
  exists w',
    run_except e w = (Ret tt, w') /\
    loop w' = loop w /\
    (forall eh, error_handler w = Some eh ->
       exists info,
         error_handler w'
         = Some {| error_count := (error_count eh + 1)%Z;
                   error_history := error_history eh ++ [info] |} /\
         ei_phase info = phase_name (current_phase (loop w)) /\
         ei_error_type info = exc_type_name e /\
         ei_error_message info = exc_message e /\
         ei_severity info = "high") /\
    (error_handler w = None -> error_handler w' = None).
Proof.
  unfold run_except, handle_error.
  destruct (error_handler w) as [eh|] eqn:Heh.
  - mrun. rewrite Heh. mrun. simpl.
    eexists. split; [reflexivity |]. simpl.
    split; [reflexivity |]. split; [| discriminate].
    intros eh' [= <-]. eexists. split; [reflexivity |].
    simpl. repeat split; reflexivity.
  - mrun. rewrite Heh. mrun. simpl.
    eexists. split; [reflexivity |]. simpl.
    split; [reflexivity |]. split; [discriminate | intros _; exact Heh].
Qed.

(** No exception leaves the loop, however long it runs. *)
Lemma run_loop_never_propagates (self : PhaseHandlers) (fuel : nat)
    (w : World) (e : PyExc) :
  fst (run_loop self fuel w) <> Propagated e.
Proof.
  revert w. induction fuel as [|fuel IH]; intros w; simpl.
  - destruct (running (loop w)); simpl; discriminate.
  - destruct (running (loop w)); simpl; [| discriminate].
    destruct (_execute_cycle self w) as [[[]|e0] w1].
    + apply IH.
    + destruct (run_except_ok e0 w1) as (w2 & Hex & _).
      rewrite Hex. apply IH.
Qed.

(** An exception that leaves [_execute_cycle] was raised by one of the
    phase handlers: the code between the phases raises nothing. *)
Lemma cycle_raise_from_handler (self : PhaseHandlers) (w w' : World)
    (e : PyExc) :
  _execute_cycle self w = (Raise e, w') -> handler_raised self e w'.
Proof.
  unfold _execute_cycle, handler_raised, set_current_phase. intros H.
  mrun_in H.
  repeat match type of H with
         | context [match ?c with _ => _ end] =>
             let E := fresh "E" in
             destruct c eqn:E; try discriminate H;
             try (injection H as <- <-)
         end;
  repeat match goal with
         | r : Res _ |- _ => destruct r; try discriminate
         end;
  eauto 20.
Qed.

(** When a cycle raises and the handlers leave the attributes of the loop
    alone, the exception was raised by the handler of the phase that is
    current, and the running flag and the system state are those the cycle
    started with. *)
Lemma cycle_raise_at_phase (self : PhaseHandlers) (w w' : World)
    (e : PyExc) :
  handlers_keep_loop self ->
  _execute_cycle self w = (Raise e, w') ->
  handler_raised_at self (current_phase (loop w')) e w' /\
  running (loop w') = running (loop w) /\
  system_state (loop w') = system_state (loop w).
Proof.
  intros (K0 & K1 & K2 & K3 & K4 & K5 & K6 & K7 & K8 & K9) H.
  unfold keeps_loop in *.
  unfold _execute_cycle, set_current_phase in H. mrun_in H.
  unfold handler_raised_at.
  repeat match type of H with
         | context [match ?c with _ => _ end] =>
             let E := fresh "E" in
             destruct c eqn:E; try discriminate H;
             try (injection H as <- <-)
         end;
  repeat match goal with
         | r : Res _ |- _ => destruct r; try discriminate
         end;
  repeat match goal with
         | E : _phase_idle self _ = _ |- _ =>
             let L := fresh "L" in
             pose proof (K0 _ _ _ E) as L; revert E
         | E : _phase_input_intake self _ _ = _ |- _ =>
             let L := fresh "L" in
             pose proof (K1 _ _ _ _ E) as L; revert E
         | E : _phase_sensory_adaptation self _ _ = _ |- _ =>
             let L := fresh "L" in
             pose proof (K2 _ _ _ _ E) as L; revert E
         | E : _phase_perception_boundary self _ _ = _ |- _ =>
             let L := fresh "L" in
             pose proof (K3 _ _ _ _ E) as L; revert E
         | E : _phase_admission self _ _ _ _ = _ |- _ =>
             let L := fresh "L" in
             pose proof (K4 _ _ _ _ _ _ E) as L; revert E
         | E : _phase_working_memory_control self _ _ = _ |- _ =>
             let L := fresh "L" in
             pose proof (K5 _ _ _ _ E) as L; revert E
         | E : _phase_reasoning self _ _ = _ |- _ =>
             let L := fresh "L" in
             pose proof (K6 _ _ _ _ E) as L; revert E
         | E : _phase_decision self _ _ = _ |- _ =>
             let L := fresh "L" in
             pose proof (K7 _ _ _ _ E) as L; revert E
         | E : _phase_action_output self _ _ _ _ = _ |- _ =>
             let L := fresh "L" in
             pose proof (K8 _ _ _ _ _ _ E) as L; revert E
         | E : _phase_post_processing self _ _ _ _ = _ |- _ =>
             let L := fresh "L" in
             pose proof (K9 _ _ _ _ _ _ E) as L; revert E
         end;
  intros;
  simpl in *;
  repeat match goal with
         | L : loop ?x = _ |- context [loop ?x] => rewrite L; simpl
         end;
  (split; [eauto 10 | split; reflexivity]).
Qed.

(** The loop's handlers of the example keep the loop's attributes. *)
Lemma faulting_handlers_keep_loop : handlers_keep_loop faulting_handlers.
Proof.
  unfold handlers_keep_loop, keeps_loop, faulting_handlers.
  cbn [_phase_idle _phase_input_intake _phase_sensory_adaptation
       _phase_perception_boundary _phase_admission
       _phase_working_memory_control _phase_reasoning _phase_decision
       _phase_action_output _phase_post_processing].
  repeat split; intros;
    match goal with
    | H : _ = (_, _) |- _ =>
        apply (f_equal (fun x => loop (snd x))) in H;
        simpl in H; symmetry; exact H
    end.
Qed.

(** [run] does its assignments and then runs its loop: from a state in
    which the running flag is true, the error handler is a fresh one when
    its module can be imported and absent otherwise, and one line has been
    logged. *)
Lemma run_starts_loop (self : PhaseHandlers) (fuel : nat) (v : World) :
  exists v0,
    run self fuel v = run_loop self fuel v0 /\
    running (loop v0) = true /\
    error_handler v0
    = (if error_handler_importable (host v)
       then Some {| error_count := 0; error_history := [] |}
       else None) /\
    log v0 = log v ++ [(INFO, "Runtime Loop started")] /\
    host v0 = host v.
Proof.
  unfold run. mrun. eexists. split; [reflexivity |].
  simpl. repeat split; reflexivity.
Qed.

(** C9.  Let the phase handlers leave the attributes of the loop alone,
    as the phase methods of [RuntimeLoop] do, and let a cycle of the
    running loop raise an exception [e].  Then [e] was raised by the
    handler of the phase that is current, and ended the cycle there.  The
    loop of [run] catches it: the [except] branch completes, records [e]
    with the error handler (count incremented, one record appended, with
    the phase that was current, the exception's class and message, and
    severity high), and leaves the loop's attributes untouched.  The
    running flag is still true, so the loop does not exit: it goes on
    from the state the [except] branch left, and its next iteration
    executes the next cycle from that state.  No exception ever leaves the
    loop or [run], whatever the handlers are, and [run] enters this loop
    with the running flag true. *)
Theorem run_contains_phase_exception
    (self : PhaseHandlers) (fuel : nat) (w w' : World) (e : PyExc) :
  handlers_keep_loop self ->
  running (loop w) = true ->
  _execute_cycle self w = (Raise e, w') ->
  handler_raised_at self (current_phase (loop w')) e w' /\
  (exists w'',
     run_except e w' = (Ret tt, w'') /\
     loop w'' = loop w' /\
     running (loop w'') = true /\
     (forall eh, error_handler w' = Some eh ->
        exists info,
          error_handler w''
          = Some {| error_count := (error_count eh + 1)%Z;
                    error_history := error_history eh ++ [info] |} /\
          ei_phase info = phase_name (current_phase (loop w')) /\
          ei_error_type info = exc_type_name e /\
          ei_error_message info = exc_message e /\
          ei_severity info = "high") /\
     (error_handler w' = None -> error_handler w'' = None) /\
     run_loop self 1 w = (StillRunning, w'') /\
     run_loop self (S fuel) w = run_loop self fuel w'' /\
     run_loop self (S (S fuel)) w
     = match _execute_cycle self w'' with
       | (Ret _, v) => run_loop self fuel v
       | (Raise e', v) =>
           match run_except e' v with
           | (Ret _, v') => run_loop self fuel v'
           | (Raise e'', v') => (Propagated e'', v')
           end
       end) /\
  (forall self' n v e', fst (run_loop self' n v) <> Propagated e') /\
  (forall self' n v e', fst (run self' n v) <> Propagated e') /\
  (forall n v, exists v0,
     run self n v = run_loop self n v0 /\
     running (loop v0) = true /\
     error_handler v0
     = (if error_handler_importable (host v)
        then Some {| error_count := 0; error_history := [] |}
        else None)).
Proof.
  intros Hkeep Hrun Hcycle.
  destruct (cycle_raise_at_phase self w w' e Hkeep Hcycle)
    as (Hat & Hflag & _).
  destruct (run_except_ok e w') as (w'' & Hex & Hloop & Hrec & Hnone).
  assert (Htrue : running (loop w'') = true).
  { rewrite Hloop, Hflag. exact Hrun. }
  assert (Hnext : forall n, run_loop self (S n) w = run_loop self n w'').
  { intros n. simpl. rewrite Hrun, Hcycle, Hex. reflexivity. }
  split; [exact Hat |].
  split.
  { exists w''. split; [exact Hex |]. split; [exact Hloop |].
    split; [exact Htrue |]. split; [exact Hrec |]. split; [exact Hnone |].
    split.
    { rewrite Hnext. simpl. rewrite Htrue. reflexivity. }
    split; [apply Hnext |].
    rewrite Hnext. simpl. rewrite Htrue. reflexivity. }
  split.
  { intros self' n v e'. apply run_loop_never_propagates. }
  split.
  { intros self' n v e'.
    destruct (run_starts_loop self' n v) as (v0 & Heq & _).
    rewrite Heq. apply run_loop_never_propagates. }
  intros n v.
  destruct (run_starts_loop self n v) as (v0 & Heq & Hr & Heh & _).
  exists v0. auto.
Qed.

Lemma run_contains_phase_exception_witness :
  exists w' w'' info,
    _execute_cycle faulting_handlers example_running_world
    = (Raise (RuntimeError "perception failed"), w') /\
    run_loop faulting_handlers 1 example_running_world
    = (StillRunning, w'') /\
    running (loop w'') = true /\
    error_handler w''
    = Some {| error_count := 1; error_history := [info] |} /\
    ei_phase info = "PERCEPTION_BOUNDARY" /\
    ei_error_type info = "RuntimeError" /\
    run_loop faulting_handlers 2 example_running_world
    = match _execute_cycle faulting_handlers w'' with
      | (Ret _, v) => run_loop faulting_handlers 0 v
      | (Raise e', v) =>
          match run_except e' v with
          | (Ret _, v') => run_loop faulting_handlers 0 v'
          | (Raise e'', v') => (Propagated e'', v')
          end
      end /\
    fst (run faulting_handlers 2 example_world) = StillRunning /\
    (error_count <$> error_handler (snd (run faulting_handlers 2 example_world)))
    = Some 2%Z.
Proof.
  destruct (_execute_cycle faulting_handlers example_running_world)
    as [[u|e] w'] eqn:Hcycle.
  - vm_compute in Hcycle. discriminate Hcycle.
  - assert (He : e = RuntimeError "perception failed").
    { apply (f_equal (fun x => match fst x with
                               | Raise e => e
                               | Ret _ => ValueError ""
                               end)) in Hcycle.
      vm_compute in Hcycle. symmetry. exact Hcycle. }
    assert (Hw : loop w' = {| running := true;
                              current_phase := PERCEPTION_BOUNDARY;
                              system_state := "running" |} /\
                 error_handler w'
                 = Some {| error_count := 0; error_history := [] |}).
    { apply (f_equal (fun x => (loop (snd x), error_handler (snd x))))
        in Hcycle.
      vm_compute in Hcycle.
      split; [exact (eq_sym (f_equal fst Hcycle))
             | exact (eq_sym (f_equal snd Hcycle))]. }
    destruct Hw as (Hloop & Heh).
    destruct (run_contains_phase_exception faulting_handlers 0
                example_running_world w' e faulting_handlers_keep_loop
                eq_refl Hcycle)
      as (_ & (w'' & _ & _ & Htrue & Hrec & _ & Hone & _ & Htwo) & _).
    destruct (Hrec _ Heh) as (info & Hh & Hp & Ht & _).
    exists w', w'', info. subst e.
    split; [reflexivity |].
    split; [exact Hone |].
    split; [exact Htrue |].
    split; [exact Hh |].
    split; [rewrite Hp, Hloop; reflexivity |].
    split; [exact Ht |]. split; [exact Htwo |].
    split; vm_compute; reflexivity.
Defined.

End RuntimeLoop.


(** ** Further properties of the trace lifecycle *)

Section LifecycleInvariants.

(** A transition along an edge that is not allowed raises and changes
    nothing. *)
Lemma transition_rejects_illegal trace new_state reason ed w :
  new_state ∉ spec_allowed_edges (state trace) ->
  exists msg,
    transition_trace trace new_state reason ed w = (Raise (ValueError msg), w).
Proof.
  intros Hnot. unfold transition_trace.
  destruct (allowed_transitions (state trace)) as [allowed|] eqn:Hal.
  - destruct (bool_decide (new_state ∈ allowed)) eqn:Hin; simpl.
    + exfalso. apply Hnot, allowed_transitions_spec.
      apply bool_decide_eq_true in Hin. eauto.
    + eexists. reflexivity.
  - eexists. reflexivity.
Qed.

(** Every successful transition uses up at least one of the transitions
    that remain from the state it leaves. *)
Lemma transition_decreases_remaining trace new_state reason ed w t' w' :
  transition_trace trace new_state reason ed w = (Ret t', w') ->
  remaining_transitions (state t') < remaining_transitions (state trace).
Proof.
  intros Hrun. apply transition_trace_ok in Hrun.
  destruct Hrun as (Hedge & _ & Hs & _). rewrite Hs.
  destruct (state trace); simpl in Hedge;
    repeat (apply elem_of_cons in Hedge; destruct Hedge as [-> | Hedge]);
    try (simpl; lia); inversion Hedge.
Qed.

(** A trace is open exactly in the states CREATED and ACTIVE.  Along every
    lifecycle that starts from a trace built by [create_trace], the closure
    timestamp is unset exactly when the state is CREATED or ACTIVE, the
    log has one entry per step after the creation entry, which stays
    first, and the trace keeps its id and creation time. *)
Theorem lifecycle_invariant
    (o c : PyDict) (w w1 : World) (t0 t : Trace) (n : nat) :
  create_trace o c w = (Ret t0, w1) ->
  lifecycle t0 t n ->
  (closed_at t = None <-> state t = CREATED \/ state t = ACTIVE) /\
  length (lifecycle_log t) = S n /\
  (exists e0, lifecycle_log t !! 0 = Some e0 /\
              e0 !! "event" = Some (VStr "TRACE_CREATED")) /\
  trace_id t = trace_id t0 /\
  created_at t = created_at t0.
Proof.
  intros Hc Hl.
  destruct (create_trace_ok o c w)
    as (t0' & w1' & Hc' & Hst & Hcl & _ & _ & _ & _ & e0 & Hl0 & He0).
  rewrite Hc in Hc'. inversion Hc'; subst t0' w1'. clear Hc'.
  induction Hl as [| t t' n ns reason ed wa wb Hl IH Hrun].
  - rewrite Hst, Hcl, Hl0. simpl. repeat split; auto.
    exists e0. split; [reflexivity | exact He0].
  - destruct IH as (Hopen & Hlen & (e & He & Hev) & Hid & Hcr).
    apply transition_trace_ok in Hrun.
    destruct Hrun as (Hedge & Hid' & Hs & Hcr' & _ & _ & Hlog & Hclosed).
    split.
    { rewrite Hclosed, Hs.
      destruct (state t); simpl in Hedge;
        repeat (apply elem_of_cons in Hedge; destruct Hedge as [-> | Hedge]);
        try (inversion Hedge; fail); simpl;
        try (split; [discriminate | intros [H | H]; discriminate H]).
      - (* CREATED -> ACTIVE *)
        split; [intros _; right; reflexivity | intros _].
        apply Hopen. left. reflexivity.
      - (* COMPLETED -> ARCHIVED *)
        split.
        + intros Hn. apply Hopen in Hn. destruct Hn as [H | H]; discriminate H.
        + intros [H | H]; discriminate H. }
    split; [rewrite Hlog, length_app, Hlen; simpl; lia |].
    split.
    { exists e. split; [| exact Hev].
      rewrite Hlog. apply lookup_app_l_Some. exact He. }
    split; congruence.
Qed.

Lemma lifecycle_invariant_witness :
  exists t1,
    lifecycle example_created_trace t1 1 /\
    state t1 = BLOCKED /\
    closed_at t1 <> None /\
    length (lifecycle_log t1) = 2.
Proof.
  assert (Hc : create_trace example_origin example_context example_world
               = (Ret example_created_trace, example_world_created))
    by (vm_compute; reflexivity).
  destruct (transition_trace example_created_trace BLOCKED "gate" None
              example_world_created) as [[t1|e] w2] eqn:Hrun.
  - assert (Hl : lifecycle example_created_trace t1 1).
    { eapply lifecycle_step; [apply lifecycle_start | exact Hrun]. }
    assert (Hs : state t1 = BLOCKED).
    { apply transition_trace_ok in Hrun. tauto. }
    destruct (lifecycle_invariant _ _ _ _ _ _ _ Hc Hl)
      as ((Hopen & _) & Hlen & _).
    exists t1. split; [exact Hl |]. split; [exact Hs |].
    split; [| exact Hlen].
    intros Hn. apply Hopen in Hn. rewrite Hs in Hn.
    destruct Hn as [H | H]; discriminate H.
  - vm_compute in Hrun. discriminate Hrun.
Defined.

(** No trace goes through more than three transitions: along every
    lifecycle from a trace in state CREATED, the steps taken and the
    transitions still possible add up to at most three, so a lifecycle
    log never holds more than four entries, and nothing leaves INVALID
    or ARCHIVED. *)
Theorem lifecycle_bounded (t0 t : Trace) (n : nat) :
  state t0 = CREATED ->
  lifecycle t0 t n ->
  n + remaining_transitions (state t) <= 3 /\
  n <= 3 /\
  (state t = INVALID \/ state t = ARCHIVED ->
   forall new_state reason ed w,
     exists msg,
       transition_trace t new_state reason ed w = (Raise (ValueError msg), w)).
Proof.
  intros Hst Hl.
  assert (Hsum : n + remaining_transitions (state t) <= 3).
  { induction Hl as [| t t' n ns reason ed wa wb Hl IH Hrun].
    - rewrite Hst. simpl. lia.
    - apply transition_decreases_remaining in Hrun. lia. }
  split; [exact Hsum |]. split; [lia |].
  intros Hterm new_state reason ed w.
  unfold transition_trace.
  destruct Hterm as [-> | ->]; simpl; eexists; reflexivity.
Qed.

Lemma lifecycle_bounded_witness :
  exists t1 t2 t3,
    lifecycle example_created_trace t1 1 /\ state t1 = ACTIVE /\
    lifecycle example_created_trace t2 2 /\ state t2 = COMPLETED /\
    lifecycle example_created_trace t3 3 /\ state t3 = ARCHIVED /\
    3 + remaining_transitions (state t3) <= 3 /\
    (forall new_state reason ed w,
       exists msg,
         transition_trace t3 new_state reason ed w
         = (Raise (ValueError msg), w)).
Proof.
  destruct (transition_trace_succeeds example_created_trace ACTIVE
              "admitted" None example_world_created) as (t1 & w1 & H1).
  { simpl. set_solver. }
  assert (Hs1 : state t1 = ACTIVE).
  { apply transition_trace_ok in H1. tauto. }
  destruct (transition_trace_succeeds t1 COMPLETED "COMPLETED" None w1)
    as (t2 & w2 & H2).
  { rewrite Hs1. simpl. set_solver. }
  assert (Hs2 : state t2 = COMPLETED).
  { apply transition_trace_ok in H2. tauto. }
  destruct (transition_trace_succeeds t2 ARCHIVED "archived" None w2)
    as (t3 & w3 & H3).
  { rewrite Hs2. simpl. set_solver. }
  assert (Hs3 : state t3 = ARCHIVED).
  { apply transition_trace_ok in H3. tauto. }
  assert (L1 : lifecycle example_created_trace t1 1).
  { eapply lifecycle_step; [apply lifecycle_start | exact H1]. }
  assert (L2 : lifecycle example_created_trace t2 2).
  { eapply lifecycle_step; [exact L1 | exact H2]. }
  assert (L3 : lifecycle example_created_trace t3 3).
  { eapply lifecycle_step; [exact L2 | exact H3]. }
  destruct (lifecycle_bounded example_created_trace t3 3 eq_refl L3)
    as (Hsum & _ & Hterm).
  exists t1, t2, t3.
  split; [exact L1 |]. split; [exact Hs1 |].
  split; [exact L2 |]. split; [exact Hs2 |].
  split; [exact L3 |]. split; [exact Hs3 |].
  split; [exact Hsum |].
  apply Hterm. right. exact Hs3.
Defined.

(** [close_trace] succeeds exactly for an ACTIVE trace with a reason other
    than ["INVALID"], and for a CREATED trace with the reason ["BLOCKED"].
    In every other case it raises a [ValueError] and changes nothing: a
    trace that is not ACTIVE or CREATED cannot be closed, the reason
    ["INVALID"] never closes a trace, and a CREATED trace cannot be closed
    as completed.  When it succeeds the trace is BLOCKED for the reason
    ["BLOCKED"] and COMPLETED for every other reason, known or not, and
    its closure timestamp is set. *)
Theorem close_trace_outcome (trace : Trace) (reason : string) (w : World) :
  let closes :=
    (state trace = ACTIVE /\ reason <> "INVALID") \/
    (state trace = CREATED /\ reason = "BLOCKED") in
  (closes ->
   exists t' w',
     close_trace trace reason w = (Ret t', w') /\
     state t' = (if String.eqb reason "BLOCKED" then BLOCKED else COMPLETED) /\
     closed_at t' = Some (clock (host w) (S (ticks w))) /\
     length (lifecycle_log t') = S (length (lifecycle_log trace))) /\
  (~ closes ->
   exists msg, close_trace trace reason w = (Raise (ValueError msg), w)).
Proof.
  cbv zeta. unfold close_trace. split.
  - intros [[Hs Hr] | [Hs Hr]]; rewrite Hs; simpl.
    + apply String.eqb_neq in Hr.
      destruct (String.eqb reason "COMPLETED") eqn:Hc;
        destruct (String.eqb reason "BLOCKED") eqn:Hb; rewrite ?Hr.
      * apply String.eqb_eq in Hc, Hb. congruence.
      * assert (He : COMPLETED ∈ spec_allowed_edges (state trace))
          by (rewrite Hs; right; left).
        destruct (transition_trace_succeeds trace COMPLETED reason None w He)
          as (t' & w' & Ht).
        exists t', w'. split; [exact Ht |].
        apply transition_trace_ok in Ht.
        destruct Ht as (_ & _ & Hst & _ & _ & _ & Hlog & Hcl).
        split; [exact Hst |]. split; [exact Hcl |].
        rewrite Hlog, length_app. simpl. lia.
      * assert (He : BLOCKED ∈ spec_allowed_edges (state trace))
          by (rewrite Hs; left).
        destruct (transition_trace_succeeds trace BLOCKED reason None w He)
          as (t' & w' & Ht).
        exists t', w'. split; [exact Ht |].
        apply transition_trace_ok in Ht.
        destruct Ht as (_ & _ & Hst & _ & _ & _ & Hlog & Hcl).
        split; [exact Hst |]. split; [exact Hcl |].
        rewrite Hlog, length_app. simpl. lia.
      * assert (He : COMPLETED ∈ spec_allowed_edges (state trace))
          by (rewrite Hs; right; left).
        destruct (transition_trace_succeeds trace COMPLETED reason None w He)
          as (t' & w' & Ht).
        exists t', w'. split; [exact Ht |].
        apply transition_trace_ok in Ht.
        destruct Ht as (_ & _ & Hst & _ & _ & _ & Hlog & Hcl).
        split; [exact Hst |]. split; [exact Hcl |].
        rewrite Hlog, length_app. simpl. lia.
    + subst reason. simpl.
      assert (He : BLOCKED ∈ spec_allowed_edges (state trace))
        by (rewrite Hs; right; left).
      destruct (transition_trace_succeeds trace BLOCKED "BLOCKED" None w He)
        as (t' & w' & Ht).
      exists t', w'. split; [exact Ht |].
      apply transition_trace_ok in Ht.
      destruct Ht as (_ & _ & Hst & _ & _ & _ & Hlog & Hcl).
      split; [exact Hst |]. split; [exact Hcl |].
      rewrite Hlog, length_app. simpl. lia.
  - intros Hno.
    destruct (state trace) eqn:Hs; simpl;
      try (eexists; reflexivity).
    + (* CREATED *)
      destruct (String.eqb reason "COMPLETED") eqn:Hc;
        [apply transition_rejects_illegal; rewrite Hs; simpl;
         intros Hin; repeat (apply elem_of_cons in Hin;
                             destruct Hin as [Hin | Hin]; try discriminate Hin);
         inversion Hin |].
      destruct (String.eqb reason "BLOCKED") eqn:Hb.
      { exfalso. apply Hno. right. apply String.eqb_eq in Hb. auto. }
      destruct (String.eqb reason "INVALID");
        apply transition_rejects_illegal; rewrite Hs; simpl;
        intros Hin; repeat (apply elem_of_cons in Hin;
                            destruct Hin as [Hin | Hin]; try discriminate Hin);
        inversion Hin.
    + (* ACTIVE *)
      destruct (String.eqb reason "COMPLETED") eqn:Hc.
      { exfalso. apply Hno. left. apply String.eqb_eq in Hc. subst.
        split; [reflexivity | discriminate]. }
      destruct (String.eqb reason "BLOCKED") eqn:Hb.
      { exfalso. apply Hno. left. apply String.eqb_eq in Hb. subst.
        split; [reflexivity | discriminate]. }
      destruct (String.eqb reason "INVALID") eqn:Hi.
      * apply transition_rejects_illegal; rewrite Hs; simpl;
          intros Hin; repeat (apply elem_of_cons in Hin;
                              destruct Hin as [Hin | Hin]; try discriminate Hin);
          inversion Hin.
      * exfalso. apply Hno. left. apply String.eqb_neq in Hi. auto.
Qed.

Lemma close_trace_outcome_witness :
  exists msg,
    close_trace example_created_trace "COMPLETED" example_world
    = (Raise (ValueError msg), example_world).
Proof.
  apply (proj2 (close_trace_outcome example_created_trace "COMPLETED"
                  example_world)).
  intros [[Hs _] | [_ Hr]]; [vm_compute in Hs | vm_compute in Hr];
    discriminate.
Defined.

End LifecycleInvariants.


(** ** Further properties of the gate *)

Section GateBehaviour.

(** [_prepare_metrics] changes nothing.  It raises exactly when the
    history has two points or more and the square of a deviation from the
    mean raises, as it does with an [OverflowError] when the square is out
    of range.  Otherwise it returns the metrics for the
    decision gate, which always hold the same eleven keys: the eight
    fields of the state, a drift of 0.0, and trend and variance, both 0.0
    when the history is absent or has fewer than two points. *)
Theorem prepare_metrics_keys (eps : GateEnergeticState.t)
    (hist : option (list float)) (w : World) :
  (forall e, history_raises (host w) hist = Some e ->
   _prepare_metrics eps hist w = (Raise e, w) /\
   exists h, hist = Some h /\ 2 <= length h) /\
  (history_raises (host w) hist = None ->
   exists m,
     _prepare_metrics eps hist w = (Ret m, w) /\
     dom m = ({["I"; "P"; "S"; "H"; "A"; "S_a"; "E_mu"; "theta"; "D_traj";
                "T"; "V"]} : gset string) /\
     m !! "I" = Some (GateEnergeticState.I eps) /\
     m !! "P" = Some (GateEnergeticState.P eps) /\
     m !! "S" = Some (GateEnergeticState.S eps) /\
     m !! "H" = Some (GateEnergeticState.H eps) /\
     m !! "A" = Some (GateEnergeticState.A eps) /\
     m !! "S_a" = Some (GateEnergeticState.S_a eps) /\
     m !! "E_mu" = Some (GateEnergeticState.E_mu eps) /\
     m !! "theta" = Some (GateEnergeticState.theta eps) /\
     m !! "D_traj" = Some 0.0%float /\
     (match hist with
      | Some h => length h < 2
      | None => True
      end ->
      m !! "T" = Some 0.0%float /\ m !! "V" = Some 0.0%float)).
Proof.
  pose proof (prepare_metrics_run eps hist w) as Hp. split.
  - intros e Ho. rewrite Ho in Hp. split; [exact Hp |].
    unfold history_raises in Ho. destruct hist as [h |]; [| discriminate].
    destruct (2 <=? length h)%nat eqn:Hlen; [| discriminate].
    apply Nat.leb_le in Hlen. exists h. split; [reflexivity | exact Hlen].
  - intros Ho. rewrite Ho in Hp. destruct Hp as (T & V & Hrun & Hshort & _).
    exists (metrics_with eps T V). split; [exact Hrun |].
    unfold metrics_with.
    split; [rewrite !dom_insert_L, dom_empty_L; set_solver |].
    repeat (split;
            [repeat (rewrite lookup_insert_ne by discriminate);
             apply lookup_insert_eq |]).
    intros Hs. destruct (Hshort Hs) as (-> & ->).
    split; [rewrite lookup_insert_ne by discriminate |];
      apply lookup_insert_eq.
Qed.

Lemma prepare_metrics_keys_witness :
  _prepare_metrics example_gate_eps_at_threshold
    (Some [1e200; (-1e200)]%float) example_world
  = (Raise overflow_error, example_world) /\
  exists m,
    _prepare_metrics example_gate_eps_at_threshold
      (Some [1.0; 3.0]%float) example_world = (Ret m, example_world) /\
    m !! "H" = Some 0.85%float /\
    m !! "T" = Some 1.0%float /\ m !! "V" = Some 1.0%float.
Proof.
  split.
  - apply (proj1 (prepare_metrics_keys example_gate_eps_at_threshold
                    (Some [1e200; (-1e200)]%float) example_world)
             overflow_error).
    vm_compute. reflexivity.
  - destruct (proj2 (prepare_metrics_keys example_gate_eps_at_threshold
                       (Some [1.0; 3.0]%float) example_world))
      as (m & Hrun & _ & _ & _ & _ & HH & _); [vm_compute; reflexivity |].
    exists m. split; [exact Hrun |]. split; [exact HH |].
    apply (f_equal (fun x => match fst x with
                             | Ret m => (m !! "T", m !! "V")
                             | Raise _ => (None, None)
                             end)) in Hrun.
    vm_compute in Hrun.
    split; [exact (eq_sym (f_equal fst Hrun))
           | exact (eq_sym (f_equal snd Hrun))].
Defined.

(** Every admission is recorded.  When the metrics are prepared and the
    decision gate answers [v], [GateCore.admit] returns a result with that
    verdict and these metrics and appends exactly one record to the gate
    trace: the verdict, the reason of the result and the eight fields of
    the state with their values.  It reads the clock twice (for the
    result, then for the record) and writes one log line. *)
Theorem admit_records_decision
    (g : GateCore) (eps : GateEnergeticState.t) (tid : option string)
    (hist : option (list float)) (w w1 : World) (m : gmap string float)
    (v : string) :
  _prepare_metrics eps hist w = (Ret m, w) ->
  decide g m w = (Ret v, w1) ->
  exists r w' line,
    GateCore_admit g eps tid hist w = (Ret r, w') /\
    GateCoreResult.verdict r = v /\
    GateCoreResult.metrics r = m /\
    GateCoreResult.trace_id r = tid /\
    GateCoreResult.timestamp r = clock (host w1) (ticks w1) /\
    gate_traces w'
    = gate_traces w1 ++
        [{| gt_timestamp := clock (host w1) (S (ticks w1));
            gt_decision := v;
            gt_state :=
              <["I" := GateEnergeticState.I eps]>
              (<["P" := GateEnergeticState.P eps]>
              (<["S" := GateEnergeticState.S eps]>
              (<["H" := GateEnergeticState.H eps]>
              (<["A" := GateEnergeticState.A eps]>
              (<["S_a" := GateEnergeticState.S_a eps]>
              (<["E_mu" := GateEnergeticState.E_mu eps]>
              (<["theta" := GateEnergeticState.theta eps]> ∅)))))));
            gt_reason := GateCoreResult.reason r |}] /\
    ticks w' = S (S (ticks w1)) /\
    log w' = log w1 ++ [(INFO, line)].
Proof.
  intros Hm Hd.
  destruct (GateCore_admit_run g eps tid hist w w1 m v Hm Hd)
    as (r & w' & line & Hrun & Hv & Hmet & Htid & Hts & _ & Htr & Hticks
        & Hlog & _).
  exists r, w', line. repeat split; assumption.
Qed.

Lemma admit_records_decision_witness :
  exists r w',
    GateCore_admit dummy_gatecore (convert_eps example_eps) None None
      example_world = (Ret r, w') /\
    (exists entry, gate_traces w' = [entry] /\
                   gt_state entry !! "H" = Some 0.3%float).
Proof.
  destruct (admit_records_decision dummy_gatecore (convert_eps example_eps)
              None None example_world example_world
              (metrics_with (convert_eps example_eps) 0.0 0.0) "ALLOW")
    as (r & w' & line & Hrun & _ & _ & _ & _ & Htr & _).
  - reflexivity.
  - vm_compute. reflexivity.
  - exists r, w'. split; [exact Hrun |]. rewrite Htr.
    eexists. split; [reflexivity |]. reflexivity.
Defined.

(** With the fallback decision gate of [create_gatecore], [admit] raises
    when the history raises, before the gate is asked, and returns
    otherwise.  Then a stability of zero always blocks,
    whatever the other fields, the history and the policy are, and the
    reason names the safety rule; otherwise an entropy above 0.85 asks for
    review and anything else is allowed. *)
Theorem dummy_gate_admission
    (config : gmap string float) (ctx : string)
    (eps : GateEnergeticState.t) (tid : option string)
    (hist : option (list float)) (w : World) :
  let g := {| decide := DummyDecisionGate_decide;
              policy_config := config; gate_context := ctx |} in
  (forall e, history_raises (host w) hist = Some e ->
   GateCore_admit g eps tid hist w = (Raise e, w)) /\
  (history_raises (host w) hist = None ->
   exists r w',
     GateCore_admit g eps tid hist w = (Ret r, w') /\
     (feq (GateEnergeticState.S eps) 0.0 = true ->
      GateCoreResult.verdict r = "BLOCK" /\
      GateCoreResult.reason r = "Safety rule failed (S == 0)") /\
     (feq (GateEnergeticState.S eps) 0.0 = false ->
      fgt (GateEnergeticState.H eps) 0.85 = true ->
      GateCoreResult.verdict r = "REVIEW") /\
     (feq (GateEnergeticState.S eps) 0.0 = false ->
      fgt (GateEnergeticState.H eps) 0.85 = false ->
      GateCoreResult.verdict r = "ALLOW" /\
      GateCoreResult.reason r = "All metrics within safety bounds")).
Proof.
  cbv zeta.
  set (g := {| decide := DummyDecisionGate_decide;
               policy_config := config; gate_context := ctx |}).
  split; [intros e; apply GateCore_admit_overflow |].
  intros Ho. pose proof (prepare_metrics_run eps hist w) as Hp.
  rewrite Ho in Hp. destruct Hp as (T & V & Hp & _).
  destruct (metrics_with_lookup eps T V 0.0%float) as (_ & _ & HmH & _).
  destruct (metrics_with_lookup eps T V 1.0%float) as (HmS & _).
  set (v := if feq (GateEnergeticState.S eps) 0.0 then "BLOCK"
            else if fgt (GateEnergeticState.H eps) 0.85 then "REVIEW"
            else "ALLOW").
  assert (Hd : decide g (metrics_with eps T V) w = (Ret v, w)).
  { simpl. unfold DummyDecisionGate_decide. cbv zeta. rewrite HmS, HmH.
    unfold v.
    destruct (feq (GateEnergeticState.S eps) 0.0); [reflexivity |].
    destruct (fgt (GateEnergeticState.H eps) 0.85); reflexivity. }
  destruct (GateCore_admit_verdict g eps tid hist w _ v Hp Hd)
    as (r & w' & Hrun & Hv & _ & _ & Hreason & _).
  exists r, w'. split; [exact Hrun |].
  split; [| split].
  - intros HS. unfold v in *. rewrite HS in *.
    split; [exact Hv |].
    unfold _determine_reason in Hreason. simpl in Hreason.
    rewrite HS in Hreason. mrun_in Hreason. congruence.
  - intros HS HH. unfold v in *. rewrite HS, HH in *. exact Hv.
  - intros HS HH. unfold v in *. rewrite HS, HH in *.
    split; [exact Hv |].
    unfold _determine_reason in Hreason. simpl in Hreason.
    mrun_in Hreason. congruence.
Qed.

Lemma dummy_gate_admission_witness :
  (exists r w',
     GateCore_admit dummy_gatecore
       (GateEnergeticState.mk 0.7 0.6 0.0 0.3 0.5 0.4 50.0 1.2)
       (Some "test_002") (Some [49.0; 50.0; 51.0]%float) example_world
     = (Ret r, w') /\
     GateCoreResult.verdict r = "BLOCK" /\
     GateCoreResult.reason r = "Safety rule failed (S == 0)") /\
  GateCore_admit dummy_gatecore
    (GateEnergeticState.mk 0.7 0.6 0.8 0.3 0.5 0.4 50.0 1.2)
    (Some "test_002") (Some [1e200; (-1e200)]%float) example_world
  = (Raise overflow_error, example_world).
Proof.
  split.
  - destruct (proj2 (dummy_gate_admission example_policy_config "default"
                       (GateEnergeticState.mk 0.7 0.6 0.0 0.3 0.5 0.4 50.0 1.2)
                       (Some "test_002") (Some [49.0; 50.0; 51.0]%float)
                       example_world))
      as (r & w' & Hrun & Hblock & _); [vm_compute; reflexivity |].
    exists r, w'. split; [exact Hrun |].
    apply Hblock. vm_compute. reflexivity.
  - apply (proj1 (dummy_gate_admission example_policy_config "default"
                    (GateEnergeticState.mk 0.7 0.6 0.8 0.3 0.5 0.4 50.0 1.2)
                    (Some "test_002") (Some [1e200; (-1e200)]%float)
                    example_world) overflow_error).
    vm_compute. reflexivity.
Defined.

End GateBehaviour.


(** ** The gate over the kernel bridge *)

Section KernelGate.

(** The steps of [admit_with_trace] once the trace is created and the
    gate has answered. *)
Lemma admit_with_trace_run (gatecore : GateCore) (eps : EnergeticState.t)
    (o c : PyDict) (hist : option (list float)) (w w1 w2 : World)
    (t0 : Trace) (r : GateCoreResult.t) :
  create_trace o c w = (Ret t0, w1) ->
  GateCore_admit gatecore (convert_eps eps) (Some (trace_id t0)) hist w1
  = (Ret r, w2) ->
  exists t' w3,
    admit_with_trace gatecore eps o c hist w = (Ret (t', r), w3) /\
    state t' = (if String.eqb (GateCoreResult.verdict r) "BLOCK"
                then BLOCKED else ACTIVE) /\
    trace_id t' = trace_id t0 /\
    length (lifecycle_log t') = 2.
Proof.
  intros Hc Hg.
  destruct (create_trace_ok o c w)
    as (t0' & w1' & Hc' & Hst & _ & _ & _ & _ & _ & e0 & Hl0 & _).
  rewrite Hc in Hc'. inversion Hc'; subst t0' w1'. clear Hc'.
  unfold admit_with_trace.
  rewrite (bind_run _ _ _ _ _ Hc). cbv zeta.
  rewrite (bind_run _ _ _ _ _ Hg).
  destruct (String.eqb (GateCoreResult.verdict r) "BLOCK").
  - assert (He : BLOCKED ∈ spec_allowed_edges (state t0))
      by (rewrite Hst; right; left).
    destruct (transition_trace_succeeds t0 BLOCKED (GateCoreResult.reason r)
                (Some (gate_event_data r)) w2 He) as (t' & w3 & Ht).
    rewrite (bind_run _ _ _ _ _ Ht).
    apply transition_trace_ok in Ht.
    destruct Ht as (_ & Hid & Hs & _ & _ & _ & Hlog & _).
    exists t', w3. split; [reflexivity |].
    rewrite Hlog, Hl0. auto.
  - assert (He : ACTIVE ∈ spec_allowed_edges (state t0))
      by (rewrite Hst; left).
    destruct (transition_trace_succeeds t0 ACTIVE
                ("GateCore " +:+ GateCoreResult.verdict r)
                (Some (gate_event_data r)) w2 He) as (t' & w3 & Ht).
    rewrite (bind_run _ _ _ _ _ Ht).
    apply transition_trace_ok in Ht.
    destruct Ht as (_ & Hid & Hs & _ & _ & _ & Hlog & _).
    exists t', w3. split; [reflexivity |].
    rewrite Hlog, Hl0. auto.
Qed.

(** [create_trace] leaves the host as it is. *)
Lemma create_trace_host (o c : PyDict) (w w1 : World) (t0 : Trace) :
  create_trace o c w = (Ret t0, w1) ->
  host w1 = host w /\ gate_traces w1 = gate_traces w /\
  log w1 = log w ++ [(INFO, "Trace created: " +:+ trace_id t0)].
Proof.
  intros Hc. unfold create_trace in Hc. mrun_in Hc. inversion Hc; subst.
  repeat split; reflexivity.
Qed.

(** Without a loaded kernel library no verdict is ever produced.
    [GateCore.admit] raises before it reads the clock or records
    anything: the exception of a history that raises, and else
    [RuntimeError("Library not loaded")].  [admit_with_trace] raises the
    same error (it does not return a pair of [None]s): the trace it had
    created is left behind in state CREATED and nothing but its creation
    was logged.  The admission phase of the loop, which passes no history,
    raises the [RuntimeError] as well. *)
Theorem admission_without_kernel_library
    (config : gmap string float) (eps : EnergeticState.t)
    (o c : PyDict) (tid : option string) (hist : option (list float))
    (builder : bool) (w : World) :
  let g := kernel_gatecore {| library := None |} config in
  let err := match history_raises (host w) hist with
             | Some e => e
             | None => RuntimeError "Library not loaded"
             end in
  GateCore_admit g (convert_eps eps) tid hist w = (Raise err, w) /\
  (exists t0 w1,
     create_trace o c w = (Ret t0, w1) /\
     state t0 = CREATED /\
     admit_with_trace g eps o c hist w = (Raise err, w1) /\
     gate_traces w1 = gate_traces w /\
     log w1 = log w ++ [(INFO, "Trace created: " +:+ trace_id t0)]) /\
  (exists w1,
     _phase_trajectory_admission (Some g) builder eps (Some o) (Some c) w
     = (Raise (RuntimeError "Library not loaded"), w1) /\
     gate_traces w1 = gate_traces w).
Proof.
  cbv zeta.
  assert (Hadmit : forall tid' hist' w0,
            GateCore_admit (kernel_gatecore {| library := None |} config)
              (convert_eps eps) tid' hist' w0
            = (Raise (match history_raises (host w0) hist' with
                      | Some e => e
                      | None => RuntimeError "Library not loaded"
                      end), w0)).
  { intros tid' hist' w0.
    pose proof (prepare_metrics_run (convert_eps eps) hist' w0) as Hp.
    destruct (history_raises (host w0) hist') as [e0 |].
    - unfold GateCore_admit. apply bind_raise. exact Hp.
    - destruct Hp as (T & V & Hp & _). unfold GateCore_admit.
      rewrite (bind_run _ _ _ _ _ Hp). apply bind_raise.
      rewrite kernel_decide_run. reflexivity. }
  split; [apply Hadmit |]. split.
  - destruct (create_trace_ok o c w) as (t0 & w1 & Hc & Hst & _).
    destruct (create_trace_host o c w w1 t0 Hc) as (Hhost & Htr & Hlog).
    exists t0, w1. split; [exact Hc |]. split; [exact Hst |].
    split.
    { unfold admit_with_trace. rewrite (bind_run _ _ _ _ _ Hc). cbv zeta.
      apply bind_raise. rewrite Hadmit, Hhost. reflexivity. }
    split; assumption.
  - unfold _phase_trajectory_admission. destruct builder.
    + destruct (create_trace_ok o c w) as (t0 & w1 & Hc & _).
      destruct (create_trace_host o c w w1 t0 Hc) as (_ & Htr & _).
      exists w1. split; [| exact Htr].
      rewrite (bind_run _ _ w w1 (Some t0)).
      2:{ rewrite (bind_run _ _ _ _ _ Hc). reflexivity. }
      apply bind_raise. rewrite Hadmit. reflexivity.
    + exists w. split; [| reflexivity].
      rewrite (bind_run _ _ w w None) by reflexivity.
      apply bind_raise. rewrite Hadmit. reflexivity.
Qed.

(** With a loaded library and a history that does not raise, the
    kernel's return code alone decides the admission made through the
    bridge: the code 2 blocks the trace, and every other code, 0, 1 or one
    the bridge does not know, activates it.  An unknown code is reported
    as the verdict ["UNKNOWN"] with the reason of an ALLOW.  With a history
    that raises the kernel is not asked: [admit_with_trace] raises the
    exception of the history and leaves the created trace behind. *)
Theorem kernel_code_decides_admission
    (lib : DecisionParams -> float -> float -> Z)
    (config : gmap string float) (eps : EnergeticState.t)
    (o c : PyDict) (hist : option (list float)) (w : World) :
  let g := kernel_gatecore {| library := Some lib |} config in
  let code := lib (decision_params_of config) (EnergeticState.H eps) 0.0%float in
  (history_raises (host w) hist = None ->
   exists t r w',
     admit_with_trace g eps o c hist w = (Ret (t, r), w') /\
     GateCoreResult.verdict r = verdict_map code /\
     state t = (if (code =? 2)%Z then BLOCKED else ACTIVE) /\
     ((code =? 0)%Z = false -> (code =? 1)%Z = false ->
      (code =? 2)%Z = false ->
      GateCoreResult.verdict r = "UNKNOWN" /\
      GateCoreResult.reason r = "All metrics within safety bounds" /\
      state t = ACTIVE)) /\
  (forall e, history_raises (host w) hist = Some e ->
   exists t0 w1,
     create_trace o c w = (Ret t0, w1) /\
     state t0 = CREATED /\
     admit_with_trace g eps o c hist w = (Raise e, w1)).
Proof.
  cbv zeta.
  set (g := kernel_gatecore {| library := Some lib |} config).
  set (code := lib (decision_params_of config) (EnergeticState.H eps) 0.0%float).
  destruct (create_trace_ok o c w) as (t0 & w1 & Hc & Hcreated & _).
  destruct (create_trace_host o c w w1 t0 Hc) as (Hhost & _).
  split.
  - intros Ho.
    pose proof (prepare_metrics_run (convert_eps eps) hist w1) as Hp.
    rewrite Hhost, Ho in Hp. destruct Hp as (T & V & Hp & _).
    assert (Hd : decide g (metrics_with (convert_eps eps) T V) w1
                 = (Ret (verdict_map code), w1)).
    { unfold g. rewrite kernel_decide_run. reflexivity. }
    destruct (GateCore_admit_verdict g (convert_eps eps)
                (Some (trace_id t0)) hist w1 _ _ Hp Hd)
      as (r & w2 & Hg & Hv & _ & _ & Hreason & _).
    destruct (admit_with_trace_run g eps o c hist w w1 w2 t0 r Hc Hg)
      as (t & w3 & Hrun & Hst & _).
    exists t, r, w3. split; [exact Hrun |]. split; [exact Hv |].
    assert (Hstate : state t = if (code =? 2)%Z then BLOCKED else ACTIVE).
    { rewrite Hst, Hv. unfold verdict_map.
      destruct (code =? 0)%Z eqn:H0; [| destruct (code =? 1)%Z eqn:H1;
        [| destruct (code =? 2)%Z eqn:H2]]; simpl; try reflexivity.
      - apply Z.eqb_eq in H0. rewrite H0. reflexivity.
      - apply Z.eqb_eq in H1. rewrite H1. reflexivity. }
    split; [exact Hstate |].
    intros H0 H1 H2.
    assert (Hu : verdict_map code = "UNKNOWN").
    { unfold verdict_map. rewrite H0, H1, H2. reflexivity. }
    split; [congruence |]. split; [| rewrite Hstate, H2; reflexivity].
    rewrite Hu in Hreason. unfold _determine_reason in Hreason.
    simpl in Hreason. mrun_in Hreason. congruence.
  - intros e Ho. exists t0, w1. split; [exact Hc |].
    split; [exact Hcreated |].
    unfold admit_with_trace. rewrite (bind_run _ _ _ _ _ Hc). cbv zeta.
    apply bind_raise. apply GateCore_admit_overflow.
    rewrite Hhost. exact Ho.
Qed.

Lemma kernel_code_decides_admission_witness :
  (exists t r w',
     admit_with_trace (kernel_gatecore {| library := Some (fun _ _ _ => 7%Z) |}
                         example_policy_config)
       example_eps example_origin example_context
       (Some [49.0; 50.0; 51.0]%float) example_world
     = (Ret (t, r), w') /\
     GateCoreResult.verdict r = "UNKNOWN" /\ state t = ACTIVE) /\
  (exists w1,
     admit_with_trace (kernel_gatecore {| library := Some (fun _ _ _ => 0%Z) |}
                         example_policy_config)
       example_eps example_origin example_context
       (Some [1e200; (-1e200)]%float) example_world
     = (Raise overflow_error, w1)).
Proof.
  split.
  - destruct (proj1 (kernel_code_decides_admission (fun _ _ _ => 7%Z)
                       example_policy_config example_eps example_origin
                       example_context (Some [49.0; 50.0; 51.0]%float)
                       example_world))
      as (t & r & w' & Hrun & _ & _ & Hunknown); [vm_compute; reflexivity |].
    destruct Hunknown as (Hv & _ & Hs); try reflexivity.
    exists t, r, w'. auto.
  - destruct (proj2 (kernel_code_decides_admission (fun _ _ _ => 0%Z)
                       example_policy_config example_eps example_origin
                       example_context (Some [1e200; (-1e200)]%float)
                       example_world) overflow_error)
      as (t0 & w1 & _ & _ & Hrun); [vm_compute; reflexivity |].
    exists w1. exact Hrun.
Defined.

End KernelGate.


(** ** Further properties of the router *)

Section RouterBehaviour.

(** A NaN, the only float that differs from itself, compares false with
    everything. *)
Lemma nan_compares_false (x y : float) :
  feq x x = false ->
  PrimFloat.leb y x = false /\ PrimFloat.ltb x y = false.
Proof.
  unfold feq. rewrite FloatAxioms.eqb_spec, leb_spec, ltb_spec.
  unfold SFeqb, SFleb, SFltb.
  destruct (Prim2SF x) as [sx | sx | | sx mx ex] eqn:Hx; simpl.
  - discriminate.
  - destruct sx; discriminate.
  - intros _. destruct (Prim2SF y); split; reflexivity.
  - destruct sx; rewrite Z.compare_refl, Pos.compare_cont_refl; discriminate.
Qed.

(** The navigation decision is never the label BLOCKED. *)
Lemma navigation_label_not_blocked (st m : EPS8State.t)
    (scores : gmap string float) :
  _navigation_decision st scores m <> "BLOCKED".
Proof.
  unfold _navigation_decision.
  repeat match goal with
         | |- context [if ?c then _ else _] => destruct c
         end; discriminate.
Qed.

(** One guarded memory query always yields a score, which is 0.0 when the
    query raised. *)
Lemma query_or_zero_ok (name : string) (q : M float) (w : World) :
  exists x w',
    query_or_zero name q w = (Ret x, w') /\
    (forall e w1, q w = (Raise e, w1) -> x = 0.0%float).
Proof.
  unfold query_or_zero.
  destruct (q w) as [[x|e] w1] eqn:Hq.
  - exists x, w1. split; [reflexivity |]. intros e w2 [=].
  - mrun. eexists; eexists. split; [reflexivity |]. reflexivity.
Qed.

(** The resonance loop never raises; it adds a score for the name of each
    field that is not [None] and leaves the scores of all other names as
    they are. *)
Lemma resonance_loop_ok (fields : list (string * option MemoryField))
    (st : EPS8State.t) (acc : gmap string float) (w : World) :
  exists scores w',
    resonance_loop fields st acc w = (Ret scores, w') /\
    (forall k, k ∈ dom scores <->
               k ∈ dom acc \/ exists f, (k, Some f) ∈ fields) /\
    (forall k, k ∉ fields.*1 -> scores !! k = acc !! k) /\
    (NoDup fields.*1 ->
     forall k f, (k, Some f) ∈ fields -> field_unusable f ->
                 scores !! k = Some 0.0%float).
Proof.
  revert acc w. induction fields as [| [name [f|]] rest IH]; intros acc w.
  - simpl. exists acc, w. split; [reflexivity |].
    split; [| split]; [| reflexivity |].
    + intros k. split; [auto |]. intros [H | (f & H)]; [exact H |].
      inversion H.
    + intros _ k f H. inversion H.
  - simpl.
    destruct (query_or_zero_ok name
                (match f with
                 | FieldQuery query_resonance => query_resonance st ""
                 | FieldWithoutQuery =>
                     bind (logger_warning ("Memory field " +:+ name +:+
                                  " does not have query_resonance method"))
                          (fun _ => ret 0.0%float)
                 end) w) as (x & w1 & Hq & Hzero).
    rewrite (bind_run _ _ _ _ _ Hq).
    destruct (IH (<[name := x]> acc) w1)
      as (scores & w' & Hrun & Hdom & Hother & Hbroken).
    exists scores, w'. split; [exact Hrun |].
    split; [| split].
    + intros k. rewrite Hdom, dom_insert. split.
      * intros [Hk | (g & Hg)].
        -- apply elem_of_union in Hk. destruct Hk as [Hk | Hk].
           ++ apply elem_of_singleton in Hk. subst k.
              right. exists f. left.
           ++ left. exact Hk.
        -- right. exists g. right. exact Hg.
      * intros [Hk | (g & Hg)].
        -- left. apply elem_of_union. right. exact Hk.
        -- apply elem_of_cons in Hg. destruct Hg as [Hg | Hg].
           ++ inversion Hg; subst. left. apply elem_of_union. left.
              apply elem_of_singleton. reflexivity.
           ++ right. exists g. exact Hg.
    + intros k Hk. simpl in Hk. apply not_elem_of_cons in Hk.
      destruct Hk as (Hne & Hk).
      rewrite (Hother k Hk). apply lookup_insert_ne. congruence.
    + intros Hnd k g Hin Hun. simpl in Hnd. apply NoDup_cons in Hnd.
      destruct Hnd as (Hfresh & Hnd).
      apply elem_of_cons in Hin. destruct Hin as [Hin | Hin].
      * inversion Hin; subst k g.
        rewrite (Hother name Hfresh), lookup_insert_eq. f_equal.
        destruct f as [| q]; simpl in Hun.
        -- apply (f_equal fst) in Hq. unfold query_or_zero in Hq.
           mrun_in Hq. simpl in Hq. inversion Hq. reflexivity.
        -- destruct (Hun st "" w) as (e & w2 & Hraise).
           exact (Hzero e w2 Hraise).
      * apply (Hbroken Hnd k g Hin Hun).
  - simpl. destruct (IH acc w) as (scores & w' & Hrun & Hdom & Hother & Hbroken).
    exists scores, w'. split; [exact Hrun |].
    split; [| split].
    + intros k. rewrite Hdom. split.
      * intros [Hk | (g & Hg)]; [left; exact Hk |].
        right. exists g. right. exact Hg.
      * intros [Hk | (g & Hg)]; [left; exact Hk |].
        apply elem_of_cons in Hg. destruct Hg as [Hg | Hg];
          [inversion Hg |]. right. exists g. exact Hg.
    + intros k Hk. simpl in Hk. apply not_elem_of_cons in Hk.
      apply Hother. tauto.
    + intros Hnd k g Hin Hun. simpl in Hnd. apply NoDup_cons in Hnd.
      apply elem_of_cons in Hin. destruct Hin as [Hin | Hin];
        [inversion Hin |].
      apply (Hbroken (proj2 Hnd) k g Hin Hun).
Qed.

Lemma invoke_memory_resonance_ok (self : WMController) (st : EPS8State.t)
    (w : World) :
  exists scores w', _invoke_memory_resonance self st w = (Ret scores, w').
Proof.
  destruct (resonance_loop_ok (memory_fields self) st ∅ w)
    as (scores & w' & Hrun & _).
  exists scores, w'. exact Hrun.
Qed.

(** A failing memory field never aborts the resonance step.
    [_invoke_memory_resonance] always returns; the scores it returns have
    exactly the names of the configured fields that are not [None]; and
    a field that has no [query_resonance] method, or whose query raises,
    is scored 0.0. *)
Theorem invoke_memory_resonance_contains_failures
    (self : WMController) (st : EPS8State.t) (w : World) :
  exists scores w',
    _invoke_memory_resonance self st w = (Ret scores, w') /\
    (forall k, k ∈ dom scores <-> exists f, (k, Some f) ∈ memory_fields self) /\
    (NoDup (memory_fields self).*1 ->
     forall k f, (k, Some f) ∈ memory_fields self -> field_unusable f ->
                 scores !! k = Some 0.0%float).
Proof.
  unfold _invoke_memory_resonance.
  destruct (resonance_loop_ok (memory_fields self) st ∅ w)
    as (scores & w' & Hrun & Hdom & _ & Hbroken).
  exists scores, w'. split; [exact Hrun |]. split; [| exact Hbroken].
  intros k. rewrite Hdom, dom_empty. split.
  - intros [H | H]; [inversion H | exact H].
  - intros H. right. exact H.
Qed.

Lemma invoke_memory_resonance_contains_failures_witness :
  exists scores w',
    _invoke_memory_resonance (WMController_init None example_broken_fields ∅)
      example_state example_world = (Ret scores, w') /\
    scores !! "episodic" = Some 0.0%float /\
    scores !! "procedural" = Some 0.0%float.
Proof.
  destruct (invoke_memory_resonance_contains_failures
              (WMController_init None example_broken_fields ∅)
              example_state example_world)
    as (scores & w' & Hrun & _ & Hbroken).
  assert (Hnd : NoDup (memory_fields
                         (WMController_init None example_broken_fields ∅)).*1).
  { simpl. repeat (apply NoDup_cons; split;
                   [intros Hin; repeat (apply elem_of_cons in Hin;
                                        destruct Hin as [Hin | Hin];
                                        try discriminate Hin);
                    inversion Hin |]).
    apply NoDup_nil. exact I. }
  exists scores, w'. split; [exact Hrun |]. split.
  - eapply (Hbroken Hnd "episodic"); [left |].
    simpl. intros st tid w. eexists; eexists. reflexivity.
  - eapply (Hbroken Hnd "procedural"); [right; right; left |].
    exact I.
Defined.

(** The resonance step with its import: it raises the exception that
    escapes, if there is one, and is the loop over the fields otherwise. *)
Lemma importing_run (imp : ImportOutcome) (self : WMController)
    (st : EPS8State.t) (w : World) :
  _invoke_memory_resonance_importing imp self st w
  = match import_escapes imp self with
    | Some e => (Raise e, w)
    | None => _invoke_memory_resonance self st w
    end.
Proof.
  unfold _invoke_memory_resonance_importing, _invoke_memory_resonance,
    import_escapes.
  destruct (memory_fields self) as [| f rest]; [reflexivity |].
  destruct imp as [| e]; [reflexivity |].
  destruct (is_ImportError e); reflexivity.
Qed.

(** [_gate_control] leaves the host as it is. *)
Lemma gate_control_host (self : WMController) (st : EPS8State.t)
    (w w1 : World) (gs : gmap string PyVal) :
  _gate_control self st w = (Ret gs, w1) -> host w1 = host w.
Proof.
  unfold _gate_control, evaluate_safety. intros H.
  apply (f_equal (fun x => host (snd x))) in H.
  destruct (fgt (EPS8State.H st) (H_max self));
    destruct (wm_gatecore self) as [g |];
    [ destruct (fge (EPS8State.S st) (get_float (policy_config g) "S_min" 0.5))
    | destruct (flt (EPS8State.S st) (S_min self))
    | destruct (fge (EPS8State.S st) (get_float (policy_config g) "S_min" 0.5))
    | destruct (flt (EPS8State.S st) (S_min self)) ];
    mrun_in H; simpl in H; symmetry; exact H.
Qed.

(** What [process] does.  When the entropy gate or the safety gate fails
    it returns BLOCKED.  When both pass and the import of the resonance
    step escapes (a field is configured and the import raises something
    other than an [ImportError]), [process] raises that exception.
    Otherwise it returns, whatever the memory fields do: the scores are
    the ones the loop over the memory fields gave, the modulated state is
    the modulation of the input state by these scores, the decision is the
    navigation decision for them (never BLOCKED), all gates are recorded as
    passed, and the modulated state is appended to the trajectory's
    states. *)
Theorem process_outcome
    (self : WMController) (trajectory : TrajDict) (w : World) :
  let st := input_state trajectory in
  let failed := entropy_gate_fails self st || safety_gate_fails self st in
  match (if failed then None
         else import_escapes (memory_import (host w)) self) with
  | Some e => exists w', process self trajectory w = (Raise e, w')
  | None =>
      exists out w',
        process self trajectory w = (Ret out, w') /\
        WMControllerOutput.trace_id out
        = default "" (td_trace_id trajectory) /\
        (WMControllerOutput.navigation_decision out = "BLOCKED"
         <-> failed = true) /\
        (failed = false ->
         exists w1 w2,
           _invoke_memory_resonance self st w1
           = (Ret (WMControllerOutput.resonance_scores out), w2) /\
           WMControllerOutput.modulated_eps8 out
           = _context_modulation st (WMControllerOutput.resonance_scores out) /\
           WMControllerOutput.navigation_decision out
           = _navigation_decision st (WMControllerOutput.resonance_scores out)
               (WMControllerOutput.modulated_eps8 out) /\
           all_values (WMControllerOutput.gate_status out) = true /\
           WMTrajectory.states (WMControllerOutput.trajectory out)
           = input_states trajectory
               ++ [WMControllerOutput.modulated_eps8 out])
  end.
Proof.
  cbv zeta.
  assert (Htraj : exists traj,
            _dict_to_trajectory trajectory w
            = (Ret traj, set_ticks (S (ticks w)) w) /\
            match WMTrajectory.states traj with
            | [] => _create_default_state
            | _ => List.last (WMTrajectory.states traj) _create_default_state
            end = input_state trajectory /\
            WMTrajectory.states traj = input_states trajectory /\
            WMTrajectory.trace_id traj = default "" (td_trace_id trajectory)).
  { unfold _dict_to_trajectory, input_states, input_state. mrun.
    eexists. split; [reflexivity |]. simpl.
    destruct (td_eps trajectory); repeat split; reflexivity. }
  destruct Htraj as (traj & Htraj & Hcur & Hstates & Htid).
  destruct (gate_control_ok self (input_state trajectory)
              (set_ticks (S (ticks w)) w)) as (gs & w1 & Hgate & _ & Hall).
  pose proof (gate_control_host _ _ _ _ _ Hgate) as Hhost.
  cbn [host set_ticks] in Hhost.
  unfold process.
  rewrite (bind_run _ _ _ _ _ Htraj). cbv zeta. rewrite Hcur.
  rewrite (bind_run _ _ _ _ gs Hgate).
  destruct (entropy_gate_fails self (input_state trajectory)
            || safety_gate_fails self (input_state trajectory)) eqn:Hfail.
  - assert (Hblocked : all_values gs = false).
    { rewrite Hall. apply orb_true_iff in Hfail.
      destruct Hfail as [H | H]; rewrite H; simpl;
        [reflexivity | apply andb_false_r]. }
    rewrite Hblocked. simpl. mrun.
    eexists; eexists. split; [reflexivity |]. simpl.
    split; [exact Htid |]. split; [tauto | discriminate].
  - assert (Hpass : all_values gs = true).
    { rewrite Hall. apply orb_false_iff in Hfail.
      destruct Hfail as (H1 & H2). rewrite H1, H2. reflexivity. }
    rewrite Hpass. cbn [negb].
    destruct (import_escapes (memory_import (host w)) self) as [e |] eqn:Hesc.
    + exists w1.
      unfold bind at 1. unfold gets at 1. rewrite Hhost.
      unfold bind at 1. rewrite importing_run, Hesc. reflexivity.
    + destruct (invoke_memory_resonance_ok self (input_state trajectory) w1)
        as (scores & w2 & Hres).
      unfold bind at 1. unfold gets at 1. rewrite Hhost.
      unfold bind at 1. rewrite importing_run, Hesc, Hres. mrun.
      eexists; eexists. split; [reflexivity |]. simpl.
      split; [exact Htid |].
      split.
      { split; [| discriminate]. intros Hb. exfalso.
        pose proof (navigation_label_not_blocked (input_state trajectory)
                      (_context_modulation (input_state trajectory) scores)
                      scores) as Hn.
        congruence. }
      intros _. exists w1, w2. rewrite Hstates. repeat split; auto.
Qed.

Lemma process_outcome_witness :
  (exists out w',
     process example_controller
       {| td_eps := Some (<["I" := 0.9%float]> (<["S" := 0.8%float]>
                          (<["H" := 0.3%float]> ∅)));
          td_trace_id := Some "trace-0"; td_source_modality := None;
          td_timestamp := None; td_debug_lineage := None |} example_world
     = (Ret out, w') /\
     WMControllerOutput.navigation_decision out <> "BLOCKED") /\
  (exists w',
     process example_controller_with_field
       {| td_eps := Some (<["I" := 0.9%float]> (<["S" := 0.8%float]>
                          (<["H" := 0.3%float]> ∅)));
          td_trace_id := Some "trace-0"; td_source_modality := None;
          td_timestamp := None; td_debug_lineage := None |}
       example_world_import_fails
     = (Raise (OtherError "NameError" "name 'List' is not defined"), w')).
Proof.
  split.
  - pose proof (process_outcome example_controller
                  {| td_eps := Some (<["I" := 0.9%float]>
                                     (<["S" := 0.8%float]>
                                     (<["H" := 0.3%float]> ∅)));
                     td_trace_id := Some "trace-0";
                     td_source_modality := None;
                     td_timestamp := None; td_debug_lineage := None |}
                  example_world) as H.
    cbv zeta in H.
    change (entropy_gate_fails example_controller _
            || safety_gate_fails example_controller _) with false in H.
    cbn [import_escapes example_controller WMController_init memory_fields]
      in H.
    destruct H as (out & w' & Hrun & _ & Hblocked & _).
    exists out, w'. split; [exact Hrun |].
    intros Hb. apply Hblocked in Hb. discriminate Hb.
  - pose proof (process_outcome example_controller_with_field
                  {| td_eps := Some (<["I" := 0.9%float]>
                                     (<["S" := 0.8%float]>
                                     (<["H" := 0.3%float]> ∅)));
                     td_trace_id := Some "trace-0";
                     td_source_modality := None;
                     td_timestamp := None; td_debug_lineage := None |}
                  example_world_import_fails) as H.
    cbv zeta in H.
    change (entropy_gate_fails example_controller_with_field _
            || safety_gate_fails example_controller_with_field _)
      with false in H.
    exact H.
Defined.

(** The router's two safety checks, that of the configured gate
    ([eps.S >= S_min]) and the local one (not [state.S < S_min]), decide
    alike on numbers when they use the same minimum.  They differ on a
    NaN, on which the gate's check fails and the local check passes. *)
Theorem safety_checks_agree_on_numbers
    (g : GateCore) (mf : list (string * option MemoryField))
    (hmax bmax : float) (st : EPS8State.t) :
  let smin := get_float (policy_config g) "S_min" 0.5 in
  let with_gate := {| wm_gatecore := Some g; memory_fields := mf;
                      H_max := hmax; S_min := smin; budget_max := bmax |} in
  let without_gate := {| wm_gatecore := None; memory_fields := mf;
                         H_max := hmax; S_min := smin; budget_max := bmax |} in
  (feq (EPS8State.S st) (EPS8State.S st) = true -> feq smin smin = true ->
   safety_gate_fails with_gate st = safety_gate_fails without_gate st) /\
  (feq (EPS8State.S st) (EPS8State.S st) = false ->
   safety_gate_fails with_gate st = true /\
   safety_gate_fails without_gate st = false).
Proof.
  cbv zeta. unfold safety_gate_fails. simpl. split.
  - intros HS Hmin.
    pose proof (fgt_negb_fle (get_float (policy_config g) "S_min" 0.5)
                  (EPS8State.S st) Hmin HS) as H.
    unfold fgt, fle in H. unfold flt, fge. rewrite H. reflexivity.
  - intros Hnan. unfold fge, flt.
    destruct (nan_compares_false (EPS8State.S st)
                (get_float (policy_config g) "S_min" 0.5) Hnan) as (H1 & H2).
    rewrite H1, H2. split; reflexivity.
Qed.

Lemma safety_checks_agree_on_numbers_witness :
  safety_gate_fails {| wm_gatecore := Some dummy_gatecore; memory_fields := [];
                       H_max := 0.62; S_min := 0.5; budget_max := 100.0 |}
    example_state
  = safety_gate_fails {| wm_gatecore := None; memory_fields := [];
                         H_max := 0.62; S_min := 0.5; budget_max := 100.0 |}
      example_state.
Proof.
  apply (proj1 (safety_checks_agree_on_numbers dummy_gatecore [] 0.62 100.0
                  example_state)); vm_compute; reflexivity.
Defined.

End RouterBehaviour.


(** ** The error handler's history *)

Section ErrorHandlerBehaviour.

(** [handle_error] always returns: it counts the error and appends one
    record to the history. *)
Lemma handle_error_ok eh phase e ctx sev w :
  exists r eh' w',
    handle_error eh phase e ctx sev w = (Ret (r, eh'), w') /\
    error_count eh' = (error_count eh + 1)%Z /\
    exists info, error_history eh' = error_history eh ++ [info] /\
                 ei_phase info = phase /\
                 ei_severity info = ErrorSeverity.value sev.
Proof.
  unfold handle_error. mrun.
  eexists; eexists; eexists. split; [reflexivity |]. simpl.
  split; [reflexivity |]. eexists. split; [reflexivity |].
  split; reflexivity.
Qed.

(** On every handler that arises from a fresh one by calls of
    [handle_error] and [clear_history], the counter [error_count] is the
    number of records in [error_history]; so [total_errors] of the
    summary is the number of recorded errors. *)
Theorem error_count_is_history_length (eh : ErrorHandler) :
  handler_reachable eh ->
  error_count eh = Z.of_nat (length (error_history eh)) /\
  total_errors (get_error_summary eh) = Z.of_nat (length (error_history eh)).
Proof.
  intros Hreach.
  assert (Hcount : error_count eh = Z.of_nat (length (error_history eh))).
  { induction Hreach as [| eh eh' phase e ctx sev w w' r _ IH Hrun | eh _ _].
    - reflexivity.
    - destruct (handle_error_ok eh phase e ctx sev w)
        as (r0 & eh0 & w0 & Hrun0 & Hc & info & Hh & _).
      rewrite Hrun in Hrun0.
      assert (Heq : eh' = eh0) by congruence. subst eh0.
      rewrite Hc, Hh, IH, length_app. simpl. lia.
    - reflexivity. }
  split; [exact Hcount | exact Hcount].
Qed.

Lemma error_count_is_history_length_witness :
  exists r eh' w',
    handle_error (clear_history RuntimeErrorHandler_init) "REASONING"
      (RuntimeError "boom") None ErrorSeverity.HIGH example_world
    = (Ret (r, eh'), w') /\
    error_count eh' = Z.of_nat (length (error_history eh')) /\
    total_errors (get_error_summary eh') = 1%Z.
Proof.
  destruct (handle_error_ok (clear_history RuntimeErrorHandler_init)
              "REASONING" (RuntimeError "boom") None ErrorSeverity.HIGH
              example_world)
    as (r & eh' & w' & Hrun & Hc & _).
  exists r, eh', w'. split; [exact Hrun |].
  split; [| exact Hc].
  apply (error_count_is_history_length eh').
  apply (reachable_handle _ _ _ _ _ _ _ _ _
           (reachable_clear _ reachable_init) Hrun).
Defined.

(** The counting loop adds, for each key, the number of records that
    carry it. *)
Lemma count_errors_fold (key : ErrorInfo -> string) (history : list ErrorInfo)
    (acc : gmap string Z) (k : string) :
  default 0%Z
    (fold_left (fun counts error =>
                  <[key error := (default 0%Z (counts !! key error) + 1)%Z]>
                    counts) history acc !! k)
  = (default 0%Z (acc !! k)
     + Z.of_nat (length (filter (fun i => key i = k) history)))%Z.
Proof.
  revert acc. induction history as [| x l IH]; intros acc.
  - simpl. lia.
  - simpl fold_left. rewrite IH.
    destruct (base.decide (key x = k)) as [Hk | Hk].
    + rewrite filter_cons_True by exact Hk.
      rewrite Hk, lookup_insert_eq. simpl. lia.
    + rewrite filter_cons_False by exact Hk.
      rewrite lookup_insert_ne by exact Hk. reflexivity.
Qed.

Lemma count_errors_dom (key : ErrorInfo -> string) (history : list ErrorInfo)
    (acc : gmap string Z) (k : string) :
  is_Some
    (fold_left (fun counts error =>
                  <[key error := (default 0%Z (counts !! key error) + 1)%Z]>
                    counts) history acc !! k)
  <-> is_Some (acc !! k) \/ exists i, i ∈ history /\ key i = k.
Proof.
  revert acc. induction history as [| x l IH]; intros acc.
  - simpl. split; [auto |]. intros [H | (i & Hi & _)]; [exact H |].
    inversion Hi.
  - simpl fold_left. rewrite IH. split.
    + intros [H | (i & Hi & Hk)].
      * destruct (base.decide (key x = k)) as [Hx | Hx].
        -- right. exists x. split; [left | exact Hx].
        -- left. rewrite lookup_insert_ne in H by exact Hx. exact H.
      * right. exists i. split; [right; exact Hi | exact Hk].
    + intros [H | (i & Hi & Hk)].
      * left. destruct (base.decide (key x = k)) as [Hx | Hx].
        -- rewrite Hx, lookup_insert_eq. eauto.
        -- rewrite lookup_insert_ne by exact Hx. exact H.
      * apply elem_of_cons in Hi. destruct Hi as [-> | Hi].
        -- left. rewrite Hk, lookup_insert_eq. eauto.
        -- right. exists i. split; assumption.
Qed.

(** The summary of a handler.  A phase (a severity) is a key of
    [error_by_phase] ([error_by_severity]) exactly when some recorded
    error carries it, and its count is the number of those records;
    [recent_errors] is the end of the history, ten records long or the
    whole history when that is shorter. *)
Theorem error_summary_counts (eh : ErrorHandler) :
  let s := get_error_summary eh in
  (forall p,
     (is_Some (error_by_phase s !! p)
      <-> exists i, i ∈ error_history eh /\ ei_phase i = p) /\
     default 0%Z (error_by_phase s !! p)
     = Z.of_nat (length (filter (fun i => ei_phase i = p) (error_history eh)))) /\
  (forall v,
     (is_Some (error_by_severity s !! v)
      <-> exists i, i ∈ error_history eh /\ ei_severity i = v) /\
     default 0%Z (error_by_severity s !! v)
     = Z.of_nat (length (filter (fun i => ei_severity i = v)
                           (error_history eh)))) /\
  length (recent_errors s) = Nat.min 10 (length (error_history eh)) /\
  exists older, error_history eh = older ++ recent_errors s.
Proof.
  cbv zeta. unfold get_error_summary, _count_errors_by_phase,
    _count_errors_by_severity, count_errors_by.
  cbn [total_errors recent_errors error_by_phase error_by_severity].
  split; [| split; [| split]].
  - intros p. split.
    + rewrite count_errors_dom. rewrite lookup_empty. split.
      * intros [[x Hx] | H]; [discriminate Hx | exact H].
      * intros H. right. exact H.
    + rewrite count_errors_fold, lookup_empty. simpl. lia.
  - intros v. split.
    + rewrite count_errors_dom. rewrite lookup_empty. split.
      * intros [[x Hx] | H]; [discriminate Hx | exact H].
      * intros H. right. exact H.
    + rewrite count_errors_fold, lookup_empty. simpl. lia.
  - destruct (error_history eh) as [| x l] eqn:Hh; [reflexivity |].
    rewrite length_drop. lia.
  - destruct (error_history eh) as [| x l] eqn:Hh.
    + exists []. reflexivity.
    + exists (take (length (x :: l) - 10) (x :: l)).
      symmetry. apply take_drop.
Qed.

End ErrorHandlerBehaviour.


(** ** Further properties of the runtime loop *)

Section LoopBehaviour.

(** The admission phase in terms of the adapter's [admit_with_trace]. *)
Lemma admission_phase_run
    (g : GateCore) (eps : EnergeticState.t) (o c : PyDict) (w : World) :
  match admit_with_trace g eps o c None w with
  | (Raise e, w1) =>
      _phase_trajectory_admission (Some g) true eps (Some o) (Some c) w
      = (Raise e, w1)
  | (Ret (t, r), w1) =>
      _phase_trajectory_admission (Some g) true eps (Some o) (Some c) w
      = if String.eqb (GateCoreResult.verdict r) "BLOCK" then
          (Ret None,
           set_log (log w1 ++
                      [(INFO, "Trajectory admission BLOCKED: "
                                +:+ GateCoreResult.reason r +:+ " (trace_id="
                                +:+ trace_id t +:+ ")")]) w1)
        else
          (Ret (Some (AdmittedTrajectory.mk (trace_id t) eps
                        (GateCoreResult.verdict r) (Some r)
                        (Some (GateCoreResult.metrics r)) (Some t))), w1)
  end.
Proof.
  destruct (create_trace_ok o c w)
    as (t0 & w1 & Hc & Hst & _).
  assert (Hfirst : (t <- create_trace o c ;; ret (Some t)) w
                   = (Ret (Some t0), w1)).
  { rewrite (bind_run _ _ _ _ _ Hc). reflexivity. }
  unfold _phase_trajectory_admission, admit_with_trace. cbv zeta.
  rewrite (bind_run _ _ _ _ _ Hc).
  rewrite (bind_run _ _ _ _ _ Hfirst). cbn [fmap option_fmap option_map].
  destruct (GateCore_admit g (convert_eps eps) (Some (trace_id t0)) None w1)
    as [[r | e] w2] eqn:Hg.
  - destruct (GateCore_admit_result _ _ _ _ _ _ _ Hg) as (Htid & _).
    rewrite (bind_run _ _ _ _ _ Hg).
    rewrite (bind_run (GateCore_admit g (convert_eps eps)
                         (Some (trace_id t0)) None) _ _ _ _ Hg).
    rewrite Htid.
    destruct (String.eqb (GateCoreResult.verdict r) "BLOCK") eqn:Hv.
    + assert (He : BLOCKED ∈ spec_allowed_edges (state t0))
        by (rewrite Hst; right; left).
      destruct (transition_trace_succeeds t0 BLOCKED (GateCoreResult.reason r)
                  (Some (gate_event_data r)) w2 He) as (t' & w3 & Ht).
      rewrite (bind_run _ _ _ _ _ Ht).
      assert (Hid : trace_id t' = trace_id t0).
      { apply transition_trace_ok in Ht. tauto. }
      mrun. rewrite Ht. rewrite Hv. rewrite Hid.
      destruct (truthy (VStr (trace_id t0))); reflexivity.
    + assert (He : ACTIVE ∈ spec_allowed_edges (state t0))
        by (rewrite Hst; left).
      destruct (transition_trace_succeeds t0 ACTIVE
                  ("GateCore " +:+ GateCoreResult.verdict r)
                  (Some (gate_event_data r)) w2 He) as (t' & w3 & Ht).
      rewrite (bind_run _ _ _ _ _ Ht).
      assert (Hid : trace_id t' = trace_id t0).
      { apply transition_trace_ok in Ht. tauto. }
      mrun. rewrite Ht. rewrite Hv. rewrite Hid.
      destruct (truthy (VStr (trace_id t0))); reflexivity.
  - rewrite (bind_raise _ _ _ _ _ Hg).
    rewrite (bind_raise (GateCore_admit g (convert_eps eps)
                           (Some (trace_id t0)) None) _ _ _ _ Hg).
    reflexivity.
Qed.


(** Under handlers that do not assign the loop's attributes, an
    exception that leaves a cycle was raised by the handler of the phase
    that [current_phase] names when the cycle ends, and the cycle left
    the running flag and the system state as they were.  So the record
    that [run] files for the exception names the phase that failed. *)
Theorem cycle_error_names_raising_phase
    (self : PhaseHandlers) (w w' : World) (e : PyExc) :
  handlers_keep_loop self ->
  _execute_cycle self w = (Raise e, w') ->
  handler_raised_at self (current_phase (loop w')) e w' /\
  running (loop w') = running (loop w) /\
  system_state (loop w') = system_state (loop w) /\
  (forall eh, error_handler w' = Some eh ->
     exists w'' info,
       run_except e w' = (Ret tt, w'') /\
       error_handler w''
       = Some {| error_count := (error_count eh + 1)%Z;
                 error_history := error_history eh ++ [info] |} /\
       ei_phase info = phase_name (current_phase (loop w'))).
Proof.
  intros Hkeep H.
  destruct (cycle_raise_at_phase self w w' e Hkeep H) as (Hat & Hrun & Hst).
  split; [exact Hat |]. split; [exact Hrun |]. split; [exact Hst |].
  intros eh Heh.
  destruct (run_except_ok e w') as (w'' & Hex & _ & Hrec & _).
  destruct (Hrec eh Heh) as (info & Hh & Hp & _).
  exists w'', info. auto.
Qed.


(** The admission phase of the loop, with a gate and a trajectory
    builder, does what [GateCoreAdapter.admit_with_trace] does and then
    reports: an error of the adapter is raised by the phase, a BLOCK
    verdict gives [None] and one more log line, and any other verdict
    gives the trajectory that carries the adapter's trace and result under
    the id of that trace. *)
Theorem admission_phase_agrees_with_adapter
    (g : GateCore) (eps : EnergeticState.t) (o c : PyDict) (w : World) :
  match admit_with_trace g eps o c None w with
  | (Raise e, w1) =>
      _phase_trajectory_admission (Some g) true eps (Some o) (Some c) w
      = (Raise e, w1)
  | (Ret (t, r), w1) =>
      _phase_trajectory_admission (Some g) true eps (Some o) (Some c) w
      = if String.eqb (GateCoreResult.verdict r) "BLOCK" then
          (Ret None,
           set_log (log w1 ++
                      [(INFO, "Trajectory admission BLOCKED: "
                                +:+ GateCoreResult.reason r +:+ " (trace_id="
                                +:+ trace_id t +:+ ")")]) w1)
        else
          (Ret (Some (AdmittedTrajectory.mk (trace_id t) eps
                        (GateCoreResult.verdict r) (Some r)
                        (Some (GateCoreResult.metrics r)) (Some t))), w1)
  end.
Proof. exact (admission_phase_run g eps o c w). Qed.

Lemma cycle_error_names_raising_phase_witness :
  exists e w',
    _execute_cycle faulting_handlers example_running_world = (Raise e, w') /\
    handler_raised_at faulting_handlers (current_phase (loop w')) e w' /\
    running (loop w') = true.
Proof.
  destruct (_execute_cycle faulting_handlers example_running_world)
    as [[u|e] w'] eqn:Hcycle.
  - vm_compute in Hcycle. discriminate Hcycle.
  - destruct (cycle_error_names_raising_phase faulting_handlers
                example_running_world w' e faulting_handlers_keep_loop Hcycle)
      as (Hat & Hrun & _).
    exists e, w'. split; [reflexivity |]. split; [exact Hat | exact Hrun].
Defined.

(** One cycle of a loop whose idle phase is the source's: nothing but the
    assignment of the phase happens. *)
Lemma idle_cycle (self : PhaseHandlers) (w : World) :
  _phase_idle self = _phase_idle_source ->
  _execute_cycle self w = (Ret tt, in_phase IDLE w).
Proof.
  intros Hidle. unfold _execute_cycle, set_current_phase. rewrite Hidle.
  unfold _phase_idle_source, in_phase. mrun. simpl.
  destruct (negb (String.eqb (system_state (loop w)) "running")); reflexivity.
Qed.

Lemma idle_run_loop (self : PhaseHandlers) (fuel : nat) (w : World) :
  _phase_idle self = _phase_idle_source ->
  running (loop w) = true ->
  run_loop self fuel w
  = (StillRunning, match fuel with O => w | S _ => in_phase IDLE w end).
Proof.
  intros Hidle. revert w. induction fuel as [| fuel IH]; intros w Hrun.
  - simpl. rewrite Hrun. reflexivity.
  - simpl. rewrite Hrun. rewrite (idle_cycle self w Hidle).
    rewrite IH by exact Hrun. destruct fuel; reflexivity.
Qed.

(** The loop as the source ships it never leaves the idle phase.  Its
    [_phase_idle] returns [None] whatever the system state is, so however
    long [run] goes on, the loop is still running, it has called no other
    phase handler, gate or clock, logged nothing after its start line and
    recorded no error; that [run] begins by setting the running flag makes
    a [stop] issued before it ineffective. *)
Theorem shipped_loop_never_leaves_idle
    (self : PhaseHandlers) (fuel : nat) (w : World) :
  _phase_idle self = _phase_idle_source ->
  exists w',
    run self fuel w = (StillRunning, w') /\
    run self fuel (snd (stop w)) = (StillRunning,
                                    set_log (log (snd (stop w))
                                             ++ [(INFO, "Runtime Loop started")])
                                      w') /\
    running (loop w') = true /\
    current_phase (loop w')
    = match fuel with O => current_phase (loop w) | S _ => IDLE end /\
    log w' = log w ++ [(INFO, "Runtime Loop started")] /\
    ticks w' = ticks w /\ uuids w' = uuids w /\
    gate_traces w' = gate_traces w /\
    error_handler w'
    = if error_handler_importable (host w)
      then Some RuntimeErrorHandler_init else None.
Proof.
  intros Hidle. unfold run, stop, set_running. mrun. simpl.
  rewrite !(idle_run_loop self fuel _ Hidle) by reflexivity.
  eexists. split; [reflexivity |].
  destruct fuel; simpl; repeat split; reflexivity.
Qed.

Lemma shipped_loop_never_leaves_idle_witness :
  fst (run (default_handlers (Some dummy_gatecore) true) 5 example_world)
  = StillRunning.
Proof.
  destruct (shipped_loop_never_leaves_idle
              (default_handlers (Some dummy_gatecore) true) 5 example_world
              eq_refl) as (w' & Hrun & _).
  rewrite Hrun. reflexivity.
Defined.


(** Assigning the phase and going on. *)
Lemma set_phase_run {A} (p : Phase) (k : M A) (w : World) :
  (set_current_phase p ;;; k) w = k (in_phase p w).
Proof. reflexivity. Qed.

(** One cycle of a loop with a gate, a trajectory builder and no
    module behind the later phases, on an input that passes the phases 0
    to 3.  What the adapter's admission does at that point decides the
    cycle.  If it raises, the cycle raises the same exception.  If the
    verdict is BLOCK, the cycle returns after two log lines, one of the
    admission phase and one naming the request, and no later phase runs.
    Otherwise the cycle runs to the end: it draws one identifier that it
    does not use, reads the clock five times, consults the gate no
    further and logs the completion of the trace that the admission
    created. *)
Theorem gated_cycle_outcome
    (idle : M (option PyVal))
    (sensory : RawInputEnvelope.t -> M OriginPack.t)
    (perception : OriginPack.t -> M EnergeticState.t) (g : GateCore)
    (w w1 w2 w3 w4 : World) (input_data : PyVal)
    (raw_input : RawInputEnvelope.t) (origin : OriginPack.t)
    (eps : EnergeticState.t) :
  let self := gated_handlers idle sensory perception g in
  idle (in_phase IDLE w) = (Ret (Some input_data), w1) ->
  _phase_input_intake_source input_data (in_phase INPUT_INTAKE w1)
  = (Ret raw_input, w2) ->
  sensory raw_input (in_phase SENSORY_ADAPTATION w2) = (Ret origin, w3) ->
  perception origin (in_phase PERCEPTION_BOUNDARY w3) = (Ret eps, w4) ->
  match admit_with_trace g eps (cycle_origin_info raw_input origin)
          cycle_context_info None (in_phase TRAJECTORY_ADMISSION w4) with
  | (Raise e, w5) => _execute_cycle self w = (Raise e, w5)
  | (Ret (t, r), w5) =>
      _execute_cycle self w
      = (Ret tt,
         if String.eqb (GateCoreResult.verdict r) "BLOCK" then
           set_log (log w5 ++
                      [(INFO, "Trajectory admission BLOCKED: "
                                +:+ GateCoreResult.reason r +:+ " (trace_id="
                                +:+ trace_id t +:+ ")");
                       (INFO, "Trajectory blocked: "
                                +:+ RawInputEnvelope.request_id raw_input)]) w5
         else
           set_log (log w5 ++
                      [(INFO, "Trace " +:+ trace_id t +:+ " completed")])
             (set_ticks (5 + ticks w5)
                (set_uuids (S (uuids w5)) (in_phase POST_PROCESSING w5))))
  end.
Proof.
  cbv zeta. intros H0 H1 H2 H3.
  pose proof (admission_phase_run g eps (cycle_origin_info raw_input origin)
                cycle_context_info (in_phase TRAJECTORY_ADMISSION w4)) as Hadm.
  unfold _execute_cycle, gated_handlers.
  cbn [_phase_idle _phase_input_intake _phase_sensory_adaptation
       _phase_perception_boundary _phase_admission
       _phase_working_memory_control _phase_reasoning _phase_decision
       _phase_action_output _phase_post_processing].
  rewrite set_phase_run, (bind_run _ _ _ _ _ H0).
  rewrite set_phase_run, (bind_run _ _ _ _ _ H1).
  rewrite set_phase_run, (bind_run _ _ _ _ _ H2).
  rewrite set_phase_run, (bind_run _ _ _ _ _ H3).
  rewrite set_phase_run. cbv zeta.
  fold (cycle_origin_info raw_input origin). fold cycle_context_info.
  destruct (admit_with_trace g eps (cycle_origin_info raw_input origin)
              cycle_context_info None (in_phase TRAJECTORY_ADMISSION w4))
    as [[[t r] | e] w5].
  - destruct (String.eqb (GateCoreResult.verdict r) "BLOCK").
    + rewrite (bind_run _ _ _ _ _ Hadm). unfold logger_info, logger_log, modify.
      simpl. rewrite <- app_assoc. reflexivity.
    + rewrite (bind_run _ _ _ _ _ Hadm).
      unfold set_current_phase, _phase_working_memory_control_fallback,
        _phase_reasoning_fallback, _phase_decision_fallback,
        _phase_action_output_fallback, _phase_post_processing_fallback.
      mrun. reflexivity.
  - rewrite (bind_raise _ _ _ _ _ Hadm). reflexivity.
Qed.


Lemma gated_cycle_outcome_witness :
  exists w',
    _execute_cycle
      (gated_handlers (ret (Some (VStr "ping")))
         _phase_sensory_adaptation_fallback (fun _ => ret example_eps)
         dummy_gatecore) example_running_world
    = (Ret tt, w') /\
    current_phase (loop w') = POST_PROCESSING /\
    List.last (log w') (INFO, "") = (INFO, "Trace trace-0 completed").
Proof.
  pose proof (gated_cycle_outcome (ret (Some (VStr "ping")))
                _phase_sensory_adaptation_fallback (fun _ => ret example_eps)
                dummy_gatecore example_running_world
                (in_phase IDLE example_running_world)
                (set_ticks 1 (set_uuids 1
                   (in_phase INPUT_INTAKE example_running_world)))
                (in_phase SENSORY_ADAPTATION
                   (set_ticks 1 (set_uuids 1 example_running_world)))
                (in_phase PERCEPTION_BOUNDARY
                   (set_ticks 1 (set_uuids 1 example_running_world)))
                (VStr "ping") example_raw_input example_origin_pack
                example_eps eq_refl eq_refl eq_refl eq_refl) as H.
  destruct (admit_with_trace dummy_gatecore example_eps
              (cycle_origin_info example_raw_input example_origin_pack)
              cycle_context_info None
              (in_phase TRAJECTORY_ADMISSION
                 (in_phase PERCEPTION_BOUNDARY
                    (set_ticks 1 (set_uuids 1 example_running_world)))))
    as [[[t r] | e] w5] eqn:Ha.
  - assert (Hv : GateCoreResult.verdict r = "ALLOW" /\ trace_id t = "trace-0").
    { apply (f_equal (fun x => match fst x with
                               | Ret (t, r) =>
                                   (GateCoreResult.verdict r, trace_id t)
                               | Raise _ => ("", "")
                               end)) in Ha.
      vm_compute in Ha.
      split; [exact (eq_sym (f_equal fst Ha))
             | exact (eq_sym (f_equal snd Ha))]. }
    destruct Hv as (Hv & Ht). rewrite Hv, Ht in H.
    eexists. split; [exact H |]. split; [reflexivity |].
    unfold set_log. cbn [log]. apply List.last_last.
  - vm_compute in Ha. discriminate Ha.
Defined.

End LoopBehaviour.


(** ** The import of the memory package *)

Section MemoryImport.

(** The per-field handler of [_invoke_memory_resonance] does not cover
    its import statement.  When the import succeeds or raises an
    [ImportError], or when no memory field is configured (the import is
    then not reached), the resonance step is the loop over the fields,
    which always returns.  When fields are configured and the import
    raises anything else, the step raises that exception before any field
    is queried or anything is logged. *)
Theorem memory_import_failure_escapes
    (imp : ImportOutcome) (self : WMController) (st : EPS8State.t)
    (w : World) :
  (match imp with
   | Imported => True
   | ImportRaised e => is_ImportError e = true \/ memory_fields self = []
   end ->
   _invoke_memory_resonance_importing imp self st w
   = _invoke_memory_resonance self st w /\
   exists scores w',
     _invoke_memory_resonance_importing imp self st w = (Ret scores, w')) /\
  (forall e, imp = ImportRaised e -> is_ImportError e = false ->
             memory_fields self <> [] ->
             _invoke_memory_resonance_importing imp self st w = (Raise e, w)).
Proof.
  split.
  - intros Himp.
    assert (Heq : _invoke_memory_resonance_importing imp self st w
                  = _invoke_memory_resonance self st w).
    { unfold _invoke_memory_resonance_importing, _invoke_memory_resonance.
      destruct (memory_fields self) as [| f rest] eqn:Hf; [reflexivity |].
      destruct imp as [| e]; [reflexivity |].
      destruct Himp as [He | Hnil]; [rewrite He; reflexivity | discriminate]. }
    split; [exact Heq |]. rewrite Heq.
    apply invoke_memory_resonance_ok.
  - intros e -> He Hne.
    unfold _invoke_memory_resonance_importing.
    destruct (memory_fields self) as [| f rest]; [contradiction |].
    rewrite He. reflexivity.
Qed.

End MemoryImport.


(** ** The memory fields *)

Section MemoryResonance.

(** From [0 <= a] and [a < r] follows [0 <= r]. *)
Lemma fle_zero_lt (a r : float) :
  fle 0.0 a = true -> fgt r a = true -> fle 0.0 r = true.
Proof.
  unfold fle, fgt. rewrite !leb_spec, ltb_spec.
  change (Prim2SF 0.0) with (S754_zero false).
  unfold SFleb, SFltb.
  destruct (Prim2SF a) as [sa | sa | | sa ma ea],
           (Prim2SF r) as [sr | sr | | sr mr er]; simpl;
    try (destruct sa); try (destruct sr); simpl;
    intros H1 H2; try discriminate; reflexivity.
Qed.

(** [x < y] gives [x <= y]. *)
Lemma flt_fle (x y : float) : flt x y = true -> fle x y = true.
Proof.
  unfold flt, fle. rewrite leb_spec, ltb_spec. unfold SFleb, SFltb.
  destruct (SFcompare (Prim2SF x) (Prim2SF y)) as [[]|];
    intros H; try discriminate H; reflexivity.
Qed.

Lemma py_max_nonneg (a r : float) :
  fle 0.0 a = true -> fle 0.0 (py_max a r) = true.
Proof.
  intros Ha. unfold py_max. destruct (fgt r a) eqn:Hr; [| exact Ha].
  exact (fle_zero_lt a r Ha Hr).
Qed.

Lemma bind_lift {A B} (r : Res A) (k : A -> M B) (w : World) :
  bind (lift_res r) k w
  = match r with Ret a => k a w | Raise e => (Raise e, w) end.
Proof. destruct r; reflexivity. Qed.

(** The loop keeps its maximum at or above zero. *)
Lemma resonance_scan_nonneg {Item : Type} (lib : MathLib)
    (to_vector : Item -> option (list float)) (phase_of : Item -> float)
    (st : EPS8State.t) (sv : list float) (items : list Item) (acc : float)
    (w w' : World) (x : float) :
  fle 0.0 acc = true ->
  resonance_scan lib to_vector phase_of st sv items acc w = (Ret x, w') ->
  fle 0.0 x = true.
Proof.
  revert acc w. induction items as [| m rest IH]; intros acc w Hacc Hrun.
  - simpl in Hrun. unfold ret in Hrun.
    assert (Hx : x = acc) by congruence. subst x. exact Hacc.
  - simpl in Hrun. destruct (to_vector m) as [mv |].
    + destruct (_cosine_similarity lib sv mv w) as [[c | e] w1] eqn:Hc.
      * rewrite (bind_run _ _ _ _ _ Hc) in Hrun. cbv zeta in Hrun.
        rewrite bind_lift in Hrun.
        destruct (math_exp lib _) as [p | e].
        -- apply (IH _ _ (py_max_nonneg acc _ Hacc) Hrun).
        -- discriminate Hrun.
      * rewrite (bind_raise _ _ _ _ _ Hc) in Hrun. discriminate Hrun.
    + apply (IH _ _ Hacc Hrun).
Qed.

(** What the identity field makes of a similarity. *)
Lemma clamp_unit (c : float) :
  let r := py_max 0.0 (py_min 1.0 c) in
  fle 0.0 r = true /\ fle r 1.0 = true /\
  (feq c c = false -> r = 1.0%float).
Proof.
  cbv zeta. unfold py_max, py_min.
  destruct (flt c 1.0) eqn:H1.
  - destruct (fgt c 0.0) eqn:H0.
    + split; [apply flt_fle; exact H0 |]. split; [apply flt_fle; exact H1 |].
      intros Hnan. destruct (nan_compares_false c 1.0 Hnan) as (_ & H).
      unfold flt in H1. congruence.
    + split; [reflexivity |]. split; [reflexivity |].
      intros Hnan. destruct (nan_compares_false c 1.0 Hnan) as (_ & H).
      unfold flt in H1. congruence.
  - change (fgt 1.0 0.0) with true. cbv iota.
    split; [reflexivity |]. split; reflexivity.
Qed.

(** No field of the repository returns a negative score or a NaN. *)
Lemma repo_query_nonneg
    (lib : MathLib) (q : EPS8State.t -> string -> M float)
    (st : EPS8State.t) (tid : string) (w w' : World) (x : float) :
  repo_query lib q ->
  q st tid w = (Ret x, w') ->
  fle 0.0 x = true /\ feq x x = true.
Proof.
  intros Hq Hrun.
  assert (Hx : fle 0.0 x = true).
  { destruct Hq as [memories | memories | action_states | baselines].
    - unfold EpisodicField.query_resonance in Hrun.
      destruct memories as [| m rest].
      + unfold ret in Hrun. assert (x = 0.0%float) by congruence.
        subst x. reflexivity.
      + eapply resonance_scan_nonneg; [| exact Hrun]. reflexivity.
    - unfold SemanticField.query_resonance in Hrun.
      destruct memories as [| m rest].
      + unfold ret in Hrun. assert (x = 0.0%float) by congruence.
        subst x. reflexivity.
      + eapply resonance_scan_nonneg; [| exact Hrun]. reflexivity.
    - unfold ProceduralField.query_resonance in Hrun.
      destruct action_states as [| m rest].
      + unfold ret in Hrun. assert (x = 0.0%float) by congruence.
        subst x. reflexivity.
      + eapply resonance_scan_nonneg; [| exact Hrun]. reflexivity.
    - unfold IdentityField.query_resonance in Hrun.
      destruct (bool_decide (baselines = ∅)).
      + unfold ret in Hrun. assert (x = 0.5%float) by congruence.
        subst x. reflexivity.
      + destruct (_cosine_similarity lib (_eps8_to_vector st)
                    (IdentityField._baselines_to_vector baselines) w)
          as [[c | e] w1] eqn:Hc.
        * rewrite (bind_run _ _ _ _ _ Hc) in Hrun. unfold ret in Hrun.
          assert (x = py_max 0.0 (py_min 1.0 c)) by congruence. subst x.
          apply clamp_unit.
        * rewrite (bind_raise _ _ _ _ _ Hc) in Hrun. discriminate Hrun. }
  split; [exact Hx |].
  destruct (feq x x) eqn:Hnan; [reflexivity |].
  destruct (nan_compares_false x 0.0 Hnan) as (H & _).
  unfold fle in Hx. congruence.
Qed.


(** A score that a memory field of the repository returns is a number at
    or above zero, never a NaN and never negative, whatever is stored,
    whatever the queried state is and however [exp] and [sum] round: the
    running maximum starts at 0.0 and is replaced only by a greater
    value, and the identity field clamps from below. *)
Theorem field_resonance_not_negative
    (lib : MathLib) (q : EPS8State.t -> string -> M float)
    (st : EPS8State.t) (tid : string) (w w' : World) (x : float) :
  repo_query lib q ->
  q st tid w = (Ret x, w') ->
  fle 0.0 x = true /\ feq x x = true.
Proof. exact (repo_query_nonneg lib q st tid w w' x). Qed.

Lemma field_resonance_not_negative_witness :
  exists x w',
    EpisodicField.query_resonance example_mathlib example_memories
      example_state "" example_world = (Ret x, w') /\
    fle 0.0 x = true.
Proof.
  destruct (EpisodicField.query_resonance example_mathlib example_memories
              example_state "" example_world) as [[x | e] w'] eqn:Hrun.
  - exists x, w'. split; [reflexivity |].
    apply (field_resonance_not_negative example_mathlib _ example_state ""
             example_world w' x (episodic_query _ example_memories) Hrun).
  - vm_compute in Hrun. discriminate Hrun.
Defined.

(** The identity field.  Without baselines its score is 0.5.  With
    baselines it is the similarity of the state to them clamped into
    [0, 1], whenever the similarity can be computed; a similarity that is
    a NaN is turned into the full score 1.0, since [min(1.0, nan)] is
    1.0. *)
Theorem identity_resonance_clamped
    (lib : MathLib) (baselines : gmap string float)
    (st : EPS8State.t) (tid : string) (w w' : World) (x : float) :
  IdentityField.query_resonance lib baselines st tid w = (Ret x, w') ->
  fle 0.0 x = true /\ fle x 1.0 = true /\
  (baselines = ∅ -> x = 0.5%float /\ w' = w) /\
  (baselines <> ∅ ->
   exists c,
     _cosine_similarity lib (_eps8_to_vector st)
       (IdentityField._baselines_to_vector baselines) w = (Ret c, w') /\
     x = py_max 0.0 (py_min 1.0 c) /\
     (feq c c = false -> x = 1.0%float)).
Proof.
  unfold IdentityField.query_resonance. intros Hrun.
  destruct (bool_decide (baselines = ∅)) eqn:Hb.
  - apply bool_decide_eq_true in Hb. unfold ret in Hrun.
    assert (Hx : x = 0.5%float) by congruence.
    assert (Hw : w' = w) by congruence. subst x.
    split; [reflexivity |]. split; [reflexivity |].
    split; [auto | contradiction].
  - apply bool_decide_eq_false in Hb.
    destruct (_cosine_similarity lib (_eps8_to_vector st)
                (IdentityField._baselines_to_vector baselines) w)
      as [[c | e] w1] eqn:Hc.
    + rewrite (bind_run _ _ _ _ _ Hc) in Hrun. unfold ret in Hrun.
      assert (Hx : x = py_max 0.0 (py_min 1.0 c)) by congruence.
      assert (Hw : w1 = w') by congruence. subst x w1.
      destruct (clamp_unit c) as (H0 & H1 & Hnan).
      split; [exact H0 |]. split; [exact H1 |].
      split; [contradiction |]. intros _. exists c. auto.
    + rewrite (bind_raise _ _ _ _ _ Hc) in Hrun. discriminate Hrun.
Qed.

Lemma identity_resonance_clamped_witness :
  exists x w',
    IdentityField.query_resonance example_mathlib
      (<["I" := 0.9%float]> ∅) example_state "" example_world
    = (Ret x, w') /\
    fle 0.0 x = true /\ fle x 1.0 = true.
Proof.
  destruct (IdentityField.query_resonance example_mathlib
              (<["I" := 0.9%float]> ∅) example_state "" example_world)
    as [[x | e] w'] eqn:Hrun.
  - exists x, w'. split; [reflexivity |].
    destruct (identity_resonance_clamped _ _ _ _ _ _ _ Hrun)
      as (H0 & H1 & _).
    split; assumption.
  - vm_compute in Hrun. discriminate Hrun.
Defined.

(** The scores that the router's loop records satisfy what holds of 0.0
    and of every score a field returns. *)
Lemma resonance_loop_scores (P : float -> Prop)
    (fields : list (string * option MemoryField)) (st : EPS8State.t)
    (acc scores : gmap string float) (w w' : World) :
  P 0.0%float ->
  (forall name q, (name, Some (FieldQuery q)) ∈ fields ->
     forall tid w0 x w1, q st tid w0 = (Ret x, w1) -> P x) ->
  (forall k x, acc !! k = Some x -> P x) ->
  resonance_loop fields st acc w = (Ret scores, w') ->
  forall k x, scores !! k = Some x -> P x.
Proof.
  intros H0. revert acc w.
  induction fields as [| [name [f |]] rest IH]; intros acc w Hq Hacc Hrun.
  - simpl in Hrun. unfold ret in Hrun.
    assert (scores = acc) by congruence. subst scores. exact Hacc.
  - simpl in Hrun.
    match type of Hrun with
    | bind (query_or_zero name ?c) _ _ = _ =>
        destruct (query_or_zero_ok name c w) as (y & w1 & Hy & Hzero);
        assert (Hy' : P y);
        [ unfold query_or_zero in Hy;
          destruct (c w) as [[z | e] w2] eqn:Hc | ]
    end.
    + assert (y = z) by congruence. subst z.
      destruct f as [| q].
      * mrun_in Hc. assert (y = 0.0%float) by congruence. subst y. exact H0.
      * apply (Hq name q ltac:(left) "" w y w2 Hc).
    + mrun_in Hy. assert (y = 0.0%float) by congruence. subst y. exact H0.
    + rewrite (bind_run _ _ _ _ _ Hy) in Hrun.
      apply (IH (<[name := y]> acc) w1); [| | exact Hrun].
      * intros n q Hin. apply (Hq n q). right. exact Hin.
      * intros k x Hk. destruct (base.decide (k = name)) as [-> | Hne].
        -- rewrite lookup_insert_eq in Hk. congruence.
        -- rewrite lookup_insert_ne in Hk by congruence. eauto.
  - simpl in Hrun. apply (IH acc w); [| exact Hacc | exact Hrun].
    intros n q Hin. apply (Hq n q). right. exact Hin.
Qed.

(** With memory fields of the repository behind it, the router records
    only scores that are numbers at or above zero: a field's score is
    one, and a field that raises, or has no [query_resonance], is scored
    0.0.  So no NaN reaches the modulation and the navigation decision
    from the memory fields. *)
Theorem router_scores_not_negative
    (lib : MathLib) (self : WMController) (st : EPS8State.t) (w : World) :
  (forall name q, (name, Some (FieldQuery q)) ∈ memory_fields self ->
                  repo_query lib q) ->
  exists scores w',
    _invoke_memory_resonance self st w = (Ret scores, w') /\
    forall name x, scores !! name = Some x ->
                   fle 0.0 x = true /\ feq x x = true.
Proof.
  intros Hrepo.
  destruct (invoke_memory_resonance_ok self st w) as (scores & w' & Hrun).
  exists scores, w'. split; [exact Hrun |].
  unfold _invoke_memory_resonance in Hrun.
  apply (resonance_loop_scores
           (fun x => fle 0.0 x = true /\ feq x x = true)
           (memory_fields self) st ∅ scores w w').
  - split; reflexivity.
  - intros name q Hin tid w0 x w1 Hq.
    apply (repo_query_nonneg lib q st tid w0 w1 x (Hrepo name q Hin) Hq).
  - intros k x Hk. rewrite lookup_empty in Hk. discriminate Hk.
  - exact Hrun.
Qed.

Lemma router_scores_not_negative_witness :
  exists scores w',
    _invoke_memory_resonance
      (WMController_init None
         [("episodic",
           Some (FieldQuery
                   (EpisodicField.query_resonance example_mathlib
                      example_memories)))] ∅)
      example_state example_world = (Ret scores, w') /\
    forall name x, scores !! name = Some x -> fle 0.0 x = true.
Proof.
  destruct (router_scores_not_negative example_mathlib
              (WMController_init None
                 [("episodic",
                   Some (FieldQuery
                           (EpisodicField.query_resonance example_mathlib
                              example_memories)))] ∅)
              example_state example_world) as (scores & w' & Hrun & Hpos).
  - intros name q Hin. apply elem_of_cons in Hin.
    destruct Hin as [Hin | Hin]; [| inversion Hin].
    assert (Hq : q = EpisodicField.query_resonance example_mathlib
                       example_memories) by congruence.
    subst q. apply episodic_query.
  - exists scores, w'. split; [exact Hrun |].
    intros name x Hx. apply (Hpos name x Hx).
Defined.

End MemoryResonance.


(** ** The trajectory builder *)

Section BuilderBehaviour.

Lemma build_run (self : TrajectoryBuilder.t) (heap : ListHeap) (w : World) :
  TrajectoryBuilder.build self heap w
  = match TrajectoryBuilder.trajectory_id self with
    | None =>
        (Ret ({| br_trace_id := uuid_src (host w) (uuids w);
                 br_states := TrajectoryBuilder.states self;
                 br_state_count :=
                   length (heap !!! TrajectoryBuilder.states self) |},
              {| TrajectoryBuilder.trajectory_id :=
                   Some (uuid_src (host w) (uuids w));
                 TrajectoryBuilder.states := TrajectoryBuilder.states self;
                 TrajectoryBuilder.origin := TrajectoryBuilder.origin self;
                 TrajectoryBuilder.context := TrajectoryBuilder.context self |}),
         set_uuids (S (uuids w)) w)
    | Some tid =>
        (Ret ({| br_trace_id := tid;
                 br_states := TrajectoryBuilder.states self;
                 br_state_count :=
                   length (heap !!! TrajectoryBuilder.states self) |}, self),
         w)
    end.
Proof.
  unfold TrajectoryBuilder.build.
  destruct (TrajectoryBuilder.trajectory_id self) as [tid |] eqn:Hid.
  - mrun. rewrite Hid. reflexivity.
  - mrun. reflexivity.
Qed.

(** The legacy [build] draws the trajectory's identifier once.  The first
    call after [__init__] or [reset] takes the next identifier from
    [uuid4]; every later call, whatever was appended in between, returns
    that identifier again and draws none, until [reset] forgets it. *)
Theorem build_draws_identifier_once
    (self : TrajectoryBuilder.t) (heap heap' : ListHeap) (w : World) :
  TrajectoryBuilder.trajectory_id self = None ->
  exists r1 self1 w1,
    TrajectoryBuilder.build self heap w = (Ret (r1, self1), w1) /\
    br_trace_id r1 = uuid_src (host w) (uuids w) /\
    uuids w1 = S (uuids w) /\
    (forall st, TrajectoryBuilder.build self1
                  (TrajectoryBuilder.append_state self1 st heap') w1
                = (Ret ({| br_trace_id := br_trace_id r1;
                           br_states := br_states r1;
                           br_state_count :=
                             S (length (heap' !!! br_states r1)) |}, self1),
                   w1)) /\
    exists r2 self2 w2,
      TrajectoryBuilder.build
        (fst (TrajectoryBuilder.reset self1 heap'))
        (snd (TrajectoryBuilder.reset self1 heap')) w1
      = (Ret (r2, self2), w2) /\
      br_trace_id r2 = uuid_src (host w) (S (uuids w)) /\
      br_state_count r2 = 0.
Proof.
  intros Hnone. rewrite build_run, Hnone.
  eexists; eexists; eexists. split; [reflexivity |].
  split; [reflexivity |]. split; [reflexivity |]. split.
  - intros st. rewrite build_run. cbn [TrajectoryBuilder.trajectory_id
      TrajectoryBuilder.states br_trace_id br_states].
    unfold TrajectoryBuilder.append_state.
    cbn [TrajectoryBuilder.states].
    rewrite lookup_total_insert_eq, length_app. simpl.
    rewrite Nat.add_1_r. reflexivity.
  - rewrite build_run. unfold TrajectoryBuilder.reset.
    cbn [fst snd TrajectoryBuilder.trajectory_id TrajectoryBuilder.states].
    eexists; eexists; eexists. split; [reflexivity |].
    split; [reflexivity |].
    cbn [br_state_count]. rewrite lookup_total_insert_eq. reflexivity.
Qed.

Lemma build_draws_identifier_once_witness :
  exists r1 self1 w1,
    TrajectoryBuilder.build (fst (TrajectoryBuilder.init ∅))
      (snd (TrajectoryBuilder.init ∅)) example_world
    = (Ret (r1, self1), w1) /\
    br_trace_id r1 = "trace-0" /\ uuids w1 = 1.
Proof.
  destruct (build_draws_identifier_once (fst (TrajectoryBuilder.init ∅))
              (snd (TrajectoryBuilder.init ∅)) ∅ example_world eq_refl)
    as (r1 & self1 & w1 & Hrun & Hid & Hu & _).
  exists r1, self1, w1. split; [exact Hrun |]. split; [exact Hid | exact Hu].
Defined.

(** The dictionary that [build] returns holds the builder's own list, not
    a copy, and a count taken when it was built.  So a state appended
    afterwards shows in the list of the dictionary returned earlier, whose
    ["state_count"] is then one too small, whereas the list of a
    trajectory made by [build_trajectory] is a copy that a later append
    leaves alone; and after [reset] the builder works on a new list, so
    that the dictionary returned earlier no longer changes. *)
Theorem build_result_shares_states
    (self : TrajectoryBuilder.t) (heap : ListHeap) (w w' : World)
    (r : BuildResult) (self' : TrajectoryBuilder.t) (trace : Trace)
    (source_modality : string) (st : PyDict) :
  is_Some (heap !! TrajectoryBuilder.states self) ->
  TrajectoryBuilder.build self heap w = (Ret (r, self'), w') ->
  br_state_count r = length (heap !!! br_states r) /\
  (let heap1 := TrajectoryBuilder.append_state self' st heap in
   heap1 !!! br_states r = (heap !!! br_states r) ++ [st] /\
   length (heap1 !!! br_states r) = S (br_state_count r)) /\
  (let traj := fst (TrajectoryBuilder.build_trajectory self' trace
                      source_modality heap) in
   let heap1 := snd (TrajectoryBuilder.build_trajectory self' trace
                       source_modality heap) in
   heap1 !!! bt_states traj = heap !!! br_states r /\
   TrajectoryBuilder.append_state self' st heap1 !!! bt_states traj
   = heap !!! br_states r) /\
  (let self2 := fst (TrajectoryBuilder.reset self' heap) in
   let heap2 := snd (TrajectoryBuilder.reset self' heap) in
   TrajectoryBuilder.append_state self2 st heap2 !!! br_states r
   = heap !!! br_states r /\
   TrajectoryBuilder.append_state self2 st heap2
     !!! TrajectoryBuilder.states self2 = [st]).
Proof.
  intros Hlive Hrun. rewrite build_run in Hrun.
  assert (Hfresh : fresh (dom heap) <> TrajectoryBuilder.states self).
  { intros Heq. apply (is_fresh (dom heap)). rewrite Heq.
    apply elem_of_dom. exact Hlive. }
  assert (Hr : br_states r = TrajectoryBuilder.states self /\
               TrajectoryBuilder.states self' = TrajectoryBuilder.states self /\
               br_state_count r
               = length (heap !!! TrajectoryBuilder.states self)).
  { destruct (TrajectoryBuilder.trajectory_id self);
      inversion Hrun; subst; cbn; repeat split; reflexivity. }
  destruct Hr as (Hrs & Hss & Hcount).
  unfold TrajectoryBuilder.append_state, TrajectoryBuilder.build_trajectory,
    TrajectoryBuilder.reset.
  cbn [fst snd bt_states TrajectoryBuilder.states].
  rewrite Hrs, Hss, Hcount.
  split; [reflexivity |]. split; [| split].
  - cbv zeta. rewrite lookup_total_insert_eq, length_app. simpl.
    split; [reflexivity | lia].
  - cbv zeta. rewrite lookup_total_insert_eq. split; [reflexivity |].
    rewrite lookup_total_insert_ne by congruence.
    rewrite lookup_total_insert_eq. reflexivity.
  - cbv zeta. rewrite lookup_total_insert_eq.
    rewrite lookup_total_insert_ne by congruence.
    rewrite lookup_total_insert_ne by congruence.
    rewrite lookup_total_insert_eq. split; reflexivity.
Qed.


Lemma build_result_shares_states_witness :
  exists r self' w',
    TrajectoryBuilder.build (fst (TrajectoryBuilder.init ∅))
      (snd (TrajectoryBuilder.init ∅)) example_world
    = (Ret (r, self'), w') /\
    length (TrajectoryBuilder.append_state self' example_origin
              (snd (TrajectoryBuilder.init ∅)) !!! br_states r)
    = S (br_state_count r).
Proof.
  destruct (TrajectoryBuilder.build (fst (TrajectoryBuilder.init ∅))
              (snd (TrajectoryBuilder.init ∅)) example_world)
    as [[[r self'] | e] w'] eqn:Hrun.
  - exists r, self', w'. split; [reflexivity |].
    refine (proj2 (proj1 (proj2
              (build_result_shares_states _ _ _ _ r self'
                 example_created_trace "text" example_origin _ Hrun)))).
    unfold TrajectoryBuilder.init. cbn [fst snd TrajectoryBuilder.states].
    rewrite lookup_insert_eq. eauto.
  - rewrite build_run in Hrun. discriminate Hrun.
Defined.

End BuilderBehaviour.


(** ** The loop with a working-memory controller *)

Section ControllerInLoop.

(** Handed the dictionary of the admission phase, the controller cannot
    read the state: the loop stores an [EnergeticState] instance under
    ["eps"] where [_dict_to_trajectory] expects a mapping.  So with a
    controller configured, every cycle that admits its input ends in
    phase 5 with an [AttributeError], before any gate of the controller is
    evaluated or any memory field queried; [run] files the error under
    WORKING_MEMORY_CONTROL and goes on, and no such cycle reaches
    reasoning, action or post-processing.  Without a controller the phase
    passes the trajectory through. *)
Theorem controller_rejects_admitted_trajectory
    (self : PhaseHandlers) (controller : WMController)
    (w w1 w2 w3 w4 w5 : World) (input_data : PyVal)
    (raw_input : RawInputEnvelope.t) (origin : OriginPack.t)
    (eps : EnergeticState.t) (trajectory : AdmittedTrajectory.t) :
  _phase_working_memory_control self
  = _phase_working_memory_control_source (Some controller) ->
  _phase_idle self (in_phase IDLE w) = (Ret (Some input_data), w1) ->
  _phase_input_intake self input_data (in_phase INPUT_INTAKE w1)
  = (Ret raw_input, w2) ->
  _phase_sensory_adaptation self raw_input (in_phase SENSORY_ADAPTATION w2)
  = (Ret origin, w3) ->
  _phase_perception_boundary self origin (in_phase PERCEPTION_BOUNDARY w3)
  = (Ret eps, w4) ->
  _phase_admission self eps (Some (cycle_origin_info raw_input origin))
    (Some cycle_context_info) (in_phase TRAJECTORY_ADMISSION w4)
  = (Ret (Some trajectory), w5) ->
  let err := OtherError "AttributeError"
               "'EnergeticState' object has no attribute 'get'" in
  _execute_cycle self w = (Raise err, in_phase WORKING_MEMORY_CONTROL w5) /\
  (forall v, _phase_working_memory_control_source (Some controller) trajectory v
             = (Raise err, v)) /\
  (forall v, _phase_working_memory_control_source None trajectory v
             = (Ret (WMPassThrough trajectory), v)) /\
  (forall eh, error_handler w5 = Some eh ->
     exists w'' info,
       run_except err (in_phase WORKING_MEMORY_CONTROL w5) = (Ret tt, w'') /\
       error_handler w''
       = Some {| error_count := (error_count eh + 1)%Z;
                 error_history := error_history eh ++ [info] |} /\
       ei_phase info = "WORKING_MEMORY_CONTROL" /\
       ei_error_type info = "AttributeError").
Proof.
  cbv zeta. intros Hwm H0 H1 H2 H3 H4.
  split; [| split; [| split]].
  - unfold _execute_cycle.
    rewrite set_phase_run, (bind_run _ _ _ _ _ H0).
    rewrite set_phase_run, (bind_run _ _ _ _ _ H1).
    rewrite set_phase_run, (bind_run _ _ _ _ _ H2).
    rewrite set_phase_run, (bind_run _ _ _ _ _ H3).
    rewrite set_phase_run. cbv zeta.
    fold (cycle_origin_info raw_input origin). fold cycle_context_info.
    rewrite (bind_run _ _ _ _ _ H4).
    rewrite set_phase_run, Hwm. reflexivity.
  - intros v. reflexivity.
  - intros v. reflexivity.
  - intros eh Heh.
    destruct (run_except_ok
                (OtherError "AttributeError"
                   "'EnergeticState' object has no attribute 'get'")
                (in_phase WORKING_MEMORY_CONTROL w5))
      as (w'' & Hex & _ & Hrec & _).
    destruct (Hrec eh Heh) as (info & Hh & Hp & Ht & _).
    exists w'', info. split; [exact Hex |]. split; [exact Hh |].
    split; [exact Hp | exact Ht].
Qed.

Lemma controller_rejects_admitted_trajectory_witness :
  exists w',
    _execute_cycle example_controlled_handlers example_running_world
    = (Raise (OtherError "AttributeError"
                "'EnergeticState' object has no attribute 'get'"), w') /\
    current_phase (loop w') = WORKING_MEMORY_CONTROL.
Proof.
  eexists. split.
  - refine (proj1 (controller_rejects_admitted_trajectory
                     example_controlled_handlers example_controller
                     example_running_world
                     (in_phase IDLE example_running_world)
                     (set_ticks 1 (set_uuids 1
                        (in_phase INPUT_INTAKE example_running_world)))
                     (in_phase SENSORY_ADAPTATION
                        (set_ticks 1 (set_uuids 1 example_running_world)))
                     (in_phase PERCEPTION_BOUNDARY
                        (set_ticks 1 (set_uuids 1 example_running_world)))
                     (set_uuids 2
                        (in_phase TRAJECTORY_ADMISSION
                           (set_ticks 1 example_running_world)))
                     (VStr "ping") example_raw_input example_origin_pack
                     (EnergeticState.mk 0.0 0.0 0.0 0.0 0.0 0.0 0.0 0.0)
                     (AdmittedTrajectory.mk "trace-0"
                        (EnergeticState.mk 0.0 0.0 0.0 0.0 0.0 0.0 0.0 0.0)
                        "ALLOW" None None None)
                     eq_refl eq_refl eq_refl eq_refl eq_refl eq_refl)).
  - reflexivity.
Defined.

End ControllerInLoop.


(** ** The scheduler *)

Section SchedulerBehaviour.

Lemma filter_split_length {A} (p q : A -> bool) (l : list A) :
  (forall x, In x l -> q x = negb (p x)) ->
  length (List.filter p l) + length (List.filter q l) = length l.
Proof.
  induction l as [| x l IH]; intros H; [reflexivity |].
  simpl. rewrite (H x (or_introl eq_refl)).
  assert (IH' : length (List.filter p l) + length (List.filter q l) = length l).
  { apply IH. intros y Hy. apply H. right. exact Hy. }
  destruct (p x); simpl; lia.
Qed.

(** [execute_pending] always returns, after one reading of the clock.
    No task is both returned and kept.  A task whose time is a number is
    returned when it is due ([execute_at <= now]) and kept otherwise, so
    when all times and the clock are numbers the two parts split the
    list; but a task whose time is a NaN is neither returned nor kept:
    it is dropped without having been executed. *)
Theorem execute_pending_splits_tasks
    (tasks : list Scheduler.Entry) (w : World) :
  let now := clock (host w) (ticks w) in
  exists pending kept,
    Scheduler.execute_pending tasks w
    = (Ret (pending, kept), set_ticks (S (ticks w)) w) /\
    (forall t, In t pending <->
               In t tasks /\ fle (Scheduler.execute_at t) now = true) /\
    (forall t, In t kept <->
               In t tasks /\ fgt (Scheduler.execute_at t) now = true) /\
    (forall t, In t pending -> ~ In t kept) /\
    (forall t, In t tasks ->
               feq (Scheduler.execute_at t) (Scheduler.execute_at t) = false ->
               ~ In t pending /\ ~ In t kept) /\
    (feq now now = true ->
     (forall t, In t tasks ->
                feq (Scheduler.execute_at t) (Scheduler.execute_at t) = true) ->
     length pending + length kept = length tasks).
Proof.
  cbv zeta. unfold Scheduler.execute_pending. mrun.
  eexists; eexists. split; [reflexivity |].
  split; [| split; [| split; [| split]]].
  - intros t. apply filter_In.
  - intros t. apply filter_In.
  - intros t Hp Hk. apply filter_In in Hp. apply filter_In in Hk.
    destruct Hp as (_ & Hp). destruct Hk as (_ & Hk).
    rewrite (fle_not_fgt _ _ Hp) in Hk. discriminate Hk.
  - intros t _ Hnan.
    destruct (nan_compares_false (Scheduler.execute_at t)
                (clock (host w) (ticks w)) Hnan) as (Hle & Hlt).
    split; intros Hin; apply filter_In in Hin; destruct Hin as (_ & Hin).
    + unfold fle in Hin.
      assert (Hle' : PrimFloat.leb (Scheduler.execute_at t)
                       (clock (host w) (ticks w)) = false).
      { rewrite leb_spec. unfold feq in Hnan.
        rewrite FloatAxioms.eqb_spec in Hnan. unfold SFeqb, SFleb in *.
        destruct (Prim2SF (Scheduler.execute_at t)) as [s | s | | s m e];
          simpl in *; try discriminate Hnan.
        - destruct s; discriminate Hnan.
        - reflexivity.
        - destruct s; rewrite Z.compare_refl, Pos.compare_cont_refl in Hnan;
            discriminate Hnan. }
      congruence.
    + unfold fgt in Hin.
      assert (Hlt' : PrimFloat.ltb (clock (host w) (ticks w))
                       (Scheduler.execute_at t) = false).
      { rewrite ltb_spec. unfold feq in Hnan.
        rewrite FloatAxioms.eqb_spec in Hnan. unfold SFeqb, SFltb in *.
        destruct (Prim2SF (Scheduler.execute_at t)) as [s | s | | s m e];
          simpl in *; try discriminate Hnan.
        - destruct s; discriminate Hnan.
        - destruct (Prim2SF (clock (host w) (ticks w))); reflexivity.
        - destruct s; rewrite Z.compare_refl, Pos.compare_cont_refl in Hnan;
            discriminate Hnan. }
      congruence.
  - intros Hnow Hnum. apply filter_split_length.
    intros t Hin. apply fgt_negb_fle; [apply Hnum; exact Hin | exact Hnow].
Qed.

End SchedulerBehaviour.
